(** * clavedeoroBackend: the request handlers of routes.js, verified

    A shallow embedding of the Express router of the listing backend
    (the auth gate, the object-storage adapter, the contact-form
    notifier and the property / review handlers) together with a model
    of the managed services it talks to, and the properties the
    specification states about them. *)

From Stdlib Require Import String Ascii List ZArith QArith Qcanon Lia.
From stdpp Require Import base option list gmap strings numbers.

Local Open Scope string_scope.
Local Open Scope list_scope.

(** ** JavaScript values *)

Module Js.

(** A value as it arrives in a parsed JSON body or comes back from the
    store.  The body is what [JSON.parse] made of the request text, so
    a number is a double: [JNum q] is a finite one, given by its exact
    value (every double is a rational; the handlers compare numbers and
    test them against zero but never compute with them, and minus zero,
    which is falsy and prints like zero, is not told apart), and
    [JInfinity] is the one a literal too large for a double overflows
    to ([1e999] and [-1e999]).  No NaN is ever met: JSON has no literal
    for it and no handler does arithmetic.  An absent property reads
    as [JUndefined]. *)
#[local] Set Warnings "-register-all".
Inductive JsVal : Type :=
| JUndefined
| JNull
| JBool (b : bool)
| JNum (q : Qc)
| JInfinity (negative : bool)
| JStr (s : string)
| JArr (l : list JsVal)
| JObj (l : list (string * JsVal)).
#[local] Set Warnings "register-all".

(** An object used as a record of named properties. *)
Abbreviation Obj := (gmap string JsVal).

(** [o.k]: reading a property that is not there gives [undefined]. *)
Definition get (k : string) (o : Obj) : JsVal := default JUndefined (o !! k).

Definition is_zero (q : Qc) : bool := Qeq_bool (this q) 0.

(** ToBoolean: [undefined], [null], [false], [0] and [''] are falsy. *)
Definition truthy (v : JsVal) : bool :=
  match v with
  | JUndefined | JNull => false
  | JBool b => b
  | JNum q => negb (is_zero q)
  | JInfinity _ => true
  | JStr s => negb (String.eqb s "")
  | JArr _ | JObj _ => true
  end.

Definition falsy (v : JsVal) : bool := negb (truthy v).

(** [v === undefined || v === null] *)
Definition is_nullish (v : JsVal) : bool :=
  match v with JUndefined | JNull => true | _ => false end.

(** [Array.isArray(v) ? v : []] *)
Definition array_or_empty (v : JsVal) : list JsVal :=
  match v with JArr l => l | _ => [] end.

(** [a === b].  Arrays and objects are compared by identity; the
    values met here come from separate parses, so two of them are never
    the same object. *)
Definition strict_eq (a b : JsVal) : bool :=
  match a, b with
  | JUndefined, JUndefined => true
  | JNull, JNull => true
  | JBool x, JBool y => Bool.eqb x y
  | JNum x, JNum y => bool_decide (x = y)
  | JInfinity x, JInfinity y => Bool.eqb x y
  | JStr x, JStr y => String.eqb x y
  | _, _ => false
  end.

(** [arr.includes(v)] *)
Definition includes (v : JsVal) (arr : list JsVal) : bool :=
  existsb (fun u => strict_eq u v) arr.

(** [arr.filter((u) => u !== v)] *)
Definition remove_all (v : JsVal) (arr : list JsVal) : list JsVal :=
  List.filter (fun u => negb (strict_eq u v)) arr.

(** [v === s] for a string [s]. *)
Definition is_str (s : string) (v : JsVal) : bool := strict_eq v (JStr s).

Definition is_undefined (v : JsVal) : bool :=
  match v with JUndefined => true | _ => false end.

(** [Infinity] and [-Infinity] *)
Definition is_nonfinite (v : JsVal) : bool :=
  match v with JInfinity _ => true | _ => false end.

(** What [JSON.stringify] followed by the receiver's parse makes of a
    value: a number that is not finite becomes [null]; in an array
    [undefined] becomes [null]; in an object a property whose value is
    [undefined] is dropped. *)
Fixpoint wire (v : JsVal) : JsVal :=
  match v with
  | JInfinity _ => JNull
  | JArr l =>
      JArr (List.map (fun x => match x with
                               | JUndefined => JNull
                               | _ => wire x
                               end) l)
  | JObj l =>
      JObj (flat_map (fun kv => match kv with
                                | (_, JUndefined) => []
                                | (k, x) => [(k, wire x)]
                                end) l)
  | _ => v
  end.

(** A value with no [undefined] and no non-finite number anywhere in
    it: JSON carries it as it is. *)
Fixpoint plain (v : JsVal) : bool :=
  match v with
  | JUndefined | JInfinity _ => false
  | JArr l => forallb plain l
  | JObj l => forallb (fun kv => match kv with (_, x) => plain x end) l
  | _ => true
  end.

(** [JSON.stringify] of an object used as a record: this is the object
    that travels to the store, and the form in which the store answers. *)
Definition stringify (o : Obj) : Obj :=
  wire <$> filter (fun kv => is_undefined (snd kv) = false) o.

(** An object literal [{ k1: v1, k2: v2, ... }]. *)
Definition literal (kvs : list (string * JsVal)) : Obj := list_to_map kvs.

(** [s.split(c)] *)
Fixpoint split (c : ascii) (s : string) : list string :=
  match s with
  | EmptyString => [EmptyString]
  | String a s' =>
      if Ascii.eqb a c then EmptyString :: split c s'
      else match split c s' with
           | [] => [String a EmptyString]
           | h :: t => String a h :: t
           end
  end.

(** [s.indexOf(t)]: [None] stands for -1. *)
Definition indexOf (t s : string) : option nat := String.index 0 t s.

(** [s.slice(n)] for [0 <= n]. *)
Fixpoint slice (n : nat) (s : string) : string :=
  match n, s with
  | O, _ => s
  | S n', String _ s' => slice n' s'
  | S _, EmptyString => EmptyString
  end.

(** [s.replace('.', '')]: removes the first dot only. *)
Fixpoint remove_first_dot (s : string) : string :=
  match s with
  | EmptyString => EmptyString
  | String a s' => if Ascii.eqb a "."%char then s' else String a (remove_first_dot s')
  end.

Definition is_space (a : ascii) : bool :=
  let n := nat_of_ascii a in
  (Nat.leb 9 n && Nat.leb n 13) || Nat.eqb n 32.

Fixpoint trim_start (s : string) : string :=
  match s with
  | String a s' => if is_space a then trim_start s' else s
  | EmptyString => EmptyString
  end.

Fixpoint trim_end (s : string) : string :=
  match s with
  | String a s' =>
      match trim_end s' with
      | EmptyString => if is_space a then EmptyString else String a EmptyString
      | t => String a t
      end
  | EmptyString => EmptyString
  end.

(** [s.trim()], for the white space of ASCII.  JavaScript also trims
    the spaces and line terminators outside ASCII; no statement below
    depends on which characters are trimmed. *)
Definition trim (s : string) : string := trim_end (trim_start s).

(** [Object.hasOwn(o, k)] on an object given by its properties. *)
Definition has_key (k : string) (l : list (string * JsVal)) : bool :=
  existsb (fun kv => String.eqb (fst kv) k) l.

(** ToString, as a template literal applies it; [None] stands for the
    TypeError it throws.  An array prints its elements joined by
    commas, [null] and [undefined] as nothing.  An object prints as
    [[object Object]] through [Object.prototype.toString], unless it
    has a [toString] property of its own: a parsed value is never a
    function, so the conversion finds nothing to call, [valueOf] gives
    the object back, and ToString throws.  How a finite number prints
    is left to [num]. *)
Fixpoint to_string (num : Qc -> string) (v : JsVal) : option string :=
  match v with
  | JUndefined => Some "undefined"
  | JNull => Some "null"
  | JBool true => Some "true"
  | JBool false => Some "false"
  | JNum q => Some (num q)
  | JInfinity false => Some "Infinity"
  | JInfinity true => Some "-Infinity"
  | JStr s => Some s
  | JArr l =>
      (fix join (l : list JsVal) : option string :=
         match l with
         | [] => Some ""
         | x :: rest =>
             match (match x with
                    | JUndefined | JNull => Some ""
                    | _ => to_string num x
                    end), rest with
             | Some a, [] => Some a
             | Some a, _ :: _ =>
                 match join rest with
                 | Some b => Some (a +:+ "," +:+ b)
                 | None => None
                 end
             | None, _ => None
             end
         end) l
  | JObj l => if has_key "toString" l then None else Some "[object Object]"
  end.

(** [parts.filter(Boolean).join('/')] on strings. *)
Definition join_nonempty (parts : list string) : string :=
  let kept := List.filter (fun p => negb (String.eqb p "")) parts in
  match kept with
  | [] => ""
  | p :: ps => fold_left (fun acc q => acc +:+ "/" +:+ q) ps p
  end.

End Js.
Import Js.

(** ** The managed services

    The router owns no state: the database, the auth provider, the
    object store and the mail relay are reached through client calls.
    Their observable behaviour is modelled here so that the handlers
    can be run: tables of rows, a bucket of objects, an outbox, the log
    of the calls issued, and an oracle that lets any call fail. *)

Module Services.

(** [{ code, message }] as returned in the [error] field of a client call. *)
Record SbError := { err_code : string; err_message : string }.

(** A thrown JavaScript exception; only [err.message] is ever read. *)
Record Exn := { exn_message : string }.

(** The auth provider's user object; only [id] is read by the router. *)
Record User := { user_id : string; user_email : string }.

Record Mail := {
  mail_from : string;
  mail_to : JsVal;
  mail_subject : string;
  mail_text : string
}.

(** A file as multer's memory storage hands it over. *)
Record File := {
  buffer : list Byte.byte;
  mimetype : string;
  originalname : string
}.

(** The calls that leave the process. *)
Inductive Call : Type :=
| AuthGetUser (token : string)
| DbSelectSingle (table : string) (cols : option (list string)) (col v : string)
| DbInsert (table : string) (payload : Obj)
| DbUpdate (table : string) (patch : Obj) (col v : string)
| StorageUpload (bucket key : string) (buf : list Byte.byte) (contentType : string) (upsert : bool)
| StorageRemove (bucket : string) (paths : list string)
| SendMail (m : Mail).

(** What can go wrong with a call: the service answers with an error,
    or the client throws (for instance when the network is down). *)
Inductive Fault : Type :=
| NoFault
| Fails (e : SbError)
| Throws (x : Exn).

(** What a request cannot change: configuration, the two helper
    libraries, the provider's sessions, the store's constraints and
    identifiers, the random source and the fault oracle.  [fault n c]
    is the fate of call [c] when it is the [n]-th call issued. *)
Record Deps := {
  env : gmap string string;
  mime_extension : string -> option string;
  path_extname : string -> string;
  num_to_string : Qc -> string;
  sessions : gmap string User;
  accepts : string -> Obj -> bool;
  row_id : nat -> string;
  uuid : nat -> string;
  fault : nat -> Call -> Fault
}.

(** What the services hold, and what has been asked of them so far. *)
Record State := {
  tables : gmap string (list Obj);
  objects : gmap (string * string) (list Byte.byte);
  outbox : list Mail;
  rows_created : nat;
  uuids_drawn : nat;
  trace : list Call
}.

Definition set_tables (t : gmap string (list Obj)) (s : State) : State :=
  {| tables := t; objects := objects s; outbox := outbox s;
     rows_created := rows_created s; uuids_drawn := uuids_drawn s; trace := trace s |}.

Definition set_objects (o : gmap (string * string) (list Byte.byte)) (s : State) : State :=
  {| tables := tables s; objects := o; outbox := outbox s;
     rows_created := rows_created s; uuids_drawn := uuids_drawn s; trace := trace s |}.

Definition set_outbox (o : list Mail) (s : State) : State :=
  {| tables := tables s; objects := objects s; outbox := o;
     rows_created := rows_created s; uuids_drawn := uuids_drawn s; trace := trace s |}.

Definition set_rows_created (n : nat) (s : State) : State :=
  {| tables := tables s; objects := objects s; outbox := outbox s;
     rows_created := n; uuids_drawn := uuids_drawn s; trace := trace s |}.

Definition set_uuids_drawn (n : nat) (s : State) : State :=
  {| tables := tables s; objects := objects s; outbox := outbox s;
     rows_created := rows_created s; uuids_drawn := n; trace := trace s |}.

Definition log (c : Call) (s : State) : State :=
  {| tables := tables s; objects := objects s; outbox := outbox s;
     rows_created := rows_created s; uuids_drawn := uuids_drawn s;
     trace := trace s ++ [c] |}.

(** The rows of a table as the store reports them.  The store answers
    every query in JSON, so what a table is seen to hold is what JSON
    can carry; a row written through the client is reported as it was
    written. *)
Definition rows (table : string) (s : State) : list Obj :=
  stringify <$> default [] (tables s !! table).

(** ** Computations: state and exceptions *)

Inductive Res (A : Type) : Type :=
| Val (a : A)
| Throw (x : Exn).
Arguments Val {A} a.
Arguments Throw {A} x.

Definition M (A : Type) : Type := State -> Res A * State.

Definition ret {A} (a : A) : M A := fun s => (Val a, s).

Definition throw {A} (x : Exn) : M A := fun s => (Throw x, s).

Definition bind {A B} (m : M A) (k : A -> M B) : M B :=
  fun s => match m s with
           | (Val a, s') => k a s'
           | (Throw x, s') => (Throw x, s')
           end.

(** [try { body } catch (err) { handler }] *)
Definition try_catch {A} (body : M A) (handler : Exn -> M A) : M A :=
  fun s => match body s with
           | (Val a, s') => (Val a, s')
           | (Throw x, s') => handler x s'
           end.

Definition modify (f : State -> State) : M unit := fun s => (Val tt, f s).

Definition gets {A} (f : State -> A) : M A := fun s => (Val (f s), s).

Declare Scope js_scope.
Delimit Scope js_scope with js.
Notation "'let*' x ':=' c1 'in' c2" := (bind c1 (fun x => c2))
  (at level 10, x name, c1 at level 100, c2 at level 200) : js_scope.
Notation "c1 ';;' c2" := (bind c1 (fun _ => c2))
  (at level 100, c2 at level 200, right associativity) : js_scope.
Local Open Scope js_scope.

(** ** The service calls *)

Section Calls.
Variable d : Deps.

(** Every call is logged, then the oracle decides whether it goes through. *)
Definition attempt (c : Call) : M Fault :=
  fun s => (Val (fault d (length (trace s)) c), log c s).

(** *** Auth provider *)

Record AuthResp := { auth_user : option User; auth_error : option SbError }.

Definition invalid_jwt : SbError :=
  {| err_code := "bad_jwt"; err_message := "invalid JWT" |}.

(** [supabase.auth.getUser(token)] *)
Definition auth_getUser (token : string) : M AuthResp :=
  let* f := attempt (AuthGetUser token) in
  match f with
  | Throws x => throw x
  | Fails e => ret {| auth_user := None; auth_error := Some e |}
  | NoFault =>
      match sessions d !! token with
      | Some u => ret {| auth_user := Some u; auth_error := None |}
      | None => ret {| auth_user := None; auth_error := Some invalid_jwt |}
      end
  end.

(** *** Database *)

Record DbResp := { data : option Obj; error : option SbError }.

Definition ok_row (r : Obj) : DbResp := {| data := Some r; error := None |}.
Definition db_error (e : SbError) : DbResp := {| data := None; error := Some e |}.

(** The error [.single()] gives when the result is not exactly one row. *)
Definition PGRST116 : SbError :=
  {| err_code := "PGRST116";
     err_message := "JSON object requested, multiple (or no) rows returned" |}.

Definition check_violation : SbError :=
  {| err_code := "23514"; err_message := "new row violates a constraint" |}.

Definition unique_violation : SbError :=
  {| err_code := "23505"; err_message := "duplicate key value violates unique constraint" |}.

Definition invalid_key : SbError :=
  {| err_code := "22P02"; err_message := "invalid input syntax for the key" |}.

(** [.eq(col, v)]: keys are compared in their textual form. *)
Definition matches (col v : string) (r : Obj) : bool := is_str v (get col r).

(** [.select('a, b')] keeps the listed columns, [.select()] keeps all. *)
Definition project (cols : option (list string)) (r : Obj) : Obj :=
  match cols with
  | None => r
  | Some cs => filter (fun kv => bool_decide (fst kv ∈ cs)) r
  end.

(** [.from(table).select(cols).eq(col, v).single()] *)
Definition db_select_single (table : string) (cols : option (list string))
    (col v : string) : M DbResp :=
  let* f := attempt (DbSelectSingle table cols col v) in
  match f with
  | Throws x => throw x
  | Fails e => ret (db_error e)
  | NoFault =>
      let* found := gets (fun s => List.filter (matches col v) (rows table s)) in
      match found with
      | [r] => ret (ok_row (project cols r))
      | _ => ret (db_error PGRST116)
      end
  end.

(** [.from(table).insert(payload).select().single()]: the store checks
    its constraints, names the row when the payload does not, refuses
    a key that is taken, and answers with the row it created. *)
Definition db_insert (table : string) (payload : Obj) : M DbResp :=
  let* f := attempt (DbInsert table payload) in
  match f with
  | Throws x => throw x
  | Fails e => ret (db_error e)
  | NoFault =>
      let sent := stringify payload in
      if negb (accepts d table sent) then ret (db_error check_violation)
      else
        let* n := gets rows_created in
        let row := match sent !! "id" with
                   | Some _ => sent
                   | None => <["id" := JStr (row_id d n)]> sent
                   end in
        match get "id" row with
        | JStr i =>
            let* old := gets (rows table) in
            if existsb (matches "id" i) old then ret (db_error unique_violation)
            else
              modify (fun s => set_rows_created (S n)
                                 (set_tables (<[table := old ++ [row]]> (tables s)) s)) ;;
              ret (ok_row row)
        | _ => ret (db_error invalid_key)
        end
  end.

(** [.from(table).update(patch).eq(col, v).select().single()]: the
    columns named in the patch are overwritten in the one matching row;
    with no or several matching rows nothing is written. *)
Definition db_update (table : string) (patch : Obj) (col v : string) : M DbResp :=
  let* f := attempt (DbUpdate table patch col v) in
  match f with
  | Throws x => throw x
  | Fails e => ret (db_error e)
  | NoFault =>
      let* old := gets (rows table) in
      match List.filter (matches col v) old with
      | [r] =>
          let r' := stringify patch ∪ r in
          if negb (accepts d table r') then ret (db_error check_violation)
          else
            modify (fun s => set_tables
              (<[table := List.map (fun x => if matches col v x then r' else x) old]>
                 (tables s)) s) ;;
            ret (ok_row r')
      | _ => ret (db_error PGRST116)
      end
  end.

(** *** Object storage *)

Definition already_exists : SbError :=
  {| err_code := "409"; err_message := "The resource already exists" |}.

(** [.storage.from(bucket).upload(key, buf, { contentType, upsert })] *)
Definition storage_upload (bucket key : string) (buf : list Byte.byte)
    (contentType : string) (upsert : bool) : M (option SbError) :=
  let* f := attempt (StorageUpload bucket key buf contentType upsert) in
  match f with
  | Throws x => throw x
  | Fails e => ret (Some e)
  | NoFault =>
      let* objs := gets objects in
      match objs !! (bucket, key) with
      | Some _ =>
          if upsert then modify (set_objects (<[(bucket, key) := buf]> objs)) ;; ret None
          else ret (Some already_exists)
      | None => modify (set_objects (<[(bucket, key) := buf]> objs)) ;; ret None
      end
  end.

(** [.storage.from(bucket).remove(paths)]: removing a path that holds
    nothing is not an error. *)
Definition storage_remove (bucket : string) (paths : list string) : M (option SbError) :=
  let* f := attempt (StorageRemove bucket paths) in
  match f with
  | Throws x => throw x
  | Fails e => ret (Some e)
  | NoFault =>
      modify (fun s => set_objects
        (fold_right (fun p o => delete (bucket, p) o) (objects s) paths) s) ;;
      ret None
  end.

(** [.storage.from(bucket).getPublicUrl(key)]: computed locally; the
    shape is the one the detach handler documents. *)
Definition getPublicUrl (bucket key : string) : string :=
  default "" (env d !! "SUPABASE_URL")
    +:+ "/storage/v1/object/public/" +:+ bucket +:+ "/" +:+ key.

(** [uuidv4()] *)
Definition uuidv4 : M string :=
  let* n := gets uuids_drawn in
  modify (set_uuids_drawn (S n)) ;;
  ret (uuid d n).

(** *** Mail relay *)

(** [transporter.sendMail(options)]: the promise rejects on failure. *)
Definition sendMail (m : Mail) : M unit :=
  let* f := attempt (SendMail m) in
  match f with
  | Throws x => throw x
  | Fails e => throw {| exn_message := err_message e |}
  | NoFault => modify (fun s => set_outbox (outbox s ++ [m]) s)
  end.

End Calls.

End Services.
Import Services.
Local Open Scope js_scope.

(** ** The Sequelize models (models/Review.js, models/Property.js)

    The shape the repository declares for the two tables: which
    columns may not be null.  routes.js never loads these models (it
    talks to the managed store through its client), so nothing here is
    enforced by the program or assumed of the store: the declarations
    are what the payloads the handlers send are compared with. *)

Module Models.

(** [allowNull: false] *)
Definition not_null (col : string) (r : Obj) : bool := negb (is_nullish (get col r)).

(** [allowNull: false] on a column with a [defaultValue]: a value left
    out takes the default, an explicit [null] is refused. *)
Definition not_null_defaulted (col : string) (r : Obj) : bool :=
  match get col r with
  | JNull => false
  | _ => true
  end.

(** The Property model: [name], [owner], [price], [area] and
    [location] are required; [exactAddress] and [bhkType] may not be
    null but have defaults; every other column may be null. *)
Definition Property (r : Obj) : bool :=
  not_null "name" r && not_null "owner" r && not_null "price" r && not_null "area" r
  && not_null_defaulted "exactAddress" r && not_null_defaulted "bhkType" r
  && not_null "location" r.

End Models.
Import Models.

(** ** The router (routes.js) *)

Module Router.

Record Response := { status : nat; json : JsVal }.

(** [res.status(code).json({ message })] *)
Definition message (code : nat) (m : string) : Response :=
  {| status := code; json := JObj [("message", JStr m)] |}.

(** [res.status(code).json({ message, error })] *)
Definition message_error (code : nat) (m e : string) : Response :=
  {| status := code; json := JObj [("message", JStr m); ("error", JStr e)] |}.

(** A row as a JSON value; [null] when the client gave no data. *)
Definition json_of (r : option Obj) : JsVal :=
  match r with
  | Some o => JObj (map_to_list o)
  | None => JNull
  end.

(** A request as a handler sees it: the Authorization header, the
    [:id] of the path, the parsed JSON body, the files of a multipart
    body (all sent in the field the route names), and what the
    middlewares have attached so far ([req.files], [req.user],
    [req.admin]). *)
Record Request := {
  authorization : option string;
  param_id : string;
  body : Obj;
  multipart : list File;
  files : option (list File);
  user : option User;
  admin : option Obj
}.

Definition set_user (u : User) (req : Request) : Request :=
  {| authorization := authorization req; param_id := param_id req; body := body req;
     multipart := multipart req; files := files req; user := Some u; admin := admin req |}.

Definition set_admin (a : Obj) (req : Request) : Request :=
  {| authorization := authorization req; param_id := param_id req; body := body req;
     multipart := multipart req; files := files req; user := user req; admin := Some a |}.

Definition set_files (fs : list File) (req : Request) : Request :=
  {| authorization := authorization req; param_id := param_id req; body := body req;
     multipart := multipart req; files := Some fs; user := user req; admin := admin req |}.

(** What a middleware does: hand the request on ([next()]), answer
    it, or hand an error on ([next(err)]). *)
Inductive Step : Type :=
| Next (req : Request)
| Send (res : Response)
| Fail (err : Exn).

(** Reading a property of [undefined] or [null]. *)
Definition TypeError : Exn :=
  {| exn_message := "Cannot read properties of undefined" |}.

(** ToString of an object that has nothing to convert it with. *)
Definition cannot_convert : Exn :=
  {| exn_message := "Cannot convert object to primitive value" |}.

Definition REVIEW_BUCKET : string := "review-images".
Definition PROPERTY_BUCKET : string := "property-images".

Section Handlers.
Variable d : Deps.

(** [process.env.K] *)
Definition getenv (k : string) : option string := env d !! k.

(** [a || b] on a string that may be undefined. *)
Definition or_else (a : option string) (b : string) : string :=
  match a with
  | Some s => if String.eqb s "" then b else s
  | None => b
  end.

(** *** Object-storage adapter *)

(** [mime.extension(mimetype) || path.extname(originalName).replace('.', '') || 'bin'] *)
Definition upload_ext (originalName mimetype : string) : string :=
  or_else (mime_extension d mimetype)
    (or_else (Some (remove_first_dot (path_extname d originalName))) "bin").

Definition uploadToBucket (bucket : string) (fileBuffer : list Byte.byte)
    (originalName mimetype subfolder : string) : M (string * string) :=
  let ext := upload_ext originalName mimetype in
  let* id := uuidv4 d in
  let key := join_nonempty [subfolder; id +:+ "." +:+ ext] in
  let* upErr := storage_upload d bucket key fileBuffer mimetype false in
  match upErr with
  | Some e => throw {| exn_message := err_message e |}
  | None => ret (key, getPublicUrl d bucket key)
  end.

(** multer: [limits: { fileSize: 10 * 1024 * 1024 }] and
    [upload.array('files', maxCount)].  The parts are read in order;
    the first one that is a file too many or grows over the size limit
    ends the parsing with a MulterError, which multer hands to
    [next]: the handler is not run. *)
Definition fileSize_limit : N := (10 * 1024 * 1024)%N.

Definition too_large (f : File) : bool :=
  (fileSize_limit <? N.of_nat (length (buffer f)))%N.

(** [new MulterError('LIMIT_UNEXPECTED_FILE')], [new MulterError('LIMIT_FILE_SIZE')] *)
Definition LIMIT_UNEXPECTED_FILE : Exn := {| exn_message := "Unexpected field" |}.
Definition LIMIT_FILE_SIZE : Exn := {| exn_message := "File too large" |}.

Fixpoint multer_scan (left : nat) (parts : list File) : option Exn :=
  match parts with
  | [] => None
  | f :: rest =>
      match left with
      | O => Some LIMIT_UNEXPECTED_FILE
      | S left' => if too_large f then Some LIMIT_FILE_SIZE else multer_scan left' rest
      end
  end.

Definition upload_array (maxCount : nat) (req : Request) : M Step :=
  match multer_scan maxCount (multipart req) with
  | Some err => ret (Fail err)
  | None => ret (Next (set_files (multipart req) req))
  end.

(** *** Contact-form notifier *)

Definition nl : string := String (ascii_of_nat 10) EmptyString.

(** The template literal of the mail body, trimmed; [None] when the
    conversion of one of the five fields throws. *)
Definition contact_text (formData : Obj) : option string :=
  let str k := to_string (num_to_string d) (get k formData) in
  match str "name", str "phone", str "email", str "subject", str "countryCode" with
  | Some name, Some phone, Some email, Some subject, Some countryCode =>
      Some (trim (nl +:+ "Name: " +:+ name +:+ nl
                  +:+ "Phone Number: " +:+ phone +:+ nl
                  +:+ "Email: " +:+ email +:+ nl
                  +:+ "Subject: " +:+ subject +:+ nl
                  +:+ "Country Code: " +:+ countryCode +:+ nl))
  | _, _, _, _, _ => None
  end.

(** Evaluating the template literal. *)
Definition template (text : option string) : M string :=
  match text with
  | Some t => ret t
  | None => throw cannot_convert
  end.

(** [process.env.MAIL_FROM || process.env.MAIL_USER || ''] *)
Definition operator_inbox : string :=
  or_else (getenv "MAIL_FROM") (or_else (getenv "MAIL_USER") "").

Definition sendContactForm (formData : Obj) : M unit :=
  let* text := template (contact_text formData) in
  let mailOptions :=
    {| mail_from := operator_inbox;
       mail_to := get "email" formData;
       mail_subject := "New Contact Form";
       mail_text := text |} in
  sendMail d mailOptions ;;
  let* text2 := template (contact_text formData) in
  let mailOptions2 :=
    {| mail_from := operator_inbox;
       mail_to := JStr operator_inbox;
       mail_subject := "New Contact Form";
       mail_text := text2 |} in
  sendMail d mailOptions2.

(** *** Auth gate *)

(** [error && error.code === 'PGRST116'] *)
Definition not_found (e : option SbError) : bool :=
  match e with
  | Some e => String.eqb (err_code e) "PGRST116"
  | None => false
  end.

(** [error && error.code !== 'PGRST116'] *)
Definition other_error (e : option SbError) : bool :=
  match e with
  | Some e => negb (String.eqb (err_code e) "PGRST116")
  | None => false
  end.

(** [req.header('Authorization')?.split(' ')[1]] *)
Definition bearer_token (req : Request) : option string :=
  match authorization req with
  | Some h => split " " h !! 1%nat
  | None => None
  end.

Definition verifySupabaseUser (req : Request) : M Step :=
  try_catch
    (match bearer_token req with
     | None => ret (Send (message 403 "Access denied: missing token"))
     | Some token =>
         if String.eqb token "" then ret (Send (message 403 "Access denied: missing token"))
         else
           let* r := auth_getUser d token in
           match auth_error r, auth_user r with
           | None, Some u => ret (Next (set_user u req))
           | _, _ => ret (Send (message 401 "Invalid or expired Supabase token"))
           end
     end)
    (fun _ => ret (Send (message 500 "Server error"))).

Definition requireAdmin (req : Request) : M Step :=
  try_catch
    (match user req with
     | None => ret (Send (message 401 "Unauthorized"))
     | Some u =>
         let authUserId := user_id u in
         if String.eqb authUserId "" then ret (Send (message 401 "Unauthorized"))
         else
           let* r := db_select_single d "admin_users" (Some ["auth_user_id"; "is_admin"])
                       "auth_user_id" authUserId in
           if other_error (error r) then ret (Send (message 500 "Server error"))
           else
             match data r with
             | None => ret (Send (message 403 "Admin privileges required"))
             | Some adminRow =>
                 if falsy (get "is_admin" adminRow)
                 then ret (Send (message 403 "Admin privileges required"))
                 else ret (Next (set_admin
                        (literal [("auth_user_id", get "auth_user_id" adminRow);
                                  ("is_admin", get "is_admin" adminRow)]) req))
             end
     end)
    (fun _ => ret (Send (message 500 "Server error"))).

(** *** Properties *)

(** The object literal built from the destructured body. *)
Definition property_payload (b : Obj) (created_by : string) : Obj :=
  literal [("name", get "name" b);
           ("description", get "description" b);
           ("price", get "price" b);
           ("location", get "location" b);
           ("owner", get "owner" b);
           ("area", get "area" b);
           ("exactAddress", get "exactAddress" b);
           ("bhkType", get "bhkType" b);
           ("amenities", get "amenities" b);
           ("ratings", get "ratings" b);
           ("reviews", get "reviews" b);
           ("image", get "image" b);
           ("created_by", JStr created_by)].

(** [req.user.id] *)
Definition req_user_id (req : Request) : M string :=
  match user req with
  | Some u => ret (user_id u)
  | None => throw TypeError
  end.

(** POST /admin/properties *)
Definition create_property (req : Request) : M Response :=
  try_catch
    (let b := body req in
     if falsy (get "name" b) || falsy (get "owner" b) || falsy (get "price" b)
        || falsy (get "area" b) || falsy (get "exactAddress" b)
        || falsy (get "bhkType" b) || falsy (get "location" b)
     then ret (message 400 "Missing required fields")
     else
       let* uid := req_user_id req in
       let* r := db_insert d "properties" (property_payload b uid) in
       match error r with
       | Some e => ret (message_error 500 "Error creating property" (err_message e))
       | None => ret {| status := 201; json := json_of (data r) |}
       end)
    (fun err => ret (message_error 500 "Error creating property" (exn_message err))).

(** [prop.images], [updated.images]: reading through [null] throws. *)
Definition images_of (r : option Obj) : M JsVal :=
  match r with
  | Some o => ret (get "images" o)
  | None => throw TypeError
  end.

(** The upload loop: [for (const file of files) { ...; uploaded.push(publicUrl) }] *)
Fixpoint upload_each (folder : string) (fs : list File) (uploaded : list JsVal)
    : M (list JsVal) :=
  match fs with
  | [] => ret uploaded
  | file :: rest =>
      let* r := uploadToBucket PROPERTY_BUCKET (buffer file) (originalname file)
                  (mimetype file) folder in
      upload_each folder rest (uploaded ++ [JStr (snd r)])
  end.

(** POST /admin/properties/:id/upload-images *)
Definition upload_images (req : Request) : M Response :=
  try_catch
    (let id := param_id req in
     let fs := default [] (files req) in
     if Nat.eqb (length fs) 0 then ret (message 400 "No files uploaded")
     else
       let* r := db_select_single d "properties" (Some ["id"; "images"]) "id" id in
       if not_found (error r) then ret (message 404 "Property not found")
       else
         match error r with
         | Some getErr => ret (message_error 500 "Error reading property" (err_message getErr))
         | None =>
             let* uploaded := upload_each ("properties/" +:+ id) fs [] in
             let* imgs := images_of (data r) in
             let current := array_or_empty imgs in
             let updatedImages := current ++ uploaded in
             let* u := db_update d "properties" (literal [("images", JArr updatedImages)])
                         "id" id in
             match error u with
             | Some updErr =>
                 ret (message_error 500 "Failed to save image URLs" (err_message updErr))
             | None =>
                 let* out := images_of (data u) in
                 ret {| status := 200;
                        json := JObj [("message", JStr "Uploaded"); ("images", out)] |}
             end
         end)
    (fun err => ret (message_error 500 "Upload failed" (exn_message err))).

(** [url.indexOf(base)] and [url.slice(idx + base.length)]: only a
    string has these methods. *)
Definition as_string (v : JsVal) : M string :=
  match v with
  | JStr s => ret s
  | _ => throw TypeError
  end.

(** DELETE /admin/properties/:id/images *)
Definition delete_image (req : Request) : M Response :=
  try_catch
    (let id := param_id req in
     let url := get "url" (body req) in
     if falsy url then ret (message 400 "Missing url")
     else
       let* r := db_select_single d "properties" (Some ["id"; "images"]) "id" id in
       if not_found (error r) then ret (message 404 "Property not found")
       else
         match error r with
         | Some getErr => ret (message_error 500 "Error reading property" (err_message getErr))
         | None =>
             let* imgs := images_of (data r) in
             let images := array_or_empty imgs in
             if negb (includes url images) then ret (message 400 "URL not found on property")
             else
               let base := "/storage/v1/object/public/" +:+ PROPERTY_BUCKET +:+ "/" in
               let* urls := as_string url in
               match indexOf base urls with
               | None => ret (message 400 "Unrecognized storage URL")
               | Some idx =>
                   let objectPath := slice (idx + String.length base) urls in
                   let* delErr := storage_remove d PROPERTY_BUCKET [objectPath] in
                   match delErr with
                   | Some e => ret (message_error 500 "Failed to delete file" (err_message e))
                   | None =>
                       let newImages := remove_all url images in
                       let* u := db_update d "properties"
                                   (literal [("images", JArr newImages)]) "id" id in
                       match error u with
                       | Some updErr =>
                           ret (message_error 500 "Failed to update DB" (err_message updErr))
                       | None =>
                           let* out := images_of (data u) in
                           ret {| status := 200;
                                  json := JObj [("message", JStr "Removed"); ("images", out)] |}
                       end
                   end
               end
         end)
    (fun err => ret (message_error 500 "Delete failed" (exn_message err))).

(** PUT /admin/properties/:id *)
Definition update_property (req : Request) : M Response :=
  try_catch
    (let id := param_id req in
     let* r := db_select_single d "properties" (Some ["id"]) "id" id in
     if not_found (error r) then ret (message 404 "Property not found")
     else
       match error r with
       | Some getErr =>
           ret (message_error 500 "Error updating property" (err_message getErr))
       | None =>
           let* u := db_update d "properties" (body req) "id" id in
           match error u with
           | Some e => ret (message_error 500 "Error updating property" (err_message e))
           | None =>
               ret {| status := 200;
                      json := JObj [("message", JStr "Property updated successfully");
                                    ("property", json_of (data u))] |}
           end
       end)
    (fun err => ret (message_error 500 "Error updating property" (exn_message err))).

(** *** Contact form *)

(** POST /contactform *)
Definition contactform (req : Request) : M Response :=
  let formData := body req in
  if falsy (get "name" formData) || falsy (get "phone" formData)
     || falsy (get "email" formData)
  then ret (message 400 "Missing required fields")
  else
    try_catch
      (sendContactForm formData ;;
       ret (message 200 "Form submitted successfully, email sent."))
      (fun err => ret (message_error 500 "Error sending email" (exn_message err))).

(** *** Reviews *)

Definition review_payload (b : Obj) (created_by : string) : Obj :=
  literal [("customerName", get "customerName" b);
           ("ratings", get "ratings" b);
           ("review", get "review" b);
           ("image", get "image" b);
           ("created_by", JStr created_by)].

(** POST /admin/reviews *)
Definition create_review (req : Request) : M Response :=
  try_catch
    (let b := body req in
     if falsy (get "customerName" b) || is_nullish (get "ratings" b)
     then ret (message 400 "Customer name and ratings are required")
     else
       let* uid := req_user_id req in
       let* r := db_insert d "reviews" (review_payload b uid) in
       match error r with
       | Some e => ret (message_error 500 "Server error" (err_message e))
       | None => ret {| status := 201; json := json_of (data r) |}
       end)
    (fun _ => ret (message 500 "Server error")).

(** [router.METHOD(path, m1, ..., mk, handler)]: the middlewares run in
    order and the first one that answers ends the request.  An error
    handed to [next] skips what is left of the route and leaves the
    router, which has no error-handling middleware. *)
Fixpoint route (mws : list (Request -> M Step)) (handler : Request -> M Response)
    (req : Request) : M Response :=
  match mws with
  | [] => handler req
  | mw :: rest =>
      let* st := mw req in
      match st with
      | Next req' => route rest handler req'
      | Send res => ret res
      | Fail err => throw err
      end
  end.

(** index.js mounts the router with [app.use('/', router)] and installs
    no error-handling middleware either: an error that leaves a route
    is answered by Express's default handler, with the status the error
    carries and 500 when, as for a MulterError, it carries none; the
    body is then an error page, not JSON. *)
Inductive Reply : Type :=
| Json (res : Response)
| ErrorPage (code : nat) (err : Exn).

Definition reply_status (r : Reply) : nat :=
  match r with
  | Json res => status res
  | ErrorPage code _ => code
  end.

Definition serve (r : Request -> M Response) (req : Request) (s : State) : Reply * State :=
  match r req s with
  | (Val res, s') => (Json res, s')
  | (Throw err, s') => (ErrorPage 500 err, s')
  end.

(** The routes the claims are about, as registered on the router. *)
Definition post_admin_properties : Request -> M Response :=
  route [verifySupabaseUser; requireAdmin] create_property.

Definition post_admin_properties_upload_images : Request -> M Response :=
  route [verifySupabaseUser; requireAdmin; upload_array 10] upload_images.

Definition delete_admin_properties_images : Request -> M Response :=
  route [verifySupabaseUser; requireAdmin] delete_image.

Definition put_admin_properties : Request -> M Response :=
  route [verifySupabaseUser; requireAdmin] update_property.

Definition post_admin_reviews : Request -> M Response :=
  route [verifySupabaseUser; requireAdmin] create_review.

Definition post_contactform : Request -> M Response :=
  route [] contactform.

End Handlers.

End Router.
Import Router.

(** ** The other routes of routes.js that use the same service calls *)

Module MoreRoutes.

Section Handlers.
Variable d : Deps.

(** [req.user] and [req.admin] as they go into a JSON body. *)
Definition user_json (u : option User) : JsVal :=
  match u with
  | Some u => JObj [("id", JStr (user_id u)); ("email", JStr (user_email u))]
  | None => JUndefined
  end.

Definition admin_json (a : option Obj) : JsVal :=
  match a with
  | Some a => JObj (map_to_list a)
  | None => JUndefined
  end.

(** GET /admin/protected *)
Definition admin_protected (req : Request) : M Response :=
  ret {| status := 200;
         json := JObj [("message", JStr "Access granted to protected route");
                       ("user", user_json (user req));
                       ("admin", admin_json (admin req))] |}.

(** GET /properties/:id *)
Definition get_property (req : Request) : M Response :=
  try_catch
    (let id := param_id req in
     let* r := db_select_single d "properties" None "id" id in
     if not_found (error r) then ret (message 404 "Property not found")
     else
       match error r with
       | Some e => ret (message_error 500 "Error fetching property" (err_message e))
       | None => ret {| status := 200; json := json_of (data r) |}
       end)
    (fun err => ret (message_error 500 "Error fetching property" (exn_message err))).

(** The update payload of a review: the [review] column is fed from the
    [comments] field of the body. *)
Definition review_update_payload (b : Obj) (updated_by : string) : Obj :=
  literal [("customerName", get "customerName" b);
           ("ratings", get "ratings" b);
           ("image", get "image" b);
           ("review", get "comments" b);
           ("updated_by", JStr updated_by)].

(** PUT /admin/reviews/:id *)
Definition update_review (req : Request) : M Response :=
  try_catch
    (let id := param_id req in
     let b := body req in
     let* r := db_select_single d "reviews" (Some ["id"]) "id" id in
     if not_found (error r) then ret (message 404 "Review not found")
     else
       match error r with
       | Some getErr =>
           ret (message_error 500 "Error updating review" (err_message getErr))
       | None =>
           let* uid := req_user_id req in
           let* u := db_update d "reviews" (review_update_payload b uid) "id" id in
           match error u with
           | Some e => ret (message_error 500 "Error updating review" (err_message e))
           | None =>
               ret {| status := 200;
                      json := JObj [("message", JStr "Review updated successfully");
                                    ("review", json_of (data u))] |}
           end
       end)
    (fun err => ret (message_error 500 "Error updating review" (exn_message err))).


(** POST /admin/reviews/upload-image, with [req.file] as left by multer. *)
Definition upload_review_image (file : option File) : M Response :=
  try_catch
    (match file with
     | None => ret (message 400 "No file uploaded")
     | Some f =>
         let* r := uploadToBucket d REVIEW_BUCKET (buffer f) (originalname f)
                     (mimetype f) "reviews" in
         ret {| status := 200; json := JObj [("url", JStr (snd r))] |}
     end)
    (fun err => ret (message_error 500 "Upload failed" (exn_message err))).

Definition get_admin_protected : Request -> M Response :=
  route [verifySupabaseUser d; requireAdmin d] admin_protected.

Definition get_properties_id : Request -> M Response :=
  route [] get_property.



End Handlers.

End MoreRoutes.
Import MoreRoutes.

(** ** What a run leaves behind *)

Module Observe.

(** The calls that only read: the token check and a single-row select. *)
Definition is_read (c : Call) : bool :=
  match c with
  | AuthGetUser _ | DbSelectSingle _ _ _ _ => true
  | _ => false
  end.

(** The calls issued between two states of one run. *)
Definition calls_since (s s' : State) : list Call :=
  drop (length (trace s)) (trace s').

(** Nothing was written between [s] and [s']: the tables, the bucket
    and the outbox are the same, and every call issued was a read. *)
Record reads_only (s s' : State) : Prop := {
  ro_tables : tables s' = tables s;
  ro_objects : objects s' = objects s;
  ro_outbox : outbox s' = outbox s;
  ro_rows_created : rows_created s' = rows_created s;
  ro_uuids_drawn : uuids_drawn s' = uuids_drawn s;
  ro_trace : exists calls, trace s' = trace s ++ calls /\ forallb is_read calls = true
}.

(** The images sequence of the property with the given id. *)
Definition images_at (id : string) (s : State) : list JsVal :=
  match List.filter (matches "id" id) (rows "properties" s) with
  | [r] => array_or_empty (get "images" r)
  | _ => []
  end.

(** The fields a property must have at creation. *)
Definition required_property_fields : list string :=
  ["name"; "owner"; "price"; "area"; "exactAddress"; "bhkType"; "location"].

(** The required-field test of the create handler. *)
Definition missing_check (b : Obj) : bool :=
  falsy (get "name" b) || falsy (get "owner" b) || falsy (get "price" b)
  || falsy (get "area" b) || falsy (get "exactAddress" b)
  || falsy (get "bhkType" b) || falsy (get "location" b).

(** The prefix the detach handler looks for in a public URL. *)
Definition detach_base : string :=
  "/storage/v1/object/public/" +:+ PROPERTY_BUCKET +:+ "/".

(** The existence check of the attach and detach handlers. *)
Definition read_images (id : string) : Call :=
  DbSelectSingle "properties" (Some ["id"; "images"]) "id" id.

(** The object key the adapter builds from a drawn identifier. *)
Definition object_key (subfolder id ext : string) : string :=
  if String.eqb subfolder "" then id +:+ "." +:+ ext
  else subfolder +:+ "/" +:+ id +:+ "." +:+ ext.

(** The key and the public URL of a file attached to property [id]
    when [n] identifiers have been drawn before. *)
Definition attach_key (d : Deps) (id : string) (n : nat) (f : File) : string :=
  object_key ("properties/" +:+ id) (uuid d n)
    (upload_ext d (originalname f) (mimetype f)).

Fixpoint attach_keys (d : Deps) (id : string) (n : nat) (fs : list File) : list string :=
  match fs with
  | [] => []
  | f :: rest => attach_key d id n f :: attach_keys d id (S n) rest
  end.

Fixpoint attach_calls (d : Deps) (id : string) (n : nat) (fs : list File) : list Call :=
  match fs with
  | [] => []
  | f :: rest =>
      StorageUpload PROPERTY_BUCKET (attach_key d id n f) (buffer f) (mimetype f) false
      :: attach_calls d id (S n) rest
  end.

Definition attach_urls (d : Deps) (id : string) (n : nat) (fs : list File) : list JsVal :=
  List.map (fun k => JStr (getPublicUrl d PROPERTY_BUCKET k)) (attach_keys d id n fs).

(** The two notifications of a contact-form submission whose body
    is [text]. *)
Definition mail_to_submitter (d : Deps) (formData : Obj) (text : string) : Mail :=
  {| mail_from := operator_inbox d;
     mail_to := get "email" formData;
     mail_subject := "New Contact Form";
     mail_text := text |}.

Definition mail_to_operator (d : Deps) (text : string) : Mail :=
  {| mail_from := operator_inbox d;
     mail_to := JStr (operator_inbox d);
     mail_subject := "New Contact Form";
     mail_text := text |}.

(** A value, and a row, in the form JSON gives it. *)
Definition in_json (v : JsVal) : Prop := wire v = v /\ is_undefined v = false.
Definition row_in_json (r : Obj) : Prop := stringify r = r.

(** The fields of the body the mail text is built from. *)
Definition contact_fields : list string :=
  ["name"; "phone"; "email"; "subject"; "countryCode"].

(** A request over one of multer's limits: more files than [maxCount],
    or a file over the size limit. *)
Definition over_limit (maxCount : nat) (parts : list File) : bool :=
  Nat.ltb maxCount (length parts) || existsb too_large parts.

(** A ratings value outside the interval from 1 to 5. *)
Definition outside_1_5 (v : JsVal) : bool :=
  match v with
  | JNum q => bool_decide (q < Qc_of_Z 1)%Qc || bool_decide (Qc_of_Z 5 < q)%Qc
  | JInfinity _ => true
  | _ => false
  end.

(** [error.message] of a send that did not go through. *)
Definition failure_message (f : Fault) : string :=
  match f with
  | NoFault => ""
  | Fails e => err_message e
  | Throws x => exn_message x
  end.

(** A word: a string with no space in it. *)
Fixpoint no_space (s : string) : bool :=
  match s with
  | EmptyString => true
  | String a s' => negb (Ascii.eqb a " "%char) && no_space s'
  end.

Definition set_authorization (h : option string) (req : Request) : Request :=
  {| authorization := h; param_id := param_id req; body := body req;
     multipart := multipart req; files := files req; user := user req;
     admin := admin req |}.

(** The columns a review update can write. *)
Definition review_update_columns : list string :=
  ["customerName"; "ratings"; "image"; "review"; "updated_by"].

(** The state after [n] repetitions of a request. *)
Fixpoint repeated (n : nat) (run : State -> Res Response * State) (s : State) : State :=
  match n with
  | O => s
  | S n' => snd (run (repeated n' run s))
  end.

Definition set_body (b : Obj) (req : Request) : Request :=
  {| authorization := authorization req; param_id := param_id req; body := b;
     multipart := multipart req; files := files req; user := user req;
     admin := admin req |}.

End Observe.
Import Observe.

(** ** A small deployment to run the handlers on *)

Module Fixture.

Definition alice : User := {| user_id := "u-1"; user_email := "alice@example.com" |}.
Definition bob : User := {| user_id := "u-2"; user_email := "bob@example.com" |}.

Definition png_or_nothing (m : string) : option string :=
  if String.eqb m "image/png" then Some "png" else None.

(** Last extension of a plain file name, with its dot. *)
Fixpoint last_ext (s : string) (seen : option string) : string :=
  match s with
  | EmptyString => default "" seen
  | String a s' =>
      if Ascii.eqb a "."%char then last_ext s' (Some (String a s')) else last_ext s' seen
  end.

Definition names_of (prefix : string) (n : nat) : string :=
  prefix +:+ String (ascii_of_nat (97 + n)) EmptyString.

Definition deps (f : nat -> Call -> Fault) : Deps :=
  {| env := {[ "SUPABASE_URL" := "https://p.supabase.co"; "MAIL_USER" := "ops@example.com" ]};
     mime_extension := png_or_nothing;
     path_extname := fun s => last_ext s None;
     num_to_string := fun _ => "0";
     sessions := {[ "tok-admin" := alice; "tok-user" := bob ]};
     accepts := fun _ _ => true;
     row_id := names_of "row-";
     uuid := names_of "uuid-";
     fault := f |}.

(** The same deployment with a store that has a check constraint on
    the reviews table: ratings is a number from 1 to 5. *)
Definition ratings_checked (r : Obj) : bool :=
  match get "ratings" r with
  | JNum q => bool_decide (Qc_of_Z 1 ≤ q)%Qc && bool_decide (q ≤ Qc_of_Z 5)%Qc
  | _ => false
  end.

Definition checked_deps (f : nat -> Call -> Fault) : Deps :=
  {| env := env (deps f);
     mime_extension := mime_extension (deps f);
     path_extname := path_extname (deps f);
     num_to_string := num_to_string (deps f);
     sessions := sessions (deps f);
     accepts := fun t r => if String.eqb t "reviews" then ratings_checked r else true;
     row_id := row_id (deps f);
     uuid := uuid (deps f);
     fault := f |}.

Definition no_fault : nat -> Call -> Fault := fun _ _ => NoFault.

(** The [n]-th call is answered with an error. *)
Definition fails_at (n : nat) : nat -> Call -> Fault :=
  fun i _ => if Nat.eqb i n
             then Fails {| err_code := "500"; err_message := "service unavailable" |}
             else NoFault.

Definition start : State :=
  {| tables := {[ "admin_users" :=
                    [literal [("auth_user_id", JStr "u-1"); ("is_admin", JBool true)];
                     literal [("auth_user_id", JStr "u-2"); ("is_admin", JBool false)]] ]};
     objects := ∅; outbox := []; rows_created := 0; uuids_drawn := 0; trace := [] |}.

Definition photo_url : string :=
  "https://p.supabase.co/storage/v1/object/public/property-images/properties/p-1/one.png".

Definition listing : Obj :=
  literal [("id", JStr "p-1"); ("name", JStr "Flat 2B"); ("owner", JStr "Ana");
           ("price", JNum (Qc_of_Z 1200)); ("images", JArr [JStr photo_url])].

Definition bare_listing : Obj :=
  literal [("id", JStr "p-2"); ("name", JStr "Studio"); ("owner", JStr "Luis");
           ("price", JNum (Qc_of_Z 800))].

(** The deployment once two properties are listed, one with a photo. *)
Definition listed : State :=
  {| tables := <["properties" := [listing; bare_listing]]> (tables start);
     objects := {[ ("property-images", "properties/p-1/one.png") := [] ]};
     outbox := []; rows_created := 2; uuids_drawn := 0; trace := [] |}.

Definition request (auth : option string) (id : string) (b : list (string * JsVal))
    (parts : list File) : Request :=
  {| authorization := auth; param_id := id; body := literal b;
     multipart := parts; files := None; user := None; admin := None |}.

Definition as_admin := request (Some "Bearer tok-admin").
Definition as_user := request (Some "Bearer tok-user").

Definition flat : list (string * JsVal) :=
  [("name", JStr "Flat 2B"); ("owner", JStr "Ana"); ("price", JNum (Qc_of_Z 1200));
   ("area", JNum (Qc_of_Z 75)); ("exactAddress", JStr "12 Main St");
   ("bhkType", JStr "2"); ("location", JStr "Centro"); ("images", JArr [])].

(** The same listing with a price too large for a double: the JSON
    text [1e999] parses to [Infinity]. *)
Definition overflowing_flat : list (string * JsVal) :=
  [("name", JStr "Flat 2B"); ("owner", JStr "Ana"); ("price", JInfinity false);
   ("area", JNum (Qc_of_Z 75)); ("exactAddress", JStr "12 Main St");
   ("bhkType", JStr "2"); ("location", JStr "Centro")].

Definition enquiry : list (string * JsVal) :=
  [("name", JStr "A"); ("phone", JStr "123"); ("email", JStr "a@x.com");
   ("subject", JStr "hi"); ("countryCode", JStr "+1")].

(** An enquiry whose subject is an object with a [toString] property. *)
Definition odd_enquiry : list (string * JsVal) :=
  [("name", JStr "A"); ("phone", JStr "123"); ("email", JStr "a@x.com");
   ("subject", JObj [("toString", JNum (Qc_of_Z 1))]); ("countryCode", JStr "+1")].

Definition photo1 : File :=
  {| buffer := []; mimetype := "image/png"; originalname := "front.png" |}.
Definition photo2 : File :=
  {| buffer := []; mimetype := "application/x-unknown"; originalname := "back.jpg" |}.

Definition review_row : Obj :=
  literal [("id", JStr "r-1"); ("customerName", JStr "Eva"); ("ratings", JNum (Qc_of_Z 4));
           ("review", JStr "Fine"); ("image", JStr "")].

(** The deployment with one review on file. *)
Definition reviewed : State :=
  {| tables := <["reviews" := [review_row]]> (tables listed);
     objects := objects listed;
     outbox := []; rows_created := 3; uuids_drawn := 0; trace := [] |}.

Definition eleven_photos : list File :=
  [photo1; photo1; photo1; photo1; photo1; photo1; photo1; photo1; photo1; photo1; photo1].

(** The response of a run that answered. *)
Definition answer (o : Res Response * State) : Response :=
  match fst o with
  | Val r => r
  | Throw _ => message 0 ""
  end.

Definition answered (o : Res Response * State) : bool :=
  match fst o with
  | Val _ => true
  | Throw _ => false
  end.

(** Create a property, attach two photos, detach the first. *)
Definition created : Res Response * State :=
  post_admin_properties (deps no_fault) (as_admin "" flat []) start.

Definition attached : Res Response * State :=
  post_admin_properties_upload_images (deps no_fault)
    (as_admin "row-a" [] [photo1; photo2]) (snd created).

Definition first_url : string :=
  "https://p.supabase.co/storage/v1/object/public/property-images/properties/row-a/uuid-a.png".

Definition detached : Res Response * State :=
  delete_admin_properties_images (deps no_fault)
    (as_admin "row-a" [("url", JStr first_url)] []) (snd attached).

End Fixture.

(** * Properties *)

#[local] Arguments project : simpl never.
#[local] Arguments literal : simpl never.
#[local] Arguments stringify : simpl never.
#[local] Arguments get : simpl never.

(** ** Values in transit *)

Lemma JsVal_nested_ind (P : JsVal -> Prop) :
  P JUndefined -> P JNull -> (forall b, P (JBool b)) -> (forall q, P (JNum q)) ->
  (forall b, P (JInfinity b)) -> (forall s, P (JStr s)) ->
  (forall l, Forall P l -> P (JArr l)) ->
  (forall l, Forall (fun kv => P (snd kv)) l -> P (JObj l)) ->
  forall v, P v.
Proof.
  intros HU HN HB HQ HI HS HA HO. fix IH 1.
  intros [| |b|q|b|s|l|l];
    [exact HU|exact HN|apply HB|apply HQ|apply HI|apply HS| |].
  - apply HA. induction l as [|x l IHl]; constructor; [apply IH|exact IHl].
  - apply HO. induction l as [|[k x] l IHl]; constructor; [apply IH|exact IHl].
Qed.

Lemma wire_undefined (v : JsVal) : is_undefined (wire v) = is_undefined v.
Proof. destruct v; reflexivity. Qed.

(** What has travelled once travels unchanged. *)
Lemma wire_idem (v : JsVal) : wire (wire v) = wire v.
Proof.
  induction v as [| |b|q|b|s|l IH|l IH] using JsVal_nested_ind; try reflexivity.
  - cbn. f_equal. rewrite List.map_map. induction IH as [|x l Hx _ IHl]; [reflexivity|].
    cbn. f_equal; [|exact IHl].
    destruct x; cbn in *; congruence.
  - cbn. f_equal. induction IH as [|[k x] l Hx _ IHl]; [reflexivity|].
    cbn [flat_map]. rewrite flat_map_app, IHl. f_equal.
    destruct x; cbn in *; congruence.
Qed.

Lemma wire_plain (v : JsVal) : plain v = true -> wire v = v.
Proof.
  induction v as [| |b|q|b|s|l IH|l IH] using JsVal_nested_ind;
    try reflexivity; try discriminate.
  - cbn [plain wire]. intros Hl. f_equal.
    induction IH as [|x l Hx _ IHl]; [reflexivity|].
    cbn [forallb] in Hl. apply andb_true_iff in Hl as [Hpx Hpl].
    cbn [List.map]. rewrite (IHl Hpl). f_equal.
    rewrite (Hx Hpx). by destruct x.
  - cbn [plain wire]. intros Hl. f_equal.
    induction IH as [|[k x] l Hx _ IHl]; [reflexivity|].
    cbn [forallb] in Hl. apply andb_true_iff in Hl as [Hpx Hpl].
    cbn [flat_map]. rewrite (IHl Hpl). cbn [snd] in Hx. rewrite (Hx Hpx).
    by destruct x.
Qed.

Lemma stringify_lookup (o : Obj) (k : string) :
  stringify o !! k
  = match o !! k with
    | Some v => if is_undefined v then None else Some (wire v)
    | None => None
    end.
Proof.
  unfold stringify. rewrite lookup_fmap.
  destruct (o !! k) as [v|] eqn:Hk.
  - destruct (is_undefined v) eqn:Hv.
    + rewrite (proj2 (map_lookup_filter_None _ o k)); [reflexivity|].
      right. intros x Hx. rewrite Hk in Hx. injection Hx as <-. cbn. congruence.
    + rewrite (proj2 (map_lookup_filter_Some _ o k v)); [reflexivity|]. by split.
  - rewrite (proj2 (map_lookup_filter_None _ o k)); [reflexivity|]. by left.
Qed.

Lemma stringify_idem (o : Obj) : stringify (stringify o) = stringify o.
Proof.
  apply map_eq. intros k. rewrite !stringify_lookup.
  destruct (o !! k) as [v|]; [|reflexivity].
  destruct (is_undefined v) eqn:Hv; [reflexivity|].
  by rewrite wire_undefined, Hv, wire_idem.
Qed.

Lemma row_in_json_lookup (r : Obj) (k : string) (v : JsVal) :
  row_in_json r -> r !! k = Some v -> in_json v.
Proof.
  intros Hr Hk. unfold row_in_json in Hr. apply (f_equal (fun m : Obj => m !! k)) in Hr.
  rewrite stringify_lookup, Hk in Hr.
  destruct (is_undefined v) eqn:Hv; [discriminate|]. split; congruence.
Qed.

Lemma row_in_json_insert (r : Obj) (k : string) (v : JsVal) :
  row_in_json r -> in_json v -> row_in_json (<[k := v]> r).
Proof.
  intros Hr [Hw Hu]. apply map_eq. intros j. rewrite stringify_lookup.
  destruct (decide (k = j)) as [->|Hne].
  - rewrite lookup_insert_eq, Hu. by rewrite Hw.
  - rewrite lookup_insert_ne by exact Hne.
    rewrite <- (stringify_lookup r j). by rewrite Hr.
Qed.

Lemma row_in_json_union (a b : Obj) :
  row_in_json a -> row_in_json b -> row_in_json (a ∪ b).
Proof.
  intros Ha Hb. apply map_eq. intros j. rewrite stringify_lookup.
  destruct (a !! j) as [v|] eqn:Hj.
  - rewrite (lookup_union_Some_l a b j v Hj).
    destruct (row_in_json_lookup a j v Ha Hj) as [Hw Hu]. by rewrite Hu, Hw.
  - rewrite (lookup_union_r a b j Hj).
    rewrite <- (stringify_lookup b j). by rewrite Hb.
Qed.

Lemma rows_in_json (t : string) (s : State) (r : Obj) :
  r ∈ rows t s -> row_in_json r.
Proof.
  unfold rows. intros Hr. apply list_elem_of_fmap in Hr as (r0 & -> & _).
  apply stringify_idem.
Qed.

Lemma fmap_in_json (l : list Obj) :
  (forall r, r ∈ l -> row_in_json r) -> stringify <$> l = l.
Proof.
  induction l as [|r l IH]; intros H; [reflexivity|].
  cbn. rewrite (H r) by apply list_elem_of_here.
  f_equal. apply IH. intros x Hx. apply H. by apply list_elem_of_further.
Qed.

Lemma rows_set_tables (t : string) (l : list Obj) (s0 s : State) :
  (forall r, r ∈ l -> row_in_json r) ->
  rows t (set_tables (<[t := l]> (tables s0)) s) = l.
Proof.
  intros H. unfold rows. cbn [tables set_tables]. rewrite lookup_insert_eq.
  by apply fmap_in_json.
Qed.

Lemma rows_set_tables_ne (t t' : string) (l : list Obj) (s0 s : State) :
  t <> t' -> rows t' (set_tables (<[t := l]> (tables s0)) s) = rows t' s0.
Proof. intros H. unfold rows. simpl. by rewrite lookup_insert_ne. Qed.

Lemma rows_snoc_in_json (t : string) (s : State) (row r : Obj) :
  row_in_json row -> r ∈ rows t s ++ [row] -> row_in_json r.
Proof.
  intros Hrow Hr. apply elem_of_app in Hr as [Hr|Hr].
  - by apply (rows_in_json t s).
  - apply list_elem_of_singleton in Hr. by subst.
Qed.

Lemma calls_since_app (s s' : State) (l : list Call) :
  trace s' = trace s ++ l -> calls_since s s' = l.
Proof. intros H. unfold calls_since. by rewrite H, drop_app_length. Qed.

Lemma filter_single_elem {A} (f : A -> bool) (l : list A) (r : A) :
  List.filter f l = [r] -> r ∈ l.
Proof.
  intros H. apply list_elem_of_In. apply (proj1 (filter_In f r l)).
  rewrite H. by left.
Qed.

Lemma rows_map_in_json (t : string) (s : State) (f : Obj -> bool) (r' r : Obj) :
  row_in_json r' ->
  r ∈ List.map (fun x => if f x then r' else x) (rows t s) -> row_in_json r.
Proof.
  intros Hr' Hr. apply list_elem_of_In, in_map_iff in Hr as (x & <- & Hx).
  destruct (f x); [exact Hr'|]. apply (rows_in_json t s). by apply list_elem_of_In.
Qed.

(** The row an update leaves: the patch as it travels, over the row
    as it was. *)
Lemma updated_row_in_json (t : string) (s : State) (f : Obj -> bool) (patch row : Obj) :
  List.filter f (rows t s) = [row] -> row_in_json (stringify patch ∪ row).
Proof.
  intros H. apply row_in_json_union; [apply stringify_idem|].
  apply (rows_in_json t s). by apply (filter_single_elem f).
Qed.

Lemma wire_arr (l : list JsVal) : wire (JArr l) = JArr l <-> Forall in_json l.
Proof.
  cbn [wire]. split.
  - intros [= H]. induction l as [|x l IH]; [constructor|].
    cbn in H. injection H as Hx Hl. constructor; [|by apply IH].
    destruct x; try discriminate; by split.
  - intros H. f_equal. induction H as [|x l [Hx Hu] _ IH]; [reflexivity|].
    cbn. rewrite IH. f_equal. by destruct x.
Qed.

Lemma in_json_str (x : string) : in_json (JStr x).
Proof. by split. Qed.

(** A sequence read from a stored row is in JSON. *)
Lemma array_in_json (t : string) (s : State) (r : Obj) (k : string) :
  r ∈ rows t s -> Forall in_json (array_or_empty (get k r)).
Proof.
  intros Hr. apply rows_in_json in Hr. unfold get.
  destruct (r !! k) as [v|] eqn:Hk; [|constructor].
  destruct (row_in_json_lookup r k v Hr Hk) as [Hw _].
  destruct v; try constructor. by apply wire_arr.
Qed.

Lemma images_at_in_json (id : string) (s : State) : Forall in_json (images_at id s).
Proof.
  unfold images_at.
  destruct (List.filter _ _) as [|r [|]] eqn:Hf; try constructor.
  apply (array_in_json "properties" s). by apply (filter_single_elem _ _ _ Hf).
Qed.

Lemma inserted_row_in_json (t : string) (s : State) (payload : Obj) (i : string)
    (r : Obj) :
  r ∈ rows t s ++ [<["id" := JStr i]> (stringify payload)] -> row_in_json r.
Proof.
  apply rows_snoc_in_json. apply row_in_json_insert; [apply stringify_idem|].
  apply in_json_str.
Qed.

Lemma remove_all_in_json (v : JsVal) (l : list JsVal) :
  Forall in_json l -> Forall in_json (remove_all v l).
Proof.
  intros H. unfold remove_all. apply List.Forall_forall. intros x Hx.
  apply filter_In in Hx as [Hx _]. by apply (proj1 (List.Forall_forall _ _) H).
Qed.

Lemma answered_eq (o : Res Response * State) :
  Fixture.answered o = true -> o = (Val (Fixture.answer o), snd o).
Proof. destruct o as [[r|x] s]; [reflexivity|discriminate]. Qed.

(** ** How each service call runs *)

Section Runs.
Variable d : Deps.

Lemma auth_getUser_run (token : string) (s : State) :
  auth_getUser d token s =
  (match fault d (length (trace s)) (AuthGetUser token) with
   | Throws x => Throw x
   | Fails e => Val {| auth_user := None; auth_error := Some e |}
   | NoFault =>
       match sessions d !! token with
       | Some u => Val {| auth_user := Some u; auth_error := None |}
       | None => Val {| auth_user := None; auth_error := Some invalid_jwt |}
       end
   end, log (AuthGetUser token) s).
Proof.
  unfold auth_getUser, bind, attempt.
  destruct (fault d _ _); [destruct (sessions d !! token)|..]; reflexivity.
Qed.

Lemma db_select_single_run (table : string) (cols : option (list string))
    (col v : string) (s : State) :
  db_select_single d table cols col v s =
  (match fault d (length (trace s)) (DbSelectSingle table cols col v) with
   | Throws x => Throw x
   | Fails e => Val (db_error e)
   | NoFault =>
       match List.filter (matches col v) (rows table s) with
       | [r] => Val (ok_row (project cols r))
       | _ => Val (db_error PGRST116)
       end
   end, log (DbSelectSingle table cols col v) s).
Proof.
  unfold db_select_single, bind, attempt, gets.
  destruct (fault d _ _); try reflexivity.
  change (rows table (log (DbSelectSingle table cols col v) s)) with (rows table s).
  destruct (List.filter (matches col v) (rows table s)) as [|r [|]]; reflexivity.
Qed.

Lemma db_insert_run (table : string) (payload : Obj) (s : State) :
  db_insert d table payload s =
  let c := DbInsert table payload in
  let sent := stringify payload in
  let row := match sent !! "id" with
             | Some _ => sent
             | None => <["id" := JStr (row_id d (rows_created s))]> sent
             end in
  match fault d (length (trace s)) c with
  | Throws x => (Throw x, log c s)
  | Fails e => (Val (db_error e), log c s)
  | NoFault =>
      if negb (accepts d table sent) then (Val (db_error check_violation), log c s)
      else
        match get "id" row with
        | JStr i =>
            if existsb (matches "id" i) (rows table s)
            then (Val (db_error unique_violation), log c s)
            else (Val (ok_row row),
                  set_rows_created (S (rows_created s))
                    (set_tables (<[table := rows table s ++ [row]]> (tables s)) (log c s)))
        | _ => (Val (db_error invalid_key), log c s)
        end
  end.
Proof.
  unfold db_insert, bind, attempt, gets, modify, ret.
  destruct (fault d _ _); try reflexivity.
  destruct (negb _); [reflexivity|].
  cbn [rows_created log].
  destruct (get "id" _); try reflexivity.
  change (rows table (log (DbInsert table payload) s)) with (rows table s).
  destruct (existsb _ _); reflexivity.
Qed.

Lemma db_update_run (table : string) (patch : Obj) (col v : string) (s : State) :
  db_update d table patch col v s =
  let c := DbUpdate table patch col v in
  match fault d (length (trace s)) c with
  | Throws x => (Throw x, log c s)
  | Fails e => (Val (db_error e), log c s)
  | NoFault =>
      match List.filter (matches col v) (rows table s) with
      | [r] =>
          let r' := stringify patch ∪ r in
          if negb (accepts d table r') then (Val (db_error check_violation), log c s)
          else (Val (ok_row r'),
                set_tables
                  (<[table := List.map (fun x => if matches col v x then r' else x)
                                (rows table s)]> (tables s)) (log c s))
      | _ => (Val (db_error PGRST116), log c s)
      end
  end.
Proof.
  unfold db_update, bind, attempt, gets, modify, ret.
  destruct (fault d _ _); try reflexivity.
  change (rows table (log (DbUpdate table patch col v) s)) with (rows table s).
  destruct (List.filter _ _) as [|r [|]]; try reflexivity.
  destruct (negb _); reflexivity.
Qed.

Lemma storage_upload_run (bucket key : string) (buf : list Byte.byte)
    (contentType : string) (upsert : bool) (s : State) :
  storage_upload d bucket key buf contentType upsert s =
  let c := StorageUpload bucket key buf contentType upsert in
  match fault d (length (trace s)) c with
  | Throws x => (Throw x, log c s)
  | Fails e => (Val (Some e), log c s)
  | NoFault =>
      match objects s !! (bucket, key) with
      | Some _ =>
          if upsert
          then (Val None, set_objects (<[(bucket, key) := buf]> (objects s)) (log c s))
          else (Val (Some already_exists), log c s)
      | None => (Val None, set_objects (<[(bucket, key) := buf]> (objects s)) (log c s))
      end
  end.
Proof.
  unfold storage_upload, bind, attempt, gets, modify, ret.
  destruct (fault d _ _); try reflexivity.
  cbn [objects log].
  destruct (objects s !! (bucket, key)); [destruct upsert|]; reflexivity.
Qed.

Lemma storage_remove_run (bucket : string) (paths : list string) (s : State) :
  storage_remove d bucket paths s =
  let c := StorageRemove bucket paths in
  match fault d (length (trace s)) c with
  | Throws x => (Throw x, log c s)
  | Fails e => (Val (Some e), log c s)
  | NoFault =>
      (Val None,
       set_objects (fold_right (fun p o => delete (bucket, p) o) (objects s) paths)
         (log c s))
  end.
Proof.
  unfold storage_remove, bind, attempt, gets, modify, ret.
  destruct (fault d _ _); reflexivity.
Qed.

Lemma sendMail_run (m : Mail) (s : State) :
  sendMail d m s =
  match fault d (length (trace s)) (SendMail m) with
  | Throws x => (Throw x, log (SendMail m) s)
  | Fails e => (Throw {| exn_message := err_message e |}, log (SendMail m) s)
  | NoFault => (Val tt, set_outbox (outbox s ++ [m]) (log (SendMail m) s))
  end.
Proof.
  unfold sendMail, bind, attempt, modify, throw.
  destruct (fault d _ _); reflexivity.
Qed.

End Runs.

(** ** Helper facts *)

Lemma get_project_keep (k : string) (cs : list string) (r : Obj) :
  k ∈ cs -> get k (project (Some cs) r) = get k r.
Proof.
  intros Hk. unfold get, project.
  destruct (r !! k) as [v|] eqn:E.
  - assert (H : filter (fun kv : string * JsVal => bool_decide (kv.1 ∈ cs)) r !! k = Some v).
    { apply map_lookup_filter_Some. split; [exact E|]. simpl. by apply bool_decide_pack. }
    by rewrite H.
  - assert (H : filter (fun kv : string * JsVal => bool_decide (kv.1 ∈ cs)) r !! k = None).
    { apply map_lookup_filter_None. left. exact E. }
    by rewrite H.
Qed.

(** ** Auth gate *)

(** C1. The gate runs its two checks in order.  Without a bearer token
    the answer is 403 and nothing else happens; with a token the
    provider rejects, the answer is 401 and the only call issued is the
    token check; with a valid token for an identity that has no
    admin-flag row, or a row whose flag is false, the answer is never
    401, and it is 403 whenever the lookup itself is answered. *)
Theorem auth_gate_order (d : Deps) (handler : Request -> M Response) :
  (forall req s,
      bearer_token req = None \/ bearer_token req = Some "" ->
      route [verifySupabaseUser d; requireAdmin d] handler req s
      = (Val (message 403 "Access denied: missing token"), s))
  /\ (forall req s t r s1,
      bearer_token req = Some t -> t <> "" ->
      auth_getUser d t s = (Val r, s1) ->
      auth_error r <> None \/ auth_user r = None ->
      route [verifySupabaseUser d; requireAdmin d] handler req s
      = (Val (message 401 "Invalid or expired Supabase token"), s1)
      /\ trace s1 = trace s ++ [AuthGetUser t])
  /\ (forall req s t u s1,
      bearer_token req = Some t -> t <> "" ->
      auth_getUser d t s = (Val {| auth_user := Some u; auth_error := None |}, s1) ->
      user_id u <> "" ->
      (forall row,
          List.filter (matches "auth_user_id" (user_id u)) (rows "admin_users" s1) = [row] ->
          falsy (get "is_admin" row) = true) ->
      let lookup := DbSelectSingle "admin_users" (Some ["auth_user_id"; "is_admin"])
                      "auth_user_id" (user_id u) in
      exists res,
        fst (route [verifySupabaseUser d; requireAdmin d] handler req s) = Val res
        /\ status res <> 401
        /\ (fault d (length (trace s1)) lookup = NoFault ->
            route [verifySupabaseUser d; requireAdmin d] handler req s
            = (Val (message 403 "Admin privileges required"), log lookup s1))).
Proof.
  split; [|split].
  - intros req s Htok. unfold route, verifySupabaseUser, try_catch, bind.
    destruct Htok as [-> | ->]; reflexivity.
  - intros req s t r s1 Htok Hne Hauth Hrej.
    assert (Hs1 : trace s1 = trace s ++ [AuthGetUser t]).
    { rewrite auth_getUser_run in Hauth. by inversion Hauth. }
    split; [|exact Hs1].
    unfold route, verifySupabaseUser, try_catch, bind. rewrite Htok.
    apply String.eqb_neq in Hne. rewrite Hne, Hauth.
    destruct r as [[u|] [e|]]; simpl in *; try reflexivity.
    destruct Hrej as [H|H]; congruence.
  - intros req s t u s1 Htok Hne Hauth Hid Hrows lookup.
    apply String.eqb_neq in Hne, Hid.
    unfold route, verifySupabaseUser, requireAdmin, try_catch, bind.
    rewrite Htok, Hne, Hauth. simpl. rewrite Hid.
    rewrite db_select_single_run. fold lookup.
    destruct (fault d (length (trace s1)) lookup) as [|e|x] eqn:Hf.
    + destruct (List.filter _ _) as [|row [|]] eqn:Hfl; simpl.
      * eexists; split; [reflexivity|]. split; [simpl; lia|reflexivity].
      * rewrite get_project_keep by set_solver. rewrite (Hrows row eq_refl).
        eexists; split; [reflexivity|]. split; [simpl; lia|reflexivity].
      * eexists; split; [reflexivity|]. split; [simpl; lia|reflexivity].
    + simpl. destruct (err_code e =? "PGRST116"); simpl;
        (eexists; split; [reflexivity|]; split; [simpl; lia|discriminate]).
    + simpl. eexists; split; [reflexivity|]. split; [simpl; lia|discriminate].
Qed.

Lemma auth_gate_order_witness :
  route [verifySupabaseUser (Fixture.deps Fixture.no_fault);
         requireAdmin (Fixture.deps Fixture.no_fault)]
    (create_property (Fixture.deps Fixture.no_fault))
    (Fixture.request None "" [] []) Fixture.start
  = (Val (message 403 "Access denied: missing token"), Fixture.start)
  /\ route [verifySupabaseUser (Fixture.deps Fixture.no_fault);
            requireAdmin (Fixture.deps Fixture.no_fault)]
       (create_property (Fixture.deps Fixture.no_fault))
       (Fixture.request (Some "Bearer expired") "" [] []) Fixture.start
     = (Val (message 401 "Invalid or expired Supabase token"),
        log (AuthGetUser "expired") Fixture.start)
  /\ route [verifySupabaseUser (Fixture.deps Fixture.no_fault);
            requireAdmin (Fixture.deps Fixture.no_fault)]
       (create_property (Fixture.deps Fixture.no_fault))
       (Fixture.as_user "" [] []) Fixture.start
     = (Val (message 403 "Admin privileges required"),
        log (DbSelectSingle "admin_users" (Some ["auth_user_id"; "is_admin"])
               "auth_user_id" "u-2")
          (log (AuthGetUser "tok-user") Fixture.start)).
Proof.
  destruct (auth_gate_order (Fixture.deps Fixture.no_fault)
              (create_property (Fixture.deps Fixture.no_fault))) as (H1 & H2 & H3).
  split; [|split].
  - apply H1. left. reflexivity.
  - apply (H2 _ _ "expired" {| auth_user := None; auth_error := Some invalid_jwt |}).
    + reflexivity.
    + discriminate.
    + vm_compute. reflexivity.
    + left. discriminate.
  - destruct (H3 (Fixture.as_user "" [] []) Fixture.start "tok-user" Fixture.bob
                (log (AuthGetUser "tok-user") Fixture.start)) as (res & _ & _ & H).
    + reflexivity.
    + discriminate.
    + vm_compute. reflexivity.
    + discriminate.
    + intros row Hrow.
      assert (E : List.filter (matches "auth_user_id" (user_id Fixture.bob))
                    (rows "admin_users" (log (AuthGetUser "tok-user") Fixture.start))
                  = [literal [("auth_user_id", JStr "u-2"); ("is_admin", JBool false)]])
        by (vm_compute; reflexivity).
      rewrite E in Hrow. injection Hrow as <-. vm_compute. reflexivity.
    + apply H. reflexivity.
Defined.

(** ** What the gate leaves behind *)

Lemma reads_only_refl (s : State) : reads_only s s.
Proof.
  split; try reflexivity. exists []. split; [by rewrite app_nil_r|reflexivity].
Qed.

Lemma reads_only_log (c : Call) (s : State) : is_read c = true -> reads_only s (log c s).
Proof.
  intros Hc. split; try reflexivity. exists [c]. split; [reflexivity|]. simpl. by rewrite Hc.
Qed.

Lemma reads_only_trans (s1 s2 s3 : State) :
  reads_only s1 s2 -> reads_only s2 s3 -> reads_only s1 s3.
Proof.
  intros [A1 A2 A3 A4 A5 (c1 & A6 & A7)] [B1 B2 B3 B4 B5 (c2 & B6 & B7)].
  split; try congruence.
  exists (c1 ++ c2). split.
  - rewrite B6, A6. by rewrite app_assoc.
  - rewrite forallb_app, A7, B7. reflexivity.
Qed.

Lemma reads_only_rows (t : string) (s s' : State) :
  reads_only s s' -> rows t s' = rows t s.
Proof. intros [H _ _ _ _ _]. unfold rows. by rewrite H. Qed.

Ltac gate_sends Hro :=
  do 2 eexists; (split; [reflexivity|]); (split; [exact Hro|]);
  left; eexists; (split; [reflexivity|]); simpl; auto.

Ltac gate_passes Hro :=
  do 2 eexists; (split; [reflexivity|]); (split; [exact Hro|]);
  right; eexists; first [reflexivity | split; [reflexivity|by eexists]].

(** The token check answers 401, 403 or 500, or attaches the user. *)
Lemma verifySupabaseUser_cases (d : Deps) (req : Request) (s : State) :
  exists st s1,
    verifySupabaseUser d req s = (Val st, s1) /\ reads_only s s1 /\
    ((exists res, st = Send res /\ (status res = 401 \/ status res = 403 \/ status res = 500))
     \/ (exists u, st = Next (set_user u req))).
Proof.
  unfold verifySupabaseUser, try_catch, bind.
  pose proof (reads_only_refl s) as Hrefl.
  destruct (bearer_token req) as [t|]; [|gate_sends Hrefl].
  destruct (String.eqb t ""); [gate_sends Hrefl|].
  rewrite auth_getUser_run.
  assert (Hro : reads_only s (log (AuthGetUser t) s)) by (by apply reads_only_log).
  destruct (fault d _ _) as [|e|x]; simpl; try gate_sends Hro.
  destruct (sessions d !! t) as [u|]; simpl; [gate_passes Hro|gate_sends Hro].
Qed.

(** The admin check answers 401, 403 or 500, or attaches the admin row. *)
Lemma requireAdmin_cases (d : Deps) (req : Request) (s : State) :
  exists st s1,
    requireAdmin d req s = (Val st, s1) /\ reads_only s s1 /\
    ((exists res, st = Send res /\ (status res = 401 \/ status res = 403 \/ status res = 500))
     \/ (exists a, st = Next (set_admin a req) /\ is_Some (user req))).
Proof.
  unfold requireAdmin, try_catch, bind.
  pose proof (reads_only_refl s) as Hrefl.
  destruct (user req) as [u|]; [|gate_sends Hrefl].
  destruct (String.eqb (user_id u) ""); [gate_sends Hrefl|].
  rewrite db_select_single_run.
  match goal with |- context [log ?c s] =>
    assert (Hro : reads_only s (log c s)) by (by apply reads_only_log) end.
  destruct (fault d _ _) as [|e|x]; simpl.
  - destruct (List.filter _ _) as [|r [|]]; simpl; try gate_sends Hro.
    destruct (falsy _); [gate_sends Hro|gate_passes Hro].
  - destruct (negb _); simpl; gate_sends Hro.
  - gate_sends Hro.
Qed.

(** The whole gate: either it answers itself, having only read, or it
    hands the request on with its user and admin context attached. *)
Lemma gate_cases (d : Deps) (handler : Request -> M Response) (req : Request) (s : State) :
  (exists res s1,
      route [verifySupabaseUser d; requireAdmin d] handler req s = (Val res, s1)
      /\ (status res = 401 \/ status res = 403 \/ status res = 500)
      /\ reads_only s s1)
  \/ (exists u a s1,
      route [verifySupabaseUser d; requireAdmin d] handler req s
      = handler (set_admin a (set_user u req)) s1
      /\ reads_only s s1).
Proof.
  destruct (verifySupabaseUser_cases d req s) as (st & s1 & Hv & Hro & Hst).
  unfold route, bind. rewrite Hv.
  destruct Hst as [(res & -> & Hres) | (u & ->)].
  - left. exists res, s1. auto.
  - destruct (requireAdmin_cases d (set_user u req) s1) as (st2 & s2 & Hr & Hro2 & Hst2).
    rewrite Hr.
    destruct Hst2 as [(res & -> & Hres) | (a & -> & _)].
    + left. exists res, s2. split; [reflexivity|]. split; [exact Hres|].
      eapply reads_only_trans; eassumption.
    + right. exists u, a, s2. split; [reflexivity|].
      eapply reads_only_trans; eassumption.
Qed.

(** ** Reading object literals *)

Lemma get_stringify (k : string) (o : Obj) : get k (stringify o) = wire (get k o).
Proof.
  unfold get. rewrite stringify_lookup.
  destruct (o !! k) as [v|]; [|reflexivity].
  destruct v; reflexivity.
Qed.

Lemma stringify_lookup_None (k : string) (o : Obj) :
  o !! k = None -> stringify o !! k = None.
Proof. intros H. by rewrite stringify_lookup, H. Qed.

Lemma stringify_lookup_Some (k : string) (o : Obj) (v : JsVal) :
  stringify o !! k = Some v ->
  exists v0, o !! k = Some v0 /\ v0 <> JUndefined /\ v = wire v0.
Proof.
  rewrite stringify_lookup. destruct (o !! k) as [v0|]; [|discriminate].
  destruct (is_undefined v0) eqn:Hv; [discriminate|]. intros [= <-].
  exists v0. split; [reflexivity|]. split; [|reflexivity]. intros ->. discriminate.
Qed.

Ltac fresh_key :=
  apply not_elem_of_list_to_map_1; simpl;
  rewrite ?not_elem_of_cons; repeat split; try discriminate; apply not_elem_of_nil.

Lemma property_payload_no_images (b : Obj) (uid : string) :
  property_payload b uid !! "images" = None.
Proof.
  unfold property_payload, literal. fresh_key.
Qed.

Lemma property_payload_no_id (b : Obj) (uid : string) :
  property_payload b uid !! "id" = None.
Proof.
  unfold property_payload, literal. fresh_key.
Qed.

Lemma get_insert_ne (k k' : string) (v : JsVal) (o : Obj) :
  k <> k' -> get k' (<[k := v]> o) = get k' o.
Proof. intros H. unfold get. by rewrite lookup_insert_ne. Qed.

Lemma get_delete_ne (k k' : string) (o : Obj) :
  k <> k' -> get k' (delete k o) = get k' o.
Proof. intros H. unfold get. by rewrite lookup_delete_ne. Qed.

(** The payload reads twelve named fields of the body and nothing else. *)
Lemma property_payload_ext (b b' : Obj) (uid : string) :
  (forall k, k <> "images" -> get k b' = get k b) ->
  property_payload b' uid = property_payload b uid.
Proof.
  intros H. unfold property_payload.
  rewrite !H by discriminate. reflexivity.
Qed.

(** ** Creating a property *)

Lemma create_property_run (d : Deps) (req : Request) (s : State) :
  create_property d req s =
  if missing_check (body req) then (Val (message 400 "Missing required fields"), s)
  else
    match user req with
    | None => (Val (message_error 500 "Error creating property" (exn_message TypeError)), s)
    | Some u =>
        match db_insert d "properties" (property_payload (body req) (user_id u)) s with
        | (Val r, s') =>
            (Val match error r with
                 | Some e => message_error 500 "Error creating property" (err_message e)
                 | None => {| status := 201; json := json_of (data r) |}
                 end, s')
        | (Throw x, s') =>
            (Val (message_error 500 "Error creating property" (exn_message x)), s')
        end
    end.
Proof.
  unfold create_property, missing_check, try_catch, bind, req_user_id.
  destruct (_ || _); [reflexivity|].
  destruct (user req) as [u|]; [|reflexivity]. simpl.
  destruct (db_insert d _ _ s) as [[r|x] s']; [|reflexivity].
  destruct (error r); reflexivity.
Qed.

Lemma missing_check_falsy (b : Obj) (k : string) :
  k ∈ required_property_fields -> falsy (get k b) = true -> missing_check b = true.
Proof.
  unfold required_property_fields, missing_check. intros Hk Hf.
  repeat (apply elem_of_cons in Hk as [-> | Hk];
          [rewrite Hf; rewrite ?orb_true_r; reflexivity|]).
  by apply elem_of_nil in Hk.
Qed.

Lemma create_property_falsy (d : Deps) (req : Request) (s : State) (k : string) :
  k ∈ required_property_fields -> falsy (get k (body req)) = true ->
  create_property d req s = (Val (message 400 "Missing required fields"), s).
Proof.
  intros Hk Hf. rewrite create_property_run.
  by rewrite (missing_check_falsy _ k Hk Hf).
Qed.

(** C2. A create request whose body lacks one of the seven required
    fields is answered 400 by the handler, which leaves every service
    untouched; through the whole route the answer is that 400 unless
    the gate has already refused, and in either case nothing but reads
    was issued, so no insert reached the store and the properties table
    is as before. *)
Theorem create_property_missing_field (d : Deps) (req : Request) (s : State) (k : string) :
  k ∈ required_property_fields ->
  body req !! k = None ->
  create_property d req s = (Val (message 400 "Missing required fields"), s)
  /\ exists res s',
       post_admin_properties d req s = (Val res, s')
       /\ (res = message 400 "Missing required fields"
           \/ status res = 401 \/ status res = 403 \/ status res = 500)
       /\ reads_only s s'
       /\ rows "properties" s' = rows "properties" s
       /\ (forall t p, DbInsert t p ∉ calls_since s s').
Proof.
  intros Hk Hnone.
  assert (Hf : forall r, body r = body req -> falsy (get k (body r)) = true).
  { intros r ->. unfold get. by rewrite Hnone. }
  split; [by apply (create_property_falsy d req s k), Hf|].
  assert (Hfinal : forall s', reads_only s s' ->
            rows "properties" s' = rows "properties" s
            /\ (forall t p, DbInsert t p ∉ calls_since s s')).
  { intros s' Hro. split; [by apply reads_only_rows|].
    intros t p Hin. destruct Hro as [_ _ _ _ _ (calls & Htr & Hall)].
    unfold calls_since in Hin. rewrite Htr, drop_app_length in Hin.
    rewrite forallb_forall in Hall. apply list_elem_of_In, Hall in Hin. discriminate. }
  unfold post_admin_properties.
  destruct (gate_cases d (create_property d) req s)
    as [(res & s1 & Hr & Hst & Hro) | (u & a & s1 & Hr & Hro)].
  - exists res, s1. split; [exact Hr|]. split; [by right|]. split; [exact Hro|].
    by apply Hfinal.
  - rewrite Hr.
    rewrite (create_property_falsy d (set_admin a (set_user u req)) s1 k Hk
               (Hf _ eq_refl)).
    eexists _, s1. split; [reflexivity|]. split; [by left|]. split; [exact Hro|].
    by apply Hfinal.
Qed.

Lemma create_property_missing_field_witness :
  create_property (Fixture.deps Fixture.no_fault)
    (Fixture.as_admin "" [("name", JStr "Flat 2B"); ("price", JNum (Qc_of_Z 1200))] [])
    Fixture.start
  = (Val (message 400 "Missing required fields"), Fixture.start).
Proof.
  apply (create_property_missing_field (Fixture.deps Fixture.no_fault) _ _ "owner").
  - unfold required_property_fields. rewrite !elem_of_cons. auto.
  - vm_compute. reflexivity.
Defined.

(** C9. The required-field test is a truthiness test: a required field
    that is present with a falsy value (a price or area of 0, an empty
    name) is answered 400 'Missing required fields', exactly as if the
    field had been left out. *)
Theorem create_property_falsy_is_missing (d : Deps) (req : Request) (s : State)
    (k : string) (v : JsVal) :
  k ∈ required_property_fields ->
  body req !! k = Some v ->
  falsy v = true ->
  create_property d req s = (Val (message 400 "Missing required fields"), s)
  /\ create_property d (set_body (delete k (body req)) req) s = create_property d req s
  /\ falsy (JNum (Qc_of_Z 0)) = true
  /\ falsy (JStr "") = true.
Proof.
  intros Hk Hv Hf.
  assert (H1 : create_property d req s = (Val (message 400 "Missing required fields"), s)).
  { apply (create_property_falsy d req s k Hk). unfold get. by rewrite Hv. }
  split; [exact H1|]. split; [|split; reflexivity].
  rewrite H1.
  apply (create_property_falsy d (set_body (delete k (body req)) req) s k Hk).
  cbn [body set_body]. unfold get. by rewrite lookup_delete_eq.
Qed.

Lemma create_property_falsy_is_missing_witness :
  create_property (Fixture.deps Fixture.no_fault)
    (Fixture.as_admin ""
       [("name", JStr "Flat 2B"); ("owner", JStr "Ana"); ("price", JNum (Qc_of_Z 0));
        ("area", JNum (Qc_of_Z 75)); ("exactAddress", JStr "12 Main St");
        ("bhkType", JStr "2"); ("location", JStr "Centro")] [])
    Fixture.start
  = (Val (message 400 "Missing required fields"), Fixture.start).
Proof.
  refine (proj1 (create_property_falsy_is_missing (Fixture.deps Fixture.no_fault)
                   (Fixture.as_admin ""
                      [("name", JStr "Flat 2B"); ("owner", JStr "Ana");
                       ("price", JNum (Qc_of_Z 0)); ("area", JNum (Qc_of_Z 75));
                       ("exactAddress", JStr "12 Main St"); ("bhkType", JStr "2");
                       ("location", JStr "Centro")] [])
                   Fixture.start "price" (JNum (Qc_of_Z 0)) _ _ _)).
  - unfold required_property_fields. rewrite !elem_of_cons. auto.
  - vm_compute. reflexivity.
  - reflexivity.
Defined.

(** ** Creating a review *)

Lemma get_insert_eq (k : string) (v : JsVal) (o : Obj) : get k (<[k := v]> o) = v.
Proof. unfold get. by rewrite lookup_insert_eq. Qed.

Lemma review_payload_ratings (b : Obj) (uid : string) :
  get "ratings" (review_payload b uid) = get "ratings" b.
Proof.
  unfold review_payload, literal. simpl.
  rewrite get_insert_ne by discriminate. apply get_insert_eq.
Qed.

Lemma review_payload_no_id (b : Obj) (uid : string) :
  review_payload b uid !! "id" = None.
Proof.
  unfold review_payload, literal. fresh_key.
Qed.

Lemma create_review_run (d : Deps) (req : Request) (s : State) :
  create_review d req s =
  if falsy (get "customerName" (body req)) || is_nullish (get "ratings" (body req))
  then (Val (message 400 "Customer name and ratings are required"), s)
  else
    match user req with
    | None => (Val (message 500 "Server error"), s)
    | Some u =>
        match db_insert d "reviews" (review_payload (body req) (user_id u)) s with
        | (Val r, s') =>
            (Val match error r with
                 | Some e => message_error 500 "Server error" (err_message e)
                 | None => {| status := 201; json := json_of (data r) |}
                 end, s')
        | (Throw x, s') => (Val (message 500 "Server error"), s')
        end
    end.
Proof.
  unfold create_review, try_catch, bind, req_user_id.
  destruct (_ || _); [reflexivity|].
  destruct (user req) as [u|]; [|reflexivity]. simpl.
  destruct (db_insert d _ _ s) as [[r|x] s']; [|reflexivity].
  destruct (error r); reflexivity.
Qed.

Lemma db_insert_trace (d : Deps) (table : string) (payload : Obj) (s : State) :
  trace (snd (db_insert d table payload s)) = trace s ++ [DbInsert table payload].
Proof.
  rewrite db_insert_run. cbv zeta.
  destruct (fault d _ _); try reflexivity.
  destruct (negb _); [reflexivity|].
  destruct (get "id" _); try reflexivity.
  destruct (existsb _ _); reflexivity.
Qed.

Lemma db_insert_writes (d : Deps) (table : string) (payload : Obj) (s : State) :
  tables (snd (db_insert d table payload s)) = tables s
  \/ exists u, fst (db_insert d table payload s) = Val u /\ error u = None.
Proof.
  rewrite db_insert_run. cbv zeta.
  destruct (fault d _ _); try (by left).
  destruct (negb _); [by left|].
  destruct (get "id" _); try (by left).
  destruct (existsb _ _); [by left|].
  right. by eexists.
Qed.

Lemma create_review_missing (d : Deps) (req : Request) (s : State) :
  falsy (get "customerName" (body req)) || is_nullish (get "ratings" (body req)) = true ->
  create_review d req s
  = (Val (message 400 "Customer name and ratings are required"), s).
Proof. intros H. by rewrite create_review_run, H. Qed.

(** A review-create request that is not answered 201 wrote nothing. *)
Lemma create_review_quiet (d : Deps) (req : Request) (s s' : State) (res : Response) :
  create_review d req s = (Val res, s') -> status res <> 201 -> tables s' = tables s.
Proof.
  rewrite create_review_run.
  destruct (_ || _); [by intros [= <- <-]|].
  destruct (user req) as [u|]; [|by intros [= <- <-]].
  destruct (db_insert_writes d "reviews" (review_payload (body req) (user_id u)) s)
    as [Ht | (r & Hr & He)];
    destruct (db_insert d _ _ s) as [[r0|x] s1]; cbn [fst snd] in *.
  - by intros [= <- <-].
  - by intros [= <- <-].
  - injection Hr as ->. rewrite He. intros [= <- <-] Hst. by destruct Hst.
  - discriminate.
Qed.

(** The handler does not look at the value of the ratings: once a
    customer name and some ratings are there, the insert is issued with
    the ratings as JSON carries them, and the store alone decides. *)
Lemma create_review_forwards (d : Deps) (req : Request) (s : State) (u : User) :
  user req = Some u ->
  falsy (get "customerName" (body req)) || is_nullish (get "ratings" (body req)) = false ->
  let payload := review_payload (body req) (user_id u) in
  let insert := DbInsert "reviews" payload in
  let row := <["id" := JStr (row_id d (rows_created s))]> (stringify payload) in
  calls_since s (snd (create_review d req s)) = [insert]
  /\ get "ratings" row = wire (get "ratings" (body req))
  /\ (fault d (length (trace s)) insert = NoFault ->
      if accepts d "reviews" (stringify payload)
      then existsb (matches "id" (row_id d (rows_created s))) (rows "reviews" s) = false ->
           fst (create_review d req s)
           = Val {| status := 201; json := JObj (map_to_list row) |}
           /\ rows "reviews" (snd (create_review d req s)) = rows "reviews" s ++ [row]
      else create_review d req s
           = (Val (message_error 500 "Server error" (err_message check_violation)),
              log insert s)).
Proof.
  intros Hu Hv. cbv zeta. rewrite create_review_run, Hv, Hu.
  split; [|split].
  - pose proof (db_insert_trace d "reviews" (review_payload (body req) (user_id u)) s)
      as Htr.
    destruct (db_insert d _ _ s) as [[r|x] s']; cbn [snd] in *; by apply calls_since_app.
  - rewrite get_insert_ne by discriminate.
    by rewrite get_stringify, review_payload_ratings.
  - intros Hf. rewrite db_insert_run. cbv zeta. rewrite Hf.
    rewrite (stringify_lookup_None "id") by apply review_payload_no_id.
    destruct (accepts d "reviews" _); cbn [negb]; [|reflexivity].
    rewrite get_insert_eq. intros Hfresh. rewrite Hfresh.
    cbn [fst snd error ok_row data json_of]. split; [reflexivity|].
    apply rows_set_tables. intros r. apply rows_snoc_in_json.
    apply row_in_json_insert; [apply stringify_idem|]. by split.
Qed.

(** C3 (as stated): a review with ratings 7 and a customer name is not
    rejected.  The handler tests that the ratings are there, not their
    value, and a store without a constraint of its own creates the row. *)
Lemma create_review_out_of_range_created :
  outside_1_5 (JNum (Qc_of_Z 7)) = true
  /\ rows "reviews" Fixture.start = []
  /\ exists row,
       post_admin_reviews (Fixture.deps Fixture.no_fault)
         (Fixture.as_admin "" [("customerName", JStr "Eva"); ("ratings", JNum (Qc_of_Z 7))] [])
         Fixture.start
       = (Val {| status := 201; json := JObj (map_to_list row) |},
          snd (post_admin_reviews (Fixture.deps Fixture.no_fault)
                 (Fixture.as_admin ""
                    [("customerName", JStr "Eva"); ("ratings", JNum (Qc_of_Z 7))] [])
                 Fixture.start))
       /\ rows "reviews"
            (snd (post_admin_reviews (Fixture.deps Fixture.no_fault)
                    (Fixture.as_admin ""
                       [("customerName", JStr "Eva"); ("ratings", JNum (Qc_of_Z 7))] [])
                    Fixture.start))
          = [row]
       /\ get "ratings" row = JNum (Qc_of_Z 7).
Proof.
  split; [vm_compute; reflexivity|]. split; [vm_compute; reflexivity|].
  exists (literal [("id", JStr "row-a"); ("customerName", JStr "Eva");
                   ("ratings", JNum (Qc_of_Z 7)); ("created_by", JStr "u-1")]).
  split; [vm_compute; reflexivity|]. split; vm_compute; reflexivity.
Qed.

(** C3 (as the code has it).  A review-create request whose customer
    name is missing (or falsy), or whose ratings are undefined or null,
    is rejected: the handler answers 400 and touches nothing, and
    through the route the answer is 400 or the gate's 401, 403 or 500
    after reads only.  Whatever the request, an answer other than 201
    leaves every table as it was.  The value of the ratings is not
    tested: with a customer name and ratings present the handler issues
    exactly one call, the insert, whose row carries the ratings as JSON
    carries them; when the store refuses the row the answer is 500 with
    nothing written, and when it accepts it (the row's id being free)
    the answer is 201 and the row is appended to the reviews. *)
Theorem create_review_rejects_invalid (d : Deps) (req : Request) (s : State) :
  let b := body req in
  (falsy (get "customerName" b) || is_nullish (get "ratings" b) = true ->
     create_review d req s
     = (Val (message 400 "Customer name and ratings are required"), s)
     /\ exists res s',
          post_admin_reviews d req s = (Val res, s')
          /\ (status res = 400 \/ status res = 401 \/ status res = 403 \/ status res = 500)
          /\ reads_only s s')
  /\ (forall res s',
        create_review d req s = (Val res, s') \/ post_admin_reviews d req s = (Val res, s') ->
        status res <> 201 -> tables s' = tables s)
  /\ (forall u,
        user req = Some u ->
        falsy (get "customerName" b) || is_nullish (get "ratings" b) = false ->
        let payload := review_payload b (user_id u) in
        let insert := DbInsert "reviews" payload in
        let row := <["id" := JStr (row_id d (rows_created s))]> (stringify payload) in
        calls_since s (snd (create_review d req s)) = [insert]
        /\ get "ratings" row = wire (get "ratings" b)
        /\ (fault d (length (trace s)) insert = NoFault ->
            if accepts d "reviews" (stringify payload)
            then existsb (matches "id" (row_id d (rows_created s))) (rows "reviews" s) = false ->
                 fst (create_review d req s)
                 = Val {| status := 201; json := JObj (map_to_list row) |}
                 /\ rows "reviews" (snd (create_review d req s)) = rows "reviews" s ++ [row]
            else create_review d req s
                 = (Val (message_error 500 "Server error" (err_message check_violation)),
                    log insert s))).
Proof.
  cbv zeta. split; [|split].
  - intros Hbad.
    split; [by apply create_review_missing|].
    unfold post_admin_reviews.
    destruct (gate_cases d (create_review d) req s)
      as [(res & s1 & Hr & Hst & Hro) | (u & a & s1 & Hr & Hro)].
    + exists res, s1. split; [exact Hr|]. split; [tauto|exact Hro].
    + rewrite Hr, create_review_missing by exact Hbad.
      eexists _, s1. split; [reflexivity|]. split; [by left|exact Hro].
  - intros res s' [Hrun | Hrun] Hst.
    + by apply (create_review_quiet d req s s' res).
    + unfold post_admin_reviews in Hrun.
      destruct (gate_cases d (create_review d) req s)
        as [(res0 & s1 & Hr & _ & Hro) | (u & a & s1 & Hr & Hro)];
        rewrite Hr in Hrun.
      * injection Hrun as <- <-. by destruct Hro.
      * rewrite (create_review_quiet d _ s1 s' res Hrun Hst). by destruct Hro.
  - intros u Hu Hv. by apply create_review_forwards.
Qed.

Lemma create_review_rejects_invalid_witness :
  (create_review (Fixture.deps Fixture.no_fault)
     (Fixture.as_admin "" [("ratings", JNum (Qc_of_Z 3))] []) Fixture.start
   = (Val (message 400 "Customer name and ratings are required"), Fixture.start))
  /\ tables (snd (create_review (Fixture.checked_deps Fixture.no_fault)
                    (set_user Fixture.alice
                       (Fixture.as_admin ""
                          [("customerName", JStr "Eva"); ("ratings", JNum (Qc_of_Z 7))] []))
                    Fixture.start))
     = tables Fixture.start
  /\ fst (create_review (Fixture.checked_deps Fixture.no_fault)
            (set_user Fixture.alice
               (Fixture.as_admin ""
                  [("customerName", JStr "Eva"); ("ratings", JNum (Qc_of_Z 7))] []))
            Fixture.start)
     = Val (message_error 500 "Server error" (err_message check_violation))
  /\ length (rows "reviews"
               (snd (create_review (Fixture.deps Fixture.no_fault)
                       (set_user Fixture.alice
                          (Fixture.as_admin ""
                             [("customerName", JStr "Eva"); ("ratings", JNum (Qc_of_Z 4))] []))
                       Fixture.start)))
     = 1.
Proof.
  split; [|split; [|split]].
  - refine (proj1 (proj1 (create_review_rejects_invalid (Fixture.deps Fixture.no_fault)
                            (Fixture.as_admin "" [("ratings", JNum (Qc_of_Z 3))] [])
                            Fixture.start) _)).
    vm_compute. reflexivity.
  - refine (proj1 (proj2 (create_review_rejects_invalid
                            (Fixture.checked_deps Fixture.no_fault)
                            (set_user Fixture.alice
                               (Fixture.as_admin ""
                                  [("customerName", JStr "Eva"); ("ratings", JNum (Qc_of_Z 7))]
                                  []))
                            Fixture.start))
                  (Fixture.answer _) _ (or_introl (answered_eq _ _)) _).
    + vm_compute. reflexivity.
    + vm_compute. discriminate.
  - pose proof (proj2 (proj2 (create_review_rejects_invalid
                                (Fixture.checked_deps Fixture.no_fault)
                                (set_user Fixture.alice
                                   (Fixture.as_admin ""
                                      [("customerName", JStr "Eva");
                                       ("ratings", JNum (Qc_of_Z 7))] []))
                                Fixture.start))
                  Fixture.alice eq_refl) as H.
    cbv zeta in H.
    destruct H as (_ & _ & H); [vm_compute; reflexivity|].
    specialize (H eq_refl).
    assert (E : accepts (Fixture.checked_deps Fixture.no_fault) "reviews"
                  (stringify (review_payload
                     (body (set_user Fixture.alice
                              (Fixture.as_admin ""
                                 [("customerName", JStr "Eva");
                                  ("ratings", JNum (Qc_of_Z 7))] [])))
                     (user_id Fixture.alice))) = false) by (vm_compute; reflexivity).
    rewrite E in H. by rewrite H.
  - pose proof (proj2 (proj2 (create_review_rejects_invalid
                                (Fixture.deps Fixture.no_fault)
                                (set_user Fixture.alice
                                   (Fixture.as_admin ""
                                      [("customerName", JStr "Eva");
                                       ("ratings", JNum (Qc_of_Z 4))] []))
                                Fixture.start))
                  Fixture.alice eq_refl) as H.
    cbv zeta in H.
    destruct H as (_ & _ & H); [vm_compute; reflexivity|].
    specialize (H eq_refl).
    assert (E : accepts (Fixture.deps Fixture.no_fault) "reviews"
                  (stringify (review_payload
                     (body (set_user Fixture.alice
                              (Fixture.as_admin ""
                                 [("customerName", JStr "Eva");
                                  ("ratings", JNum (Qc_of_Z 4))] [])))
                     (user_id Fixture.alice))) = true) by reflexivity.
    rewrite E in H. destruct H as [_ H]; [vm_compute; reflexivity|].
    rewrite H. vm_compute. reflexivity.
Defined.
(** ** Contact form *)

Lemma sendContactForm_run (d : Deps) (formData : Obj) (s : State) :
  sendContactForm d formData s =
  match contact_text d formData with
  | None => (Throw cannot_convert, s)
  | Some text =>
      match sendMail d (mail_to_submitter d formData text) s with
      | (Val _, s1) => sendMail d (mail_to_operator d text) s1
      | (Throw x, s1) => (Throw x, s1)
      end
  end.
Proof.
  unfold sendContactForm, bind, template.
  destruct (contact_text d formData) as [text|]; [|reflexivity].
  cbn [ret]. fold (mail_to_submitter d formData text). fold (mail_to_operator d text).
  destruct (sendMail d (mail_to_submitter d formData text) s) as [[[]|x] s1]; reflexivity.
Qed.

(** The mail text exists unless one of its five fields cannot be
    converted to a string. *)
Lemma contact_text_None (d : Deps) (b : Obj) :
  contact_text d b = None
  <-> exists k, k ∈ contact_fields /\ to_string (num_to_string d) (get k b) = None.
Proof.
  unfold contact_text, contact_fields. split.
  - destruct (to_string _ (get "name" b)) eqn:E1;
      [|intros _; exists "name"; rewrite !elem_of_cons; auto].
    destruct (to_string _ (get "phone" b)) eqn:E2;
      [|intros _; exists "phone"; rewrite !elem_of_cons; auto].
    destruct (to_string _ (get "email" b)) eqn:E3;
      [|intros _; exists "email"; rewrite !elem_of_cons; auto].
    destruct (to_string _ (get "subject" b)) eqn:E4;
      [|intros _; exists "subject"; rewrite !elem_of_cons; auto 6].
    destruct (to_string _ (get "countryCode" b)) eqn:E5;
      [discriminate|intros _; exists "countryCode"; rewrite !elem_of_cons; auto 7].
  - intros (k & Hk & Hnone). rewrite !elem_of_cons in Hk.
    destruct Hk as [->|[->|[->|[->|[->|Hk]]]]]; [..|by apply elem_of_nil in Hk];
      rewrite Hnone;
      repeat match goal with |- context [to_string ?n ?v] => destruct (to_string n v) end;
      reflexivity.
Qed.

(** An enquiry whose first send is refused: the second is never tried. *)
Lemma contactform_one_attempt :
  falsy (get "name" (literal Fixture.enquiry)) = false
  /\ falsy (get "phone" (literal Fixture.enquiry)) = false
  /\ falsy (get "email" (literal Fixture.enquiry)) = false
  /\ ~ (exists m1 m2,
         calls_since Fixture.start
           (snd (post_contactform (Fixture.deps (Fixture.fails_at 0))
                   (Fixture.request None "" Fixture.enquiry []) Fixture.start))
         = [SendMail m1; SendMail m2]).
Proof.
  split; [vm_compute; reflexivity|]. split; [vm_compute; reflexivity|].
  split; [vm_compute; reflexivity|].
  intros (m1 & m2 & H).
  apply (f_equal (@length Call)) in H. vm_compute in H. discriminate.
Qed.

(** C7 (as the code has it).  A submission lacking a name, phone or
    email is answered 400 and nothing is sent.  Otherwise the mail text
    is built from five fields of the body; when one of them cannot be
    converted to a string (an object with a [toString] property of its
    own) the template literal throws, the answer is 500 with that
    error's message and no send is attempted.  When the text is built,
    the mail to the submitter is attempted first and, only if it went
    through, the mail to the operator inbox, with the same subject and
    body.  When both go through the answer is 200 and exactly these two
    mails were sent, in this order.  When a send fails the answer is
    500 with the error's message, the same answer whichever of the two
    sends failed; a failure of the first send ends the request with one
    attempt, a failure of the second leaves the first mail delivered. *)
Theorem contactform_two_sends (d : Deps) (req : Request) (s : State) :
  let b := body req in
  let out := post_contactform d req s in
  (falsy (get "name" b) || falsy (get "phone" b) || falsy (get "email" b) = true ->
     out = (Val (message 400 "Missing required fields"), s))
  /\ (falsy (get "name" b) || falsy (get "phone" b) || falsy (get "email" b) = false ->
      ((exists k, k ∈ contact_fields /\ to_string (num_to_string d) (get k b) = None) ->
       out = (Val (message_error 500 "Error sending email" (exn_message cannot_convert)), s))
      /\ ((forall k, k ∈ contact_fields -> to_string (num_to_string d) (get k b) <> None) ->
          exists text, contact_text d b = Some text)
      /\ (forall text,
          contact_text d b = Some text ->
          let m1 := mail_to_submitter d b text in
          let m2 := mail_to_operator d text in
          let f1 := fault d (length (trace s)) (SendMail m1) in
          let f2 := fault d (S (length (trace s))) (SendMail m2) in
          mail_text m1 = mail_text m2
          /\ mail_subject m1 = mail_subject m2
          /\ mail_to m1 = get "email" b
          /\ mail_to m2 = JStr (operator_inbox d)
          /\ (f1 = NoFault -> f2 = NoFault ->
              fst out = Val (message 200 "Form submitted successfully, email sent.")
              /\ calls_since s (snd out) = [SendMail m1; SendMail m2]
              /\ outbox (snd out) = outbox s ++ [m1; m2])
          /\ (f1 <> NoFault ->
              fst out = Val (message_error 500 "Error sending email" (failure_message f1))
              /\ calls_since s (snd out) = [SendMail m1]
              /\ outbox (snd out) = outbox s)
          /\ (f1 = NoFault -> f2 <> NoFault ->
              fst out = Val (message_error 500 "Error sending email" (failure_message f2))
              /\ calls_since s (snd out) = [SendMail m1; SendMail m2]
              /\ outbox (snd out) = outbox s ++ [m1]))).
Proof.
  intros b out. subst out.
  unfold post_contactform, route, contactform. fold b.
  split.
  - intros ->. reflexivity.
  - intros ->. split; [|split].
    + intros Hk. apply contact_text_None in Hk.
      unfold try_catch, bind. by rewrite sendContactForm_run, Hk.
    + intros Hall. destruct (contact_text d b) as [text|] eqn:E; [by exists text|].
      apply contact_text_None in E as (k & Hk & Hnone). by destruct (Hall k Hk).
    + intros text Htext. cbv zeta.
      set (m1 := mail_to_submitter d b text). set (m2 := mail_to_operator d text).
      set (f1 := fault d (length (trace s)) (SendMail m1)).
      set (f2 := fault d (S (length (trace s))) (SendMail m2)).
      do 4 (split; [reflexivity|]).
      unfold try_catch, bind. rewrite sendContactForm_run, Htext.
      fold m1 m2. rewrite (sendMail_run d m1 s). fold f1.
      assert (Hlen : length (trace (set_outbox (outbox s ++ [m1]) (log (SendMail m1) s)))
                     = S (length (trace s))).
      { simpl. rewrite length_app. simpl. lia. }
      assert (Hc1 : calls_since s (log (SendMail m1) s) = [SendMail m1]).
      { unfold calls_since. simpl. by rewrite drop_app_length. }
      assert (Hc2 : forall o,
                 calls_since s (log (SendMail m2) (set_outbox o (log (SendMail m1) s)))
                 = [SendMail m1; SendMail m2]).
      { intros o. unfold calls_since. simpl. by rewrite <- app_assoc, drop_app_length. }
      split; [|split].
      * intros E1 E2. rewrite E1. rewrite (sendMail_run d m2). rewrite Hlen. fold f2.
        rewrite E2. simpl. split; [reflexivity|]. split; [apply Hc2|].
        by rewrite <- app_assoc.
      * intros N1. destruct f1 as [|e|x]; [by destruct N1|..]; simpl; auto.
      * intros E1 N2. rewrite E1. rewrite (sendMail_run d m2). rewrite Hlen. fold f2.
        destruct f2 as [|e|x]; [by destruct N2|..]; simpl; auto.
Qed.

Lemma contactform_two_sends_witness :
  (exists text,
      contact_text (Fixture.deps Fixture.no_fault) (literal Fixture.enquiry) = Some text
      /\ fst (post_contactform (Fixture.deps Fixture.no_fault)
                (Fixture.request None "" Fixture.enquiry []) Fixture.start)
         = Val (message 200 "Form submitted successfully, email sent.")
      /\ calls_since Fixture.start
           (snd (post_contactform (Fixture.deps Fixture.no_fault)
                   (Fixture.request None "" Fixture.enquiry []) Fixture.start))
         = [SendMail (mail_to_submitter (Fixture.deps Fixture.no_fault)
                        (literal Fixture.enquiry) text);
            SendMail (mail_to_operator (Fixture.deps Fixture.no_fault) text)])
  /\ post_contactform (Fixture.deps Fixture.no_fault)
       (Fixture.request None "" Fixture.odd_enquiry []) Fixture.start
     = (Val (message_error 500 "Error sending email"
               "Cannot convert object to primitive value"), Fixture.start)
  /\ (exists text,
        contact_text (Fixture.deps (Fixture.fails_at 0)) (literal Fixture.enquiry) = Some text
        /\ calls_since Fixture.start
             (snd (post_contactform (Fixture.deps (Fixture.fails_at 0))
                     (Fixture.request None "" Fixture.enquiry []) Fixture.start))
           = [SendMail (mail_to_submitter (Fixture.deps (Fixture.fails_at 0))
                          (literal Fixture.enquiry) text)]).
Proof.
  split; [|split].
  - destruct (contactform_two_sends (Fixture.deps Fixture.no_fault)
                (Fixture.request None "" Fixture.enquiry []) Fixture.start) as [_ H].
    destruct H as (_ & Hsome & H); [vm_compute; reflexivity|].
    destruct Hsome as (text & Htext).
    { intros k Hk. unfold contact_fields in Hk. rewrite !elem_of_cons in Hk.
      destruct Hk as [->|[->|[->|[->|[->|Hk]]]]]; [..|by apply elem_of_nil in Hk];
        vm_compute; discriminate. }
    exists text. split; [exact Htext|].
    destruct (H text Htext) as (_ & _ & _ & _ & H2 & _).
    destruct H2 as (H1 & H2 & _); [reflexivity|reflexivity|]. split; [exact H1|exact H2].
  - destruct (contactform_two_sends (Fixture.deps Fixture.no_fault)
                (Fixture.request None "" Fixture.odd_enquiry []) Fixture.start) as [_ H].
    destruct H as (H & _); [vm_compute; reflexivity|].
    apply H. exists "subject". split; [|vm_compute; reflexivity].
    unfold contact_fields. rewrite !elem_of_cons. auto 6.
  - destruct (contactform_two_sends (Fixture.deps (Fixture.fails_at 0))
                (Fixture.request None "" Fixture.enquiry []) Fixture.start) as [_ H].
    destruct H as (_ & Hsome & H); [vm_compute; reflexivity|].
    destruct Hsome as (text & Htext).
    { intros k Hk. unfold contact_fields in Hk. rewrite !elem_of_cons in Hk.
      destruct Hk as [->|[->|[->|[->|[->|Hk]]]]]; [..|by apply elem_of_nil in Hk];
        vm_compute; discriminate. }
    exists text. split; [exact Htext|].
    destruct (H text Htext) as (_ & _ & _ & _ & _ & H1 & _).
    destruct H1 as (_ & H1 & _); [discriminate|exact H1].
Defined.

(** ** Updating a property *)

Lemma filter_single_eq {A} (f : A -> bool) (l : list A) (r x : A) :
  List.filter f l = [r] -> In x l -> f x = true -> x = r.
Proof.
  induction l as [|a l IH]; simpl; [tauto|].
  intros Hf Hin Hx. destruct (f a) eqn:Ha.
  - injection Hf as -> Hnil. destruct Hin as [->|Hin]; [reflexivity|].
    assert (Hx' : In x (List.filter f l)) by (apply filter_In; auto).
    rewrite Hnil in Hx'. destruct Hx'.
  - destruct Hin as [->|Hin]; [congruence|]. by apply IH.
Qed.

(** Writing the single matching row back leaves the table as it was. *)
Lemma map_single_id {A} (f : A -> bool) (l : list A) (r : A) :
  List.filter f l = [r] -> List.map (fun x => if f x then r else x) l = l.
Proof.
  intros Hf. rewrite <- (map_id l) at 2. apply map_ext_in.
  intros x Hin. destruct (f x) eqn:Hx; [|reflexivity].
  symmetry. by apply (filter_single_eq f l r x).
Qed.

Lemma update_property_run (d : Deps) (req : Request) (s : State) :
  update_property d req s =
  let id := param_id req in
  match db_select_single d "properties" (Some ["id"]) "id" id s with
  | (Throw x, s1) => (Val (message_error 500 "Error updating property" (exn_message x)), s1)
  | (Val r, s1) =>
      if not_found (error r) then (Val (message 404 "Property not found"), s1)
      else
        match error r with
        | Some e => (Val (message_error 500 "Error updating property" (err_message e)), s1)
        | None =>
            match db_update d "properties" (body req) "id" id s1 with
            | (Throw x, s2) =>
                (Val (message_error 500 "Error updating property" (exn_message x)), s2)
            | (Val u, s2) =>
                (Val match error u with
                     | Some e => message_error 500 "Error updating property" (err_message e)
                     | None =>
                         {| status := 200;
                            json := JObj [("message", JStr "Property updated successfully");
                                          ("property", json_of (data u))] |}
                     end, s2)
            end
        end
  end.
Proof.
  unfold update_property, try_catch, bind. cbv zeta.
  destruct (db_select_single d _ _ _ _ s) as [[r|x] s1]; [|reflexivity].
  destruct (not_found (error r)); [reflexivity|].
  destruct (error r); [reflexivity|].
  destruct (db_update d _ _ _ _ s1) as [[u|x] s2]; [|reflexivity].
  destruct (error u); reflexivity.
Qed.

(** What an update call does to the one row it addresses. *)
Lemma db_update_effect (d : Deps) (table : string) (patch : Obj) (col v : string)
    (s : State) (row : Obj) :
  List.filter (matches col v) (rows table s) = [row] ->
  exists r s',
    db_update d table patch col v s = (r, s')
    /\ ((exists u, r = Val u /\ error u = None
                   /\ rows table s'
                      = List.map (fun x => if matches col v x then stringify patch ∪ row else x)
                          (rows table s))
        \/ ((forall u, r = Val u -> error u <> None) /\ tables s' = tables s))
    /\ (forall t, t <> table -> rows t s' = rows t s).
Proof.
  intros Hrow. rewrite db_update_run. cbv zeta. rewrite Hrow.
  destruct (fault d _ _) as [|e|x].
  - destruct (negb _).
    + do 2 eexists. split; [reflexivity|]. split; [|reflexivity].
      right. split; [|reflexivity]. intros u [= <-]. discriminate.
    + do 2 eexists. split; [reflexivity|]. split.
      * left. eexists. split; [reflexivity|]. split; [reflexivity|].
        apply rows_set_tables. intros r0. apply rows_map_in_json.
        by apply (updated_row_in_json table s (matches col v)).
      * intros t Ht. by apply rows_set_tables_ne.
  - do 2 eexists. split; [reflexivity|]. split; [|reflexivity].
    right. split; [|reflexivity]. intros u [= <-]. discriminate.
  - do 2 eexists. split; [reflexivity|]. split; [|reflexivity].
    right. split; [|reflexivity]. intros u. discriminate.
Qed.

(** C8. An update for an id that matches no row is answered 404 and
    only the existence check was issued.  For an id that matches a row,
    whatever the services answer, that row is the only one that can
    change, every column the body does not name keeps its value, and
    when the answer is 200 every column the body names holds the
    body's value, in the form JSON carries it to the store: the value
    itself, unless it holds a number that is not finite. *)
Theorem update_property_partial (d : Deps) (req : Request) (s : State) :
  let id := param_id req in
  let check := DbSelectSingle "properties" (Some ["id"]) "id" id in
  (fault d (length (trace s)) check = NoFault ->
   List.filter (matches "id" id) (rows "properties" s) = [] ->
   update_property d req s = (Val (message 404 "Property not found"), log check s))
  /\ (forall row,
      List.filter (matches "id" id) (rows "properties" s) = [row] ->
      exists res s' row',
        update_property d req s = (Val res, s')
        /\ rows "properties" s'
           = List.map (fun x => if matches "id" id x then row' else x) (rows "properties" s)
        /\ (forall t, t <> "properties" -> rows t s' = rows t s)
        /\ (forall k, body req !! k = None -> row' !! k = row !! k)
        /\ (status res = 200 ->
            forall k v, body req !! k = Some v -> v <> JUndefined -> row' !! k = Some (wire v)
                                /\ (plain v = true -> row' !! k = Some v))
        /\ (status res <> 200 -> row' = row)).
Proof.
  intros id check. split.
  - intros Hf Hnone. rewrite update_property_run. cbv zeta. fold id.
    rewrite db_select_single_run. fold check. rewrite Hf, Hnone. reflexivity.
  - intros row Hrow. rewrite update_property_run. cbv zeta. fold id.
    assert (Hsame : forall res s', tables s' = tables s -> status res <> 200 ->
              exists (res0 : Response) (s0 : State) (row' : Obj),
                (Val res, s') = (Val res0, s0)
                /\ rows "properties" s0
                   = List.map (fun x => if matches "id" id x then row' else x)
                       (rows "properties" s)
                /\ (forall t, t <> "properties" -> rows t s0 = rows t s)
                /\ (forall k, body req !! k = None -> row' !! k = row !! k)
                /\ (status res0 = 200 ->
                    forall k v, body req !! k = Some v -> v <> JUndefined ->
                                row' !! k = Some (wire v)
                                /\ (plain v = true -> row' !! k = Some v))
                /\ (status res0 <> 200 -> row' = row)).
    { intros res s' Ht Hst. exists res, s', row. split; [reflexivity|].
      split; [unfold rows at 1; rewrite Ht; symmetry; by apply map_single_id|].
      split; [intros t _; unfold rows; by rewrite Ht|].
      split; [reflexivity|]. split; [|reflexivity].
      intros E. by destruct Hst. }
    rewrite db_select_single_run. fold check.
    destruct (fault d (length (trace s)) check) as [|e|x].
    + rewrite Hrow. simpl.
      destruct (db_update_effect d "properties" (body req) "id" id (log check s) row Hrow)
        as (r & s' & Hu & Hcase & Hother).
      rewrite Hu.
      destruct Hcase as [(u & -> & Herr & Hrows) | (Herr & Ht)].
      * rewrite Herr. do 2 eexists. exists (stringify (body req) ∪ row).
        split; [reflexivity|]. split; [exact Hrows|]. split; [exact Hother|].
        split; [|split].
        -- intros k Hk. apply lookup_union_r. by apply stringify_lookup_None.
        -- intros _ k v Hk Hv.
           assert (Hw : (stringify (body req) ∪ row) !! k = Some (wire v)).
           { apply lookup_union_Some_l. rewrite stringify_lookup, Hk. by destruct v. }
           split; [exact Hw|]. intros Hp. by rewrite Hw, (wire_plain v Hp).
        -- simpl. intros E. by destruct E.
      * destruct r as [u|x].
        -- destruct (error u) as [e|] eqn:He; [|by destruct (Herr u eq_refl)].
           apply Hsame; [exact Ht|simpl; lia].
        -- apply Hsame; [exact Ht|simpl; lia].
    + simpl. destruct (err_code e =? "PGRST116"); apply Hsame; try reflexivity; simpl; lia.
    + apply Hsame; [reflexivity|simpl; lia].
Qed.

Lemma update_property_partial_witness :
  exists res s' row',
    update_property (Fixture.deps Fixture.no_fault)
      (Fixture.as_admin "p-1" [("price", JNum (Qc_of_Z 1500))] []) Fixture.listed = (Val res, s')
    /\ rows "properties" s'
       = List.map (fun x => if matches "id" "p-1" x then row' else x)
           (rows "properties" Fixture.listed)
    /\ row' !! "name" = Some (JStr "Flat 2B").
Proof.
  destruct (update_property_partial (Fixture.deps Fixture.no_fault)
              (Fixture.as_admin "p-1" [("price", JNum (Qc_of_Z 1500))] []) Fixture.listed)
    as [_ H].
  destruct (H Fixture.listing) as (res & s' & row' & H1 & H2 & _ & H3 & _).
  - vm_compute. reflexivity.
  - exists res, s', row'. split; [exact H1|]. split; [exact H2|].
    rewrite H3; vm_compute; reflexivity.
Defined.

(** ** Object-storage adapter *)

Lemma append_nonempty_r (a b : string) : b <> "" -> (a +:+ b =? "") = false.
Proof.
  intros Hb. destruct a; simpl; [|reflexivity]. by apply String.eqb_neq.
Qed.

Lemma join_nonempty_key (subfolder id ext : string) :
  join_nonempty [subfolder; id +:+ "." +:+ ext] = object_key subfolder id ext.
Proof.
  unfold join_nonempty, object_key. cbn [List.filter].
  rewrite (append_nonempty_r id ("." +:+ ext)) by discriminate.
  destruct (String.eqb subfolder ""); reflexivity.
Qed.

Lemma uploadToBucket_run (d : Deps) (bucket : string) (buf : list Byte.byte)
    (originalName mimetype subfolder : string) (s : State) :
  uploadToBucket d bucket buf originalName mimetype subfolder s =
  let key := object_key subfolder (uuid d (uuids_drawn s))
               (upload_ext d originalName mimetype) in
  match storage_upload d bucket key buf mimetype false
          (set_uuids_drawn (S (uuids_drawn s)) s) with
  | (Val None, s') => (Val (key, getPublicUrl d bucket key), s')
  | (Val (Some e), s') => (Throw {| exn_message := err_message e |}, s')
  | (Throw x, s') => (Throw x, s')
  end.
Proof.
  unfold uploadToBucket, uuidv4, bind, gets, modify, ret. cbv zeta.
  rewrite join_nonempty_key.
  destruct (storage_upload d _ _ _ _ _ _) as [[[e|]|x] s']; reflexivity.
Qed.

(** C6. The extension of the generated key comes from the MIME type
    when the lookup gives one, else from the file name, else it is
    [bin]; the key is the next identifier drawn from the random source,
    under the folder when one is given, with that extension; exactly
    one upload is issued, with overwriting off; when the store takes it
    the key and its public URL are returned and the object is stored,
    and a key that is already taken is never overwritten. *)
Theorem uploadToBucket_key (d : Deps) (bucket : string) (buf : list Byte.byte)
    (originalName mimetype subfolder : string) (s : State) :
  let ext := upload_ext d originalName mimetype in
  let from_name := remove_first_dot (path_extname d originalName) in
  let id := uuid d (uuids_drawn s) in
  let key := if String.eqb subfolder "" then id +:+ "." +:+ ext
             else subfolder +:+ "/" +:+ id +:+ "." +:+ ext in
  let c := StorageUpload bucket key buf mimetype false in
  let out := uploadToBucket d bucket buf originalName mimetype subfolder s in
  (forall e, mime_extension d mimetype = Some e -> e <> "" -> ext = e)
  /\ (mime_extension d mimetype = None \/ mime_extension d mimetype = Some "" ->
      from_name <> "" -> ext = from_name)
  /\ (mime_extension d mimetype = None \/ mime_extension d mimetype = Some "" ->
      from_name = "" -> ext = "bin")
  /\ calls_since s (snd out) = [c]
  /\ uuids_drawn (snd out) = S (uuids_drawn s)
  /\ (fault d (length (trace s)) c = NoFault -> objects s !! (bucket, key) = None ->
      fst out = Val (key, getPublicUrl d bucket key)
      /\ objects (snd out) = <[(bucket, key) := buf]> (objects s))
  /\ (is_Some (objects s !! (bucket, key)) ->
      (exists x, fst out = Throw x) /\ objects (snd out) = objects s)
  /\ (forall r, fst out = Val r ->
      r = (key, getPublicUrl d bucket key)
      /\ objects s !! (bucket, key) = None
      /\ objects (snd out) !! (bucket, key) = Some buf).
Proof.
  intros ext from_name id key c out.
  split; [|split; [|split]].
  - intros e He Hne. subst ext. unfold upload_ext, or_else. rewrite He.
    apply String.eqb_neq in Hne. by rewrite Hne.
  - intros Hm Hn. subst ext from_name. unfold upload_ext.
    apply String.eqb_neq in Hn.
    destruct Hm as [-> | ->]; simpl; by rewrite Hn.
  - intros Hm Hn. subst ext from_name. unfold upload_ext.
    destruct Hm as [-> | ->]; simpl; by rewrite Hn.
  - subst out. rewrite uploadToBucket_run. cbv zeta.
    fold ext id. unfold object_key. fold key.
    rewrite storage_upload_run. cbv zeta. cbn [trace set_uuids_drawn objects].
    fold c.
    assert (Hcalls : forall o,
               calls_since s (set_objects o (log c (set_uuids_drawn (S (uuids_drawn s)) s)))
               = [c]).
    { intros o. unfold calls_since. cbn. by rewrite drop_app_length. }
    assert (Hcalls' : calls_since s (log c (set_uuids_drawn (S (uuids_drawn s)) s)) = [c]).
    { unfold calls_since. cbn. by rewrite drop_app_length. }
    destruct (fault d (length (trace s)) c) as [|e|x].
    + destruct (objects s !! (bucket, key)) as [old|] eqn:Hold; cbn [fst snd].
      * split; [exact Hcalls'|]. split; [reflexivity|].
        split; [intros _ [=]|]. split; [intros _; split; [by eexists|reflexivity]|].
        intros r [=].
      * split; [apply Hcalls|]. split; [reflexivity|].
        split; [intros _ _; split; reflexivity|].
        split; [intros [? [=]]|].
        intros r [= <-]. split; [reflexivity|]. split; [reflexivity|].
        cbn. by rewrite lookup_insert_eq.
    + cbn [fst snd]. split; [exact Hcalls'|]. split; [reflexivity|].
      split; [intros [=]|]. split; [intros _; split; [by eexists|reflexivity]|].
      intros r [=].
    + cbn [fst snd]. split; [exact Hcalls'|]. split; [reflexivity|].
      split; [intros [=]|]. split; [intros _; split; [by eexists|reflexivity]|].
      intros r [=].
Qed.

Lemma uploadToBucket_key_witness :
  fst (uploadToBucket (Fixture.deps Fixture.no_fault) "review-images" []
         "face.jpeg" "application/x-unknown" "reviews" Fixture.start)
  = Val ("reviews/uuid-a.jpeg",
         "https://p.supabase.co/storage/v1/object/public/review-images/reviews/uuid-a.jpeg").
Proof.
  destruct (uploadToBucket_key (Fixture.deps Fixture.no_fault) "review-images" []
              "face.jpeg" "application/x-unknown" "reviews" Fixture.start)
    as (_ & H2 & _ & _ & _ & H6 & _).
  destruct H6 as [H _]; [reflexivity|vm_compute; reflexivity|].
  rewrite H. rewrite H2; [vm_compute; reflexivity|by left|vm_compute; discriminate].
Defined.

(** ** Detaching an image *)

Lemma delete_image_run (d : Deps) (req : Request) (s : State) :
  delete_image d req s =
  let id := param_id req in
  let url := get "url" (body req) in
  let failed x := message_error 500 "Delete failed" (exn_message x) in
  if falsy url then (Val (message 400 "Missing url"), s)
  else
    match db_select_single d "properties" (Some ["id"; "images"]) "id" id s with
    | (Throw x, s1) => (Val (failed x), s1)
    | (Val r, s1) =>
        if not_found (error r) then (Val (message 404 "Property not found"), s1)
        else
          match error r, data r with
          | Some e, _ =>
              (Val (message_error 500 "Error reading property" (err_message e)), s1)
          | None, None => (Val (failed TypeError), s1)
          | None, Some prop =>
              let images := array_or_empty (get "images" prop) in
              if negb (includes url images)
              then (Val (message 400 "URL not found on property"), s1)
              else
                match url with
                | JStr urls =>
                    match indexOf detach_base urls with
                    | None => (Val (message 400 "Unrecognized storage URL"), s1)
                    | Some idx =>
                        let path := slice (idx + String.length detach_base) urls in
                        match storage_remove d PROPERTY_BUCKET [path] s1 with
                        | (Throw x, s2) => (Val (failed x), s2)
                        | (Val (Some e), s2) =>
                            (Val (message_error 500 "Failed to delete file" (err_message e)),
                             s2)
                        | (Val None, s2) =>
                            match db_update d "properties"
                                    (literal [("images", JArr (remove_all url images))])
                                    "id" id s2 with
                            | (Throw x, s3) => (Val (failed x), s3)
                            | (Val u, s3) =>
                                match error u, data u with
                                | Some e, _ =>
                                    (Val (message_error 500 "Failed to update DB"
                                            (err_message e)), s3)
                                | None, None => (Val (failed TypeError), s3)
                                | None, Some o =>
                                    (Val {| status := 200;
                                            json := JObj [("message", JStr "Removed");
                                                          ("images", get "images" o)] |}, s3)
                                end
                            end
                        end
                    end
                | _ => (Val (failed TypeError), s1)
                end
          end
    end.
Proof.
  unfold delete_image, try_catch, bind, images_of, as_string. cbv zeta.
  fold detach_base.
  destruct (falsy _); [reflexivity|].
  destruct (db_select_single d _ _ _ _ s) as [[r|x] s1]; [|reflexivity].
  destruct (not_found (error r)); [reflexivity|].
  destruct (error r); [reflexivity|].
  destruct (data r) as [prop|]; [|reflexivity]. cbn [ret].
  destruct (negb _); [reflexivity|].
  destruct (get "url" (body req)); try reflexivity. cbn [ret].
  destruct (indexOf detach_base s0); [|reflexivity].
  destruct (storage_remove d _ _ s1) as [[[e|]|x] s2]; try reflexivity.
  destruct (db_update d _ _ _ _ s2) as [[u|x] s3]; [|reflexivity].
  destruct (error u); [reflexivity|].
  destruct (data u); reflexivity.
Qed.

Ltac solve_calls :=
  apply calls_since_app; cbn [fst snd trace log set_objects set_tables set_outbox
                                set_rows_created set_uuids_drawn];
  rewrite <- ?app_assoc; reflexivity.

Lemma reads_only_not_write (s s' : State) (c : Call) :
  reads_only s s' -> is_read c = false -> c ∉ calls_since s s'.
Proof.
  intros [_ _ _ _ _ (calls & Htr & Hall)] Hc Hin.
  rewrite (calls_since_app s s' calls Htr) in Hin.
  rewrite forallb_forall in Hall. apply list_elem_of_In, Hall in Hin. congruence.
Qed.

(** How far a detach request gets: it stops having only read; or the
    storage removal fails and nothing is written; or the removal goes
    through and the update is issued. *)
Lemma delete_image_shape (d : Deps) (req : Request) (s : State) :
  let id := param_id req in
  let out := delete_image d req s in
  exists res,
    fst out = Val res
    /\ ((status res <> 200 /\ reads_only s (snd out))
        \/ (exists path,
              fault d (S (length (trace s))) (StorageRemove PROPERTY_BUCKET [path]) <> NoFault
              /\ status res = 500
              /\ calls_since s (snd out)
                 = [read_images id; StorageRemove PROPERTY_BUCKET [path]]
              /\ tables (snd out) = tables s
              /\ objects (snd out) = objects s)
        \/ (exists path patch,
              fault d (S (length (trace s))) (StorageRemove PROPERTY_BUCKET [path]) = NoFault
              /\ calls_since s (snd out)
                 = [read_images id; StorageRemove PROPERTY_BUCKET [path];
                    DbUpdate "properties" patch "id" id]
              /\ objects (snd out) = delete (PROPERTY_BUCKET, path) (objects s)
              /\ (status res = 200 \/ (status res = 500 /\ tables (snd out) = tables s)))).
Proof.
  intros id out. subst out. rewrite delete_image_run. cbv zeta. fold id.
  pose proof (reads_only_refl s) as Hrefl.
  assert (Hread : reads_only s (log (read_images id) s)) by (by apply reads_only_log).
  destruct (falsy _).
  { eexists. split; [reflexivity|]. left. split; [simpl; lia|exact Hrefl]. }
  rewrite db_select_single_run. fold (read_images id).
  assert (Hlen : length (trace (log (read_images id) s)) = S (length (trace s))).
  { cbn. rewrite length_app. simpl. lia. }
  destruct (fault d (length (trace s)) (read_images id)) as [|e|x].
  2:{ cbn [error db_error data].
      destruct (not_found _); eexists; (split; [reflexivity|]); left;
        (split; [simpl; lia|exact Hread]). }
  2:{ eexists. split; [reflexivity|]. left. split; [simpl; lia|exact Hread]. }
  destruct (List.filter _ _) as [|prop [|]];
    cbn [error db_error ok_row data not_found];
    try (eexists; (split; [reflexivity|]); left; (split; [simpl; lia|exact Hread])).
  destruct (negb _).
  { eexists. split; [reflexivity|]. left. split; [simpl; lia|exact Hread]. }
  destruct (get "url" (body req)) as [| |b|q|ng|urls|l|l];
    try (eexists; (split; [reflexivity|]); left; (split; [simpl; lia|exact Hread])).
  destruct (indexOf detach_base urls) as [idx|].
  2:{ eexists. split; [reflexivity|]. left. split; [simpl; lia|exact Hread]. }
  rewrite storage_remove_run. cbv zeta. rewrite Hlen.
  set (path := slice (idx + String.length detach_base) urls).
  destruct (fault d (S (length (trace s))) (StorageRemove PROPERTY_BUCKET [path]))
    as [|e|x] eqn:Hf.
  2:{ eexists. split; [reflexivity|]. right. left. exists path.
      rewrite Hf. split; [discriminate|]. split; [reflexivity|].
      split; [solve_calls|]. split; reflexivity. }
  2:{ eexists. split; [reflexivity|]. right. left. exists path.
      rewrite Hf. split; [discriminate|]. split; [reflexivity|].
      split; [solve_calls|]. split; reflexivity. }
  rewrite db_update_run. cbv zeta.
  match goal with |- context [DbUpdate "properties" ?p "id" id] => set (patch := p) end.
  assert (Hshape : forall res s3,
            trace s3 = trace s ++ [read_images id; StorageRemove PROPERTY_BUCKET [path];
                                   DbUpdate "properties" patch "id" id] ->
            objects s3 = delete (PROPERTY_BUCKET, path) (objects s) ->
            status res = 200 \/ (status res = 500 /\ tables s3 = tables s) ->
            exists res0, fst (Val res, s3) = Val res0 /\
              ((status res0 <> 200 /\ reads_only s (snd (Val res, s3)))
               \/ (exists path0,
                     fault d (S (length (trace s))) (StorageRemove PROPERTY_BUCKET [path0])
                     <> NoFault
                     /\ status res0 = 500
                     /\ calls_since s (snd (Val res, s3))
                        = [read_images id; StorageRemove PROPERTY_BUCKET [path0]]
                     /\ tables (snd (Val res, s3)) = tables s
                     /\ objects (snd (Val res, s3)) = objects s)
               \/ (exists path0 patch0,
                     fault d (S (length (trace s))) (StorageRemove PROPERTY_BUCKET [path0])
                     = NoFault
                     /\ calls_since s (snd (Val res, s3))
                        = [read_images id; StorageRemove PROPERTY_BUCKET [path0];
                           DbUpdate "properties" patch0 "id" id]
                     /\ objects (snd (Val res, s3))
                        = delete (PROPERTY_BUCKET, path0) (objects s)
                     /\ (status res0 = 200
                         \/ (status res0 = 500 /\ tables (snd (Val res, s3)) = tables s))))).
  { intros res s3 Htr Hobj Hst. exists res. split; [reflexivity|]. right. right.
    exists path, patch. split; [exact Hf|]. split; [by apply calls_since_app|].
    split; [exact Hobj|exact Hst]. }
  assert (Htr : forall t o,
             trace (set_tables t (log (DbUpdate "properties" patch "id" id)
                      (set_objects o (log (StorageRemove PROPERTY_BUCKET [path])
                                        (log (read_images id) s)))))
             = trace s ++ [read_images id; StorageRemove PROPERTY_BUCKET [path];
                           DbUpdate "properties" patch "id" id]).
  { intros. cbn. by rewrite <- !app_assoc. }
  assert (Htr' : forall o,
             trace (log (DbUpdate "properties" patch "id" id)
                      (set_objects o (log (StorageRemove PROPERTY_BUCKET [path])
                                        (log (read_images id) s))))
             = trace s ++ [read_images id; StorageRemove PROPERTY_BUCKET [path];
                           DbUpdate "properties" patch "id" id]).
  { intros. cbn. by rewrite <- !app_assoc. }
  destruct (fault d _ (DbUpdate "properties" patch "id" id)) as [|e|x].
  - destruct (List.filter _ _) as [|r [|]];
      cbn [error db_error ok_row data];
      try (apply Hshape; [apply Htr'|reflexivity|right; split; reflexivity]).
    destruct (negb _); cbn [error db_error ok_row data].
    + apply Hshape; [apply Htr'|reflexivity|right; split; reflexivity].
    + apply Hshape; [apply Htr|reflexivity|by left].
  - cbn [error db_error]. apply Hshape; [apply Htr'|reflexivity|right; split; reflexivity].
  - apply Hshape; [apply Htr'|reflexivity|right; split; reflexivity].
Qed.

(** C4. Detaching a URL the property does not hold is answered 400
    after reading only, so the images sequence stays as it was.  A
    storage removal that fails ends the request with an error before
    any update is issued, and the tables are left as they were; the
    row is only ever written after a removal that went through. *)
Theorem delete_image_guards (d : Deps) (req : Request) (s : State) :
  let id := param_id req in
  let url := get "url" (body req) in
  let out := delete_image d req s in
  (forall prop,
      fault d (length (trace s)) (read_images id) = NoFault ->
      List.filter (matches "id" id) (rows "properties" s) = [prop] ->
      includes url (array_or_empty (get "images" prop)) = false ->
      exists res,
        fst out = Val res /\ status res = 400
        /\ reads_only s (snd out)
        /\ images_at id (snd out) = images_at id s)
  /\ (forall path,
      StorageRemove PROPERTY_BUCKET [path] ∈ calls_since s (snd out) ->
      fault d (S (length (trace s))) (StorageRemove PROPERTY_BUCKET [path]) <> NoFault ->
      (exists res, fst out = Val res /\ status res = 500)
      /\ tables (snd out) = tables s
      /\ images_at id (snd out) = images_at id s
      /\ (forall t p c v, DbUpdate t p c v ∉ calls_since s (snd out)))
  /\ (tables (snd out) = tables s
      \/ exists path patch,
           calls_since s (snd out)
           = [read_images id; StorageRemove PROPERTY_BUCKET [path];
              DbUpdate "properties" patch "id" id]
           /\ fault d (S (length (trace s))) (StorageRemove PROPERTY_BUCKET [path]) = NoFault
           /\ objects (snd out) = delete (PROPERTY_BUCKET, path) (objects s)).
Proof.
  intros id url out.
  assert (Himg : forall s', tables s' = tables s -> images_at id s' = images_at id s).
  { intros s' H. unfold images_at, rows. by rewrite H. }
  split; [|split].
  - intros prop Hf Hrow Hinc. subst out. rewrite delete_image_run. cbv zeta.
    fold id url.
    destruct (falsy url).
    { eexists. split; [reflexivity|]. split; [reflexivity|].
      split; [apply reads_only_refl|reflexivity]. }
    rewrite db_select_single_run. fold (read_images id). rewrite Hf, Hrow.
    cbn [error ok_row data not_found].
    rewrite get_project_keep by (rewrite !elem_of_cons; auto).
    rewrite Hinc. cbn [negb].
    eexists. split; [reflexivity|]. split; [reflexivity|].
    split; [by apply reads_only_log|reflexivity].
  - intros path Hin Hfault.
    destruct (delete_image_shape d req s) as (res & Hres & Hcase).
    fold id out in Hres, Hcase.
    destruct Hcase as [(_ & Hro) | [(p & Hf & Hst & Hcalls & Ht & _)
                                   | (p & patch & Hf & Hcalls & _)]].
    + exfalso.
      by apply (reads_only_not_write s (snd out)
                  (StorageRemove PROPERTY_BUCKET [path]) Hro eq_refl) in Hin.
    + split; [by exists res|]. split; [exact Ht|]. split; [by apply Himg|].
      intros t q c v Hu. rewrite Hcalls in Hu.
      rewrite !elem_of_cons in Hu. destruct Hu as [Hu | [Hu | Hu]]; try discriminate.
      by apply elem_of_nil in Hu.
    + exfalso. rewrite Hcalls in Hin.
      rewrite !elem_of_cons in Hin. destruct Hin as [Hin | [Hin | [Hin | Hin]]];
        try discriminate.
      * injection Hin as ->. by destruct Hfault.
      * by apply elem_of_nil in Hin.
  - destruct (delete_image_shape d req s) as (res & Hres & Hcase).
    fold id out in Hres, Hcase.
    destruct Hcase as [(_ & Hro) | [(p & Hf & Hst & Hcalls & Ht & _)
                                   | (p & patch & Hf & Hcalls & Hobj & _)]].
    + left. by destruct Hro.
    + by left.
    + right. exists p, patch. auto.
Qed.

Lemma delete_image_guards_witness :
  exists res,
    fst (delete_image (Fixture.deps Fixture.no_fault)
           (Fixture.as_admin "p-1" [("url", JStr "https://elsewhere.example/x.png")] [])
           Fixture.listed) = Val res
    /\ status res = 400
    /\ images_at "p-1"
         (snd (delete_image (Fixture.deps Fixture.no_fault)
                 (Fixture.as_admin "p-1" [("url", JStr "https://elsewhere.example/x.png")] [])
                 Fixture.listed))
       = images_at "p-1" Fixture.listed.
Proof.
  destruct (delete_image_guards (Fixture.deps Fixture.no_fault)
              (Fixture.as_admin "p-1" [("url", JStr "https://elsewhere.example/x.png")] [])
              Fixture.listed) as [H _].
  destruct (H Fixture.listing) as (res & H1 & H2 & _ & H3).
  - reflexivity.
  - vm_compute. reflexivity.
  - vm_compute. reflexivity.
  - exists res. auto.
Defined.

(** ** Attaching images *)

Lemma append_inj_r (p a b : string) : p +:+ a = p +:+ b -> a = b.
Proof. induction p as [|c p IH]; simpl; [auto|]. intros [= H]. auto. Qed.

Lemma getPublicUrl_inj (d : Deps) (bucket k1 k2 : string) :
  getPublicUrl d bucket k1 = getPublicUrl d bucket k2 -> k1 = k2.
Proof. unfold getPublicUrl. intros H. by do 4 apply append_inj_r in H. Qed.

Lemma uploadToBucket_success (d : Deps) (bucket : string) (buf : list Byte.byte)
    (originalName mimetype subfolder : string) (s s1 : State) (r : string * string) :
  uploadToBucket d bucket buf originalName mimetype subfolder s = (Val r, s1) ->
  let key := object_key subfolder (uuid d (uuids_drawn s))
               (upload_ext d originalName mimetype) in
  r = (key, getPublicUrl d bucket key)
  /\ objects s !! (bucket, key) = None
  /\ fault d (length (trace s)) (StorageUpload bucket key buf mimetype false) = NoFault
  /\ s1 = set_objects (<[(bucket, key) := buf]> (objects s))
            (log (StorageUpload bucket key buf mimetype false)
               (set_uuids_drawn (S (uuids_drawn s)) s)).
Proof.
  rewrite uploadToBucket_run. cbv zeta. rewrite storage_upload_run. cbv zeta.
  cbn [trace objects set_uuids_drawn].
  destruct (fault d _ _) as [|e|x]; try discriminate.
  destruct (objects s !! _) eqn:Ho; try discriminate.
  intros [= <- <-]. auto.
Qed.

(** The upload loop, when it completes: the URLs come in file order,
    one drawn identifier each; every key was free and no two are the
    same; nothing held before is lost. *)
Lemma upload_each_success (d : Deps) (id : string) (fs : list File) :
  forall (acc : list JsVal) (s s' : State) (out : list JsVal),
    upload_each d ("properties/" +:+ id) fs acc s = (Val out, s') ->
    out = acc ++ attach_urls d id (uuids_drawn s) fs
    /\ tables s' = tables s
    /\ outbox s' = outbox s
    /\ rows_created s' = rows_created s
    /\ uuids_drawn s' = uuids_drawn s + length fs
    /\ trace s' = trace s ++ attach_calls d id (uuids_drawn s) fs
    /\ NoDup (attach_keys d id (uuids_drawn s) fs)
    /\ (forall k, k ∈ attach_keys d id (uuids_drawn s) fs ->
                  objects s !! (PROPERTY_BUCKET, k) = None)
    /\ (forall bk, is_Some (objects s !! bk) -> is_Some (objects s' !! bk)).
Proof.
  induction fs as [|f fs IH]; intros acc s s' out.
  - simpl. intros [= <- <-]. unfold attach_urls. simpl.
    rewrite !app_nil_r, Nat.add_0_r.
    repeat split; try reflexivity; auto.
    + constructor.
    + intros k Hk. by apply elem_of_nil in Hk.
  - cbn [upload_each]. unfold bind at 1.
    destruct (uploadToBucket d _ _ _ _ _ s) as [[r|x] s1] eqn:Hup; [|discriminate].
    apply uploadToBucket_success in Hup. cbv zeta in Hup.
    fold (attach_key d id (uuids_drawn s) f) in Hup.
    destruct Hup as (-> & Hfree & _ & ->).
    intros Hrest. apply IH in Hrest.
    cbn [snd tables outbox rows_created uuids_drawn trace objects set_objects log
         set_uuids_drawn] in Hrest.
    destruct Hrest as (-> & Ht & Ho & Hr & Hu & Htr & Hnd & Hfresh & Hkeep).
    split; [unfold attach_urls; cbn [attach_keys List.map]; by rewrite <- app_assoc|].
    split; [exact Ht|]. split; [exact Ho|]. split; [exact Hr|].
    split; [rewrite Hu; simpl; lia|].
    split; [rewrite Htr; cbn [attach_calls]; by rewrite <- app_assoc|].
    split; [|split].
    + cbn [attach_keys]. constructor; [|exact Hnd].
      intros Hin. apply Hfresh in Hin. by rewrite lookup_insert_eq in Hin.
    + cbn [attach_keys]. intros k Hk. apply elem_of_cons in Hk as [-> | Hk].
      * exact Hfree.
      * specialize (Hfresh k Hk).
        destruct (decide ((PROPERTY_BUCKET, attach_key d id (uuids_drawn s) f)
                          = (PROPERTY_BUCKET, k))) as [E|E].
        -- rewrite E, lookup_insert_eq in Hfresh. discriminate.
        -- by rewrite lookup_insert_ne in Hfresh.
    + intros bk Hbk. apply Hkeep.
      destruct (decide ((PROPERTY_BUCKET, attach_key d id (uuids_drawn s) f) = bk)) as [<-|E].
      * rewrite lookup_insert_eq. by eexists.
      * by rewrite lookup_insert_ne.
Qed.

Lemma filter_map_same {A} (f : A -> bool) (g : A -> A) (l : list A) :
  (forall x, f (g x) = f x) -> List.filter f (List.map g l) = List.map g (List.filter f l).
Proof.
  intros H. induction l as [|a l IH]; simpl; [reflexivity|].
  rewrite H. destruct (f a); simpl; by rewrite IH.
Qed.

(** Rewriting the one matching row keeps it the one matching row. *)
Lemma filter_rewritten (f : Obj -> bool) (l : list Obj) (r r' : Obj) :
  List.filter f l = [r] -> f r' = true ->
  List.filter f (List.map (fun x => if f x then r' else x) l) = [r'].
Proof.
  intros Hf Hr'. rewrite filter_map_same.
  - rewrite Hf. simpl.
    assert (Hr : f r = true).
    { assert (Hin : In r (List.filter f l)) by (rewrite Hf; by left).
      by apply filter_In in Hin as [_ ?]. }
    by rewrite Hr.
  - intros x. destruct (f x) eqn:Hx; [exact Hr'|exact Hx].
Qed.

Lemma images_patch_lookup (l : list JsVal) (r : Obj) :
  Forall in_json l ->
  get "images" (stringify (literal [("images", JArr l)]) ∪ r) = JArr l.
Proof.
  intros Hl. unfold get.
  rewrite (lookup_union_Some_l _ _ "images" (JArr l)); [reflexivity|].
  rewrite stringify_lookup. unfold literal. cbn [list_to_map foldr uncurry].
  rewrite lookup_insert_eq. cbn [is_undefined]. f_equal. by apply wire_arr.
Qed.

Lemma attach_urls_in_json (d : Deps) (id : string) (n : nat) (fs : list File) :
  Forall in_json (attach_urls d id n fs).
Proof.
  unfold attach_urls. apply List.Forall_forall. intros x Hx.
  apply in_map_iff in Hx as (k & <- & _). apply in_json_str.
Qed.

Lemma images_patch_keeps_id (l : list JsVal) (r : Obj) (id : string) :
  matches "id" id (stringify (literal [("images", JArr l)]) ∪ r) = matches "id" id r.
Proof.
  unfold matches, get. rewrite lookup_union_r; [reflexivity|].
  apply stringify_lookup_None. unfold literal. simpl.
  by rewrite lookup_insert_ne.
Qed.

(** What a successful write of the images column leaves in the table. *)
Lemma db_update_images_success (d : Deps) (id : string) (l : list JsVal)
    (s s' : State) (u : DbResp) (row : Obj) :
  Forall in_json l ->
  List.filter (matches "id" id) (rows "properties" s) = [row] ->
  db_update d "properties" (literal [("images", JArr l)]) "id" id s = (Val u, s') ->
  error u = None ->
  images_at id s' = l
  /\ get "images" <$> data u = Some (JArr l)
  /\ objects s' = objects s /\ uuids_drawn s' = uuids_drawn s
  /\ trace s' = trace s ++ [DbUpdate "properties" (literal [("images", JArr l)]) "id" id]
  /\ (forall t, t <> "properties" -> rows t s' = rows t s).
Proof.
  intros Hl Hrow. rewrite db_update_run. cbv zeta. rewrite Hrow.
  destruct (fault d _ _) as [|e|x]; try discriminate.
  2:{ intros [= <- <-]. discriminate. }
  destruct (negb _); [intros [= <- <-]; discriminate|].
  intros [= <- <-] _.
  split; [|split; [|split; [|split; [|split]]]]; try reflexivity.
  - unfold images_at. rewrite rows_set_tables.
    2:{ intros r0. apply rows_map_in_json.
        by apply (updated_row_in_json "properties" s (matches "id" id)). }
    rewrite (filter_rewritten _ _ row); [by rewrite images_patch_lookup|exact Hrow|].
    rewrite images_patch_keeps_id.
    assert (Hin : In row (List.filter (matches "id" id) (rows "properties" s)))
      by (rewrite Hrow; by left).
    by apply filter_In in Hin as [_ ?].
  - cbn [data ok_row fmap option_fmap option_map]. by rewrite images_patch_lookup.
  - intros t Ht. by apply rows_set_tables_ne.
Qed.

Lemma upload_images_run (d : Deps) (req : Request) (s : State) :
  upload_images d req s =
  let id := param_id req in
  let fs := default [] (files req) in
  let failed x := message_error 500 "Upload failed" (exn_message x) in
  if Nat.eqb (length fs) 0 then (Val (message 400 "No files uploaded"), s)
  else
    match db_select_single d "properties" (Some ["id"; "images"]) "id" id s with
    | (Throw x, s1) => (Val (failed x), s1)
    | (Val r, s1) =>
        if not_found (error r) then (Val (message 404 "Property not found"), s1)
        else
          match error r with
          | Some e => (Val (message_error 500 "Error reading property" (err_message e)), s1)
          | None =>
              match upload_each d ("properties/" +:+ id) fs [] s1 with
              | (Throw x, s2) => (Val (failed x), s2)
              | (Val uploaded, s2) =>
                  match data r with
                  | None => (Val (failed TypeError), s2)
                  | Some prop =>
                      let updatedImages := array_or_empty (get "images" prop) ++ uploaded in
                      match db_update d "properties"
                              (literal [("images", JArr updatedImages)]) "id" id s2 with
                      | (Throw x, s3) => (Val (failed x), s3)
                      | (Val u, s3) =>
                          match error u, data u with
                          | Some e, _ =>
                              (Val (message_error 500 "Failed to save image URLs"
                                      (err_message e)), s3)
                          | None, None => (Val (failed TypeError), s3)
                          | None, Some o =>
                              (Val {| status := 200;
                                      json := JObj [("message", JStr "Uploaded");
                                                    ("images", get "images" o)] |}, s3)
                          end
                      end
                  end
              end
          end
    end.
Proof.
  unfold upload_images, try_catch, bind, images_of. cbv zeta.
  destruct (Nat.eqb _ 0); [reflexivity|].
  destruct (db_select_single d _ _ _ _ s) as [[r|x] s1]; [|reflexivity].
  destruct (not_found (error r)); [reflexivity|].
  destruct (error r); [reflexivity|].
  destruct (upload_each d _ _ _ s1) as [[uploaded|x] s2]; [|reflexivity].
  destruct (data r) as [prop|]; [|reflexivity]. cbn [ret].
  destruct (db_update d _ _ _ _ s2) as [[u|x] s3]; [|reflexivity].
  destruct (error u); [reflexivity|].
  destruct (data u); reflexivity.
Qed.

(** A successful attach: the row existed, every file was uploaded under
    its own key, and the images sequence is the previous one followed
    by the new URLs in file order. *)
Lemma upload_images_success (d : Deps) (req : Request) (s s' : State) (res : Response) :
  upload_images d req s = (Val res, s') ->
  status res = 200 ->
  let id := param_id req in
  let fs := default [] (files req) in
  let n := uuids_drawn s in
  1 <= length fs
  /\ images_at id s' = images_at id s ++ attach_urls d id n fs
  /\ json res = JObj [("message", JStr "Uploaded");
                      ("images", JArr (images_at id s ++ attach_urls d id n fs))]
  /\ NoDup (attach_keys d id n fs)
  /\ calls_since s s'
     = read_images id :: attach_calls d id n fs
       ++ [DbUpdate "properties"
             (literal [("images", JArr (images_at id s ++ attach_urls d id n fs))]) "id" id]
  /\ uuids_drawn s' = n + length fs
  /\ (forall bk, is_Some (objects s !! bk) -> is_Some (objects s' !! bk)).
Proof.
  rewrite upload_images_run. cbv zeta. intros Hrun Hst.
  destruct (Nat.eqb _ 0) eqn:Hlen; [injection Hrun as <- <-; discriminate|].
  apply Nat.eqb_neq in Hlen.
  rewrite db_select_single_run in Hrun. fold (read_images (param_id req)) in Hrun.
  destruct (fault d _ _) as [|e|x].
  2:{ cbn [error db_error] in Hrun. destruct (not_found _);
        injection Hrun as <- <-; discriminate. }
  2:{ injection Hrun as <- <-; discriminate. }
  destruct (List.filter _ _) as [|row [|]] eqn:Hrow;
    cbn [error db_error ok_row data not_found] in Hrun;
    try (injection Hrun as <- <-; discriminate).
  destruct (upload_each d _ _ _ _) as [[uploaded|x] s2] eqn:Hup.
  2:{ injection Hrun as <- <-; discriminate. }
  apply upload_each_success in Hup.
  cbn [tables outbox rows_created uuids_drawn trace objects log] in Hup.
  destruct Hup as (-> & Ht & _ & _ & Hu & Htr & Hnd & _ & Hkeep).
  rewrite app_nil_l in Hrun.
  rewrite get_project_keep in Hrun by (rewrite !elem_of_cons; auto).
  assert (Hrow2 : List.filter (matches "id" (param_id req)) (rows "properties" s2) = [row]).
  { unfold rows. rewrite Ht. exact Hrow. }
  assert (Himg : images_at (param_id req) s = array_or_empty (get "images" row)).
  { unfold images_at. by rewrite Hrow. }
  rewrite <- Himg in Hrun.
  destruct (db_update d _ _ _ _ s2) as [[u|x] s3] eqn:Hupd.
  2:{ injection Hrun as <- <-; discriminate. }
  destruct (error u) as [e|] eqn:He; [injection Hrun as <- <-; discriminate|].
  assert (Hjson : Forall in_json
                    (images_at (param_id req) s
                     ++ attach_urls d (param_id req) (uuids_drawn s) (default [] (files req)))).
  { apply Forall_app. split; [apply images_at_in_json|apply attach_urls_in_json]. }
  destruct (db_update_images_success d _ _ s2 s3 u row Hjson Hrow2 Hupd He)
    as (Hat & Hdata & Hobj & Hu3 & Htr3 & _).
  destruct (data u) as [o|]; [|discriminate].
  injection Hdata as Hdata. injection Hrun as <- <-.
  split; [lia|]. split; [exact Hat|]. split; [cbn [json]; by rewrite Hdata|].
  split; [exact Hnd|]. split; [|split].
  - apply calls_since_app. rewrite Htr3, Htr. by rewrite <- !app_assoc.
  - by rewrite Hu3.
  - intros bk Hbk. rewrite Hobj. by apply Hkeep.
Qed.

(** ** Create, attach, detach *)

Lemma existsb_false_filter {A} (f : A -> bool) (l : list A) :
  existsb f l = false -> List.filter f l = [].
Proof.
  induction l as [|a l IH]; simpl; [reflexivity|].
  intros H. apply orb_false_elim in H as [-> H]. auto.
Qed.

(** A create answered 201 appended one row with a new id and no images. *)
Lemma create_property_success (d : Deps) (req : Request) (s s' : State) (res : Response) :
  create_property d req s = (Val res, s') ->
  status res = 201 ->
  exists row pid,
    rows "properties" s' = rows "properties" s ++ [row]
    /\ get "id" row = JStr pid
    /\ List.filter (matches "id" pid) (rows "properties" s) = []
    /\ row !! "images" = None
    /\ json res = JObj (map_to_list row)
    /\ objects s' = objects s
    /\ uuids_drawn s' = uuids_drawn s.
Proof.
  rewrite create_property_run. intros Hrun Hst.
  destruct (missing_check _); [injection Hrun as <- <-; discriminate|].
  destruct (user req) as [u|]; [|injection Hrun as <- <-; discriminate].
  rewrite db_insert_run in Hrun. cbv zeta in Hrun.
  rewrite (stringify_lookup_None "id") in Hrun by apply property_payload_no_id.
  destruct (fault d _ _) as [|e|x];
    [|injection Hrun as <- <-; discriminate|injection Hrun as <- <-; discriminate].
  destruct (negb _); [injection Hrun as <- <-; discriminate|].
  destruct (get "id" _) as [| | | | |pid| |] eqn:Hid;
    try (injection Hrun as <- <-; discriminate).
  destruct (existsb _ _) eqn:Hex; [injection Hrun as <- <-; discriminate|].
  injection Hrun as <- <-.
  eexists _, pid.
  split; [apply rows_set_tables; intros r0; apply inserted_row_in_json|].
  split; [exact Hid|].
  split; [by apply existsb_false_filter|].
  split; [|by repeat split].
  rewrite lookup_insert_ne by discriminate.
  apply stringify_lookup_None, property_payload_no_images.
Qed.

(** A detach answered 200 removed the URL from the images sequence. *)
Lemma delete_image_success (d : Deps) (req : Request) (s s' : State) (res : Response) :
  delete_image d req s = (Val res, s') ->
  status res = 200 ->
  let id := param_id req in
  let url := get "url" (body req) in
  includes url (images_at id s) = true
  /\ images_at id s' = remove_all url (images_at id s)
  /\ json res = JObj [("message", JStr "Removed");
                      ("images", JArr (remove_all url (images_at id s)))].
Proof.
  rewrite delete_image_run. cbv zeta. intros Hrun Hst.
  destruct (falsy _); [injection Hrun as <- <-; discriminate|].
  rewrite db_select_single_run in Hrun.
  destruct (fault d _ _) as [|e|x].
  2:{ cbn [error db_error] in Hrun. destruct (not_found _);
        injection Hrun as <- <-; discriminate. }
  2:{ injection Hrun as <- <-; discriminate. }
  destruct (List.filter _ _) as [|row [|]] eqn:Hrow;
    cbn [error db_error ok_row data not_found] in Hrun;
    try (injection Hrun as <- <-; discriminate).
  rewrite get_project_keep in Hrun by (rewrite !elem_of_cons; auto).
  assert (Himg : images_at (param_id req) s = array_or_empty (get "images" row)).
  { unfold images_at. by rewrite Hrow. }
  rewrite <- Himg in Hrun.
  destruct (includes _ _) eqn:Hinc; cbn [negb] in Hrun;
    [|injection Hrun as <- <-; discriminate].
  destruct (get "url" (body req)) as [| | | | |urls| |];
    try (injection Hrun as <- <-; discriminate).
  destruct (indexOf detach_base urls) as [idx|];
    [|injection Hrun as <- <-; discriminate].
  rewrite storage_remove_run in Hrun. cbv zeta in Hrun.
  destruct (fault d _ (StorageRemove _ _)) as [|e|x];
    try (injection Hrun as <- <-; discriminate).
  match type of Hrun with context [db_update d _ _ _ _ ?s2] =>
    destruct (db_update d "properties"
                (literal [("images", JArr (remove_all (JStr urls)
                                             (images_at (param_id req) s)))])
                "id" (param_id req) s2) as [[u|x] s3] eqn:Hupd end.
  2:{ injection Hrun as <- <-; discriminate. }
  destruct (error u) as [e|] eqn:He; [injection Hrun as <- <-; discriminate|].
  eapply db_update_images_success in Hupd;
    [|apply remove_all_in_json, images_at_in_json|exact Hrow|exact He].
  destruct Hupd as (Hat & Hdata & _).
  destruct (data u) as [o|]; [|discriminate].
  injection Hdata as Hdata. injection Hrun as <- <-.
  split; [reflexivity|]. split; [exact Hat|]. cbn [json]. by rewrite Hdata.
Qed.

(** An answer of 200 or 201 never comes from the gate. *)
Lemma gate_let_through (d : Deps) (handler : Request -> M Response) (req : Request)
    (s s' : State) (res : Response) :
  route [verifySupabaseUser d; requireAdmin d] handler req s = (Val res, s') ->
  status res = 200 \/ status res = 201 ->
  exists u a s1, reads_only s s1 /\ handler (set_admin a (set_user u req)) s1 = (Val res, s').
Proof.
  intros Hrun Hst.
  destruct (gate_cases d handler req s)
    as [(res0 & s1 & Hr & Hst0 & _) | (u & a & s1 & Hr & Hro)].
  - rewrite Hr in Hrun. injection Hrun as <- <-. lia.
  - exists u, a, s1. split; [exact Hro|]. by rewrite <- Hr.
Qed.

(** multer stops at the first part over a limit: the scan finds
    nothing exactly when the request is within both limits. *)
Lemma multer_scan_None (maxCount : nat) (parts : list File) :
  multer_scan maxCount parts = None <-> over_limit maxCount parts = false.
Proof.
  unfold over_limit. revert maxCount.
  induction parts as [|f parts IH]; intros maxCount; [by destruct maxCount|].
  destruct maxCount as [|m]; cbn [multer_scan length existsb].
  - split; [discriminate|]. cbn. discriminate.
  - specialize (IH m). change (Nat.ltb (S m) (S (length parts))) with (Nat.ltb m (length parts)).
    destruct (too_large f); cbn [orb].
    + split; [discriminate|]. rewrite orb_true_r. discriminate.
    + exact IH.
Qed.

Lemma multer_scan_Some (maxCount : nat) (parts : list File) (err : Exn) :
  multer_scan maxCount parts = Some err ->
  over_limit maxCount parts = true
  /\ (err = LIMIT_UNEXPECTED_FILE \/ err = LIMIT_FILE_SIZE).
Proof.
  intros H. split.
  - destruct (over_limit maxCount parts) eqn:E; [reflexivity|].
    apply multer_scan_None in E. congruence.
  - revert maxCount H. induction parts as [|f parts IH]; intros maxCount;
      [by destruct maxCount|].
    destruct maxCount as [|m]; cbn [multer_scan]; [intros [= <-]; by left|].
    destruct (too_large f); [intros [= <-]; by right|]. apply IH.
Qed.

(** multer hands the files over, or hands an error on. *)
Lemma upload_array_route (handler : Request -> M Response) (req : Request)
    (s s' : State) (res : Response) :
  route [upload_array 10] handler req s = (Val res, s') ->
  length (multipart req) <= 10
  /\ handler (set_files (multipart req) req) s = (Val res, s').
Proof.
  unfold route, upload_array, bind.
  destruct (multer_scan 10 (multipart req)) as [err|] eqn:Hscan; [discriminate|].
  apply multer_scan_None in Hscan. unfold over_limit in Hscan.
  apply orb_false_elim in Hscan as [Hlt _]. apply Nat.ltb_ge in Hlt.
  cbn [ret]. auto.
Qed.

Lemma remove_all_pair (u1 u2 : string) :
  u1 <> u2 ->
  remove_all (JStr u1) [JStr u1; JStr u2] = [JStr u2]
  /\ remove_all (JStr u2) [JStr u1; JStr u2] = [JStr u1].
Proof.
  intros H. unfold remove_all. cbn [List.filter strict_eq].
  rewrite !String.eqb_refl. cbn [negb].
  assert (H1 : (u2 =? u1) = false) by (apply String.eqb_neq; congruence).
  assert (H2 : (u1 =? u2) = false) by (by apply String.eqb_neq).
  rewrite H1, H2. auto.
Qed.

Lemma attach_keys_length (d : Deps) (id : string) (fs : list File) :
  forall n, length (attach_keys d id n fs) = length fs.
Proof. induction fs as [|f fs IH]; intros n; simpl; [reflexivity|]. by rewrite IH. Qed.

Lemma reads_only_images_at (id : string) (s s' : State) :
  reads_only s s' -> images_at id s' = images_at id s.
Proof. intros H. unfold images_at. by rewrite (reads_only_rows _ _ _ H). Qed.

(** The attach route, when it answers 200. *)
Lemma attach_route_success (d : Deps) (req : Request) (s s' : State) (res : Response) :
  post_admin_properties_upload_images d req s = (Val res, s') ->
  status res = 200 ->
  let id := param_id req in
  let fs := multipart req in
  1 <= length fs <= 10
  /\ images_at id s' = images_at id s ++ attach_urls d id (uuids_drawn s) fs
  /\ NoDup (attach_keys d id (uuids_drawn s) fs).
Proof.
  unfold post_admin_properties_upload_images.
  change (route [verifySupabaseUser d; requireAdmin d; upload_array 10] (upload_images d))
    with (route [verifySupabaseUser d; requireAdmin d]
            (route [upload_array 10] (upload_images d))).
  intros Hrun Hst.
  apply gate_let_through in Hrun as (u & a & s1 & Hro & Hrun); [|by left].
  apply upload_array_route in Hrun as [Hle Hrun].
  apply upload_images_success in Hrun; [|exact Hst].
  cbn [param_id files multipart set_files set_admin set_user default] in Hrun, Hle.
  destruct Hrun as (Hge & Hat & _ & Hnd & _).
  rewrite (reads_only_images_at _ _ _ Hro) in Hat.
  destruct Hro as [_ _ _ _ Hu _]. rewrite Hu in Hat, Hnd.
  cbv zeta. auto.
Qed.

(** C5. An attach request answered 200 carried between 1 and 10 files
    and left the images sequence equal to the previous one followed by
    the new public URLs, one per file, in file order.  In particular a
    property just created has no images; after two files are attached
    it has two; and after one of these two URLs is detached it has one. *)
Theorem attach_appends_in_order (d : Deps) :
  (forall req s res s',
      post_admin_properties_upload_images d req s = (Val res, s') ->
      status res = 200 ->
      1 <= length (multipart req) <= 10
      /\ images_at (param_id req) s'
         = images_at (param_id req) s
           ++ attach_urls d (param_id req) (uuids_drawn s) (multipart req)
      /\ length (attach_urls d (param_id req) (uuids_drawn s) (multipart req))
         = length (multipart req))
  /\ (forall reqC s0 resC s1,
      post_admin_properties d reqC s0 = (Val resC, s1) ->
      status resC = 201 ->
      exists row pid,
        rows "properties" s1 = rows "properties" s0 ++ [row]
        /\ get "id" row = JStr pid
        /\ images_at pid s1 = []
        /\ forall reqA f1 f2 resA s2,
             param_id reqA = pid ->
             multipart reqA = [f1; f2] ->
             post_admin_properties_upload_images d reqA s1 = (Val resA, s2) ->
             status resA = 200 ->
             length (images_at pid s2) = 2
             /\ forall reqD resD s3,
                  param_id reqD = pid ->
                  get "url" (body reqD) ∈ images_at pid s2 ->
                  delete_admin_properties_images d reqD s2 = (Val resD, s3) ->
                  status resD = 200 ->
                  length (images_at pid s3) = 1).
Proof.
  split.
  - intros req s res s' Hrun Hst.
    destruct (attach_route_success d req s s' res Hrun Hst) as (Hn & Hat & _).
    split; [exact Hn|]. split; [exact Hat|].
    unfold attach_urls. by rewrite length_map, attach_keys_length.
  - intros reqC s0 resC s1 HrunC HstC.
    unfold post_admin_properties in HrunC.
    apply gate_let_through in HrunC as (u & a & sg & Hro & HrunC); [|by right].
    apply create_property_success in HrunC; [|exact HstC].
    destruct HrunC as (row & pid & Hrows & Hid & Hnew & Himg & _).
    rewrite (reads_only_rows _ _ _ Hro) in Hrows, Hnew.
    assert (Hat1 : images_at pid s1 = []).
    { unfold images_at. rewrite Hrows, filter_app, Hnew. cbn [List.filter app].
      unfold matches, is_str. rewrite Hid. cbn [strict_eq]. rewrite String.eqb_refl.
      unfold get. by rewrite Himg. }
    exists row, pid. split; [exact Hrows|]. split; [exact Hid|]. split; [exact Hat1|].
    intros reqA f1 f2 resA s2 HidA HfsA HrunA HstA.
    destruct (attach_route_success d reqA s1 s2 resA HrunA HstA) as (_ & Hat2 & Hnd).
    rewrite HidA, HfsA, Hat1 in Hat2. rewrite HidA, HfsA in Hnd.
    unfold attach_urls in Hat2. cbn [attach_keys List.map app] in Hat2, Hnd.
    split; [by rewrite Hat2|].
    assert (Hne : getPublicUrl d PROPERTY_BUCKET (attach_key d pid (uuids_drawn s1) f1)
                  <> getPublicUrl d PROPERTY_BUCKET
                       (attach_key d pid (S (uuids_drawn s1)) f2)).
    { intros E. apply getPublicUrl_inj in E. apply list.NoDup_cons in Hnd as [Hnot _].
      apply Hnot. rewrite E. apply elem_of_cons. by left. }
    intros reqD resD s3 HidD Hurl HrunD HstD.
    unfold delete_admin_properties_images in HrunD.
    apply gate_let_through in HrunD as (u' & a' & sg' & Hro' & HrunD); [|by left].
    apply delete_image_success in HrunD; [|exact HstD].
    cbn [param_id body set_admin set_user] in HrunD.
    destruct HrunD as (_ & Hat3 & _).
    rewrite HidD, (reads_only_images_at _ _ _ Hro'), Hat2 in Hat3.
    rewrite Hat2 in Hurl.
    destruct (remove_all_pair _ _ Hne) as [R1 R2].
    rewrite !elem_of_cons in Hurl. destruct Hurl as [E | [E | E]].
    + rewrite E, R1 in Hat3. by rewrite Hat3.
    + rewrite E, R2 in Hat3. by rewrite Hat3.
    + by apply elem_of_nil in E.
Qed.

Lemma attach_appends_in_order_witness :
  length (images_at "row-a" (snd Fixture.attached)) = 2
  /\ length (images_at "row-a" (snd Fixture.detached)) = 1
  /\ images_at "row-a" (snd Fixture.attached)
     = images_at "row-a" (snd Fixture.created)
       ++ attach_urls (Fixture.deps Fixture.no_fault) "row-a"
            (uuids_drawn (snd Fixture.created)) [Fixture.photo1; Fixture.photo2].
Proof.
  destruct (attach_appends_in_order (Fixture.deps Fixture.no_fault)) as [HA HB].
  assert (HC : Fixture.created = (Val (Fixture.answer Fixture.created), snd Fixture.created))
    by (apply answered_eq; vm_compute; reflexivity).
  assert (HAt : Fixture.attached
                = (Val (Fixture.answer Fixture.attached), snd Fixture.attached))
    by (apply answered_eq; vm_compute; reflexivity).
  assert (HD : Fixture.detached
               = (Val (Fixture.answer Fixture.detached), snd Fixture.detached))
    by (apply answered_eq; vm_compute; reflexivity).
  destruct (HB _ _ _ _ HC) as (row & pid & Hrows & Hid & _ & Hnext);
    [vm_compute; reflexivity|].
  assert (Hpid : pid = "row-a").
  { assert (E : match list.last (rows "properties" (snd Fixture.created)) with
                 | Some r => get "id" r
                 | None => JNull
                 end = JStr "row-a") by (vm_compute; reflexivity).
    rewrite Hrows, last_snoc in E. congruence. }
  subst pid.
  destruct (Hnext (Fixture.as_admin "row-a" [] [Fixture.photo1; Fixture.photo2])
              Fixture.photo1 Fixture.photo2 _ _ eq_refl eq_refl HAt) as [H2 Hdet];
    [vm_compute; reflexivity|].
  split; [exact H2|]. split.
  - apply (Hdet (Fixture.as_admin "row-a" [("url", JStr Fixture.first_url)] [])
             _ _ eq_refl) with (2 := HD).
    + assert (E : images_at "row-a" (snd Fixture.attached) !! 0%nat
                  = Some (get "url" (body (Fixture.as_admin "row-a"
                                             [("url", JStr Fixture.first_url)] []))))
        by (vm_compute; reflexivity).
      by apply list_elem_of_lookup_2 in E.
    + vm_compute. reflexivity.
  - destruct (HA _ _ _ _ HAt) as (_ & H & _); [vm_compute; reflexivity|]. exact H.
Defined.

(** ** Images and the other routes *)

(** An update answered 200 rewrote the one row with that id. *)
Lemma update_property_success (d : Deps) (req : Request) (s s' : State) (res : Response) :
  update_property d req s = (Val res, s') ->
  status res = 200 ->
  exists row,
    List.filter (matches "id" (param_id req)) (rows "properties" s) = [row]
    /\ rows "properties" s'
       = List.map (fun x => if matches "id" (param_id req) x
                            then stringify (body req) ∪ row else x)
           (rows "properties" s).
Proof.
  rewrite update_property_run. cbv zeta. intros Hrun Hst.
  rewrite db_select_single_run in Hrun.
  destruct (fault d _ _) as [|e|x].
  2:{ cbn [error db_error] in Hrun. destruct (not_found _);
        injection Hrun as <- <-; discriminate. }
  2:{ injection Hrun as <- <-; discriminate. }
  destruct (List.filter _ _) as [|row [|]] eqn:Hrow;
    cbn [error db_error ok_row data not_found] in Hrun;
    try (injection Hrun as <- <-; discriminate).
  destruct (db_update_effect d "properties" (body req) "id" (param_id req)
              (log (DbSelectSingle "properties" (Some ["id"]) "id" (param_id req)) s)
              row Hrow) as (r & s2 & Hu & Hcase & _).
  rewrite Hu in Hrun.
  destruct Hcase as [(u & -> & Herr & Hrows) | (Herr & _)].
  - rewrite Herr in Hrun. injection Hrun as <- <-. exists row. split; [reflexivity|].
    exact Hrows.
  - destruct r as [u|x]; [|injection Hrun as <- <-; discriminate].
    destruct (error u) eqn:He; [injection Hrun as <- <-; discriminate|].
    by destruct (Herr u eq_refl).
Qed.

(** C10 (as the code has it).  The create handler never looks at an
    [images] field: the request is handled the same whatever [images]
    holds, the payload of every insert it issues has no [images]
    column, and a row it creates has none either, so a property starts
    with no images.  Afterwards the attach endpoint is not the only way
    to fill the sequence: an update whose body carries an [images]
    array, answered 200, leaves that array on the row, in the form
    JSON carries it to the store: the array itself, unless it holds a
    number that is not finite. *)
Theorem create_property_ignores_images (d : Deps) (req : Request) (s : State) :
  (forall v, create_property d (set_body (<["images" := v]> (body req)) req) s
             = create_property d req s)
  /\ (forall t p, DbInsert t p ∈ calls_since s (snd (create_property d req s)) ->
                  p !! "images" = None)
  /\ (rows "properties" (snd (create_property d req s)) = rows "properties" s
      \/ exists row,
           rows "properties" (snd (create_property d req s)) = rows "properties" s ++ [row]
           /\ row !! "images" = None)
  /\ (forall reqU sU resU sU' l,
      body reqU !! "images" = Some (JArr l) ->
      body reqU !! "id" = None ->
      update_property d reqU sU = (Val resU, sU') ->
      status resU = 200 ->
      images_at (param_id reqU) sU' = array_or_empty (wire (JArr l))
      /\ (plain (JArr l) = true -> images_at (param_id reqU) sU' = l)).
Proof.
  split; [|split; [|split]].
  - intros v. rewrite !create_property_run. cbn [body user set_body].
    unfold missing_check. rewrite !(get_insert_ne "images") by discriminate.
    destruct (_ || _); [reflexivity|].
    destruct (user req) as [u|]; [|reflexivity].
    rewrite (property_payload_ext (body req)); [reflexivity|].
    intros k Hk. apply get_insert_ne. congruence.
  - intros t p. rewrite create_property_run.
    destruct (missing_check _).
    { unfold calls_since. simpl. rewrite drop_all. intros H. by apply elem_of_nil in H. }
    destruct (user req) as [u|].
    2:{ unfold calls_since. simpl. rewrite drop_all. intros H. by apply elem_of_nil in H. }
    rewrite db_insert_run. cbv zeta.
    assert (Hc : forall s' : State,
               trace s' = trace s ++ [DbInsert "properties"
                                        (property_payload (body req) (user_id u))] ->
               DbInsert t p ∈ calls_since s s' -> p !! "images" = None).
    { intros s' Htr Hin. unfold calls_since in Hin. rewrite Htr, drop_app_length in Hin.
      apply list_elem_of_singleton in Hin. injection Hin as _ ->.
      apply property_payload_no_images. }
    destruct (fault d _ _); cbn [snd]; try (by apply Hc).
    destruct (negb _); cbn [snd]; [by apply Hc|].
    destruct (get "id" _); cbn [snd]; try (by apply Hc).
    destruct (existsb _ _); cbn [snd]; by apply Hc.
  - rewrite create_property_run.
    destruct (missing_check _); [by left|].
    destruct (user req) as [u|]; [|by left].
    rewrite db_insert_run. cbv zeta.
    rewrite (stringify_lookup_None "id") by apply property_payload_no_id.
    destruct (fault d _ _); cbn [snd]; try (by left).
    destruct (negb _); cbn [snd]; [by left|].
    destruct (get "id" _); cbn [snd]; try (by left).
    destruct (existsb _ _); cbn [snd]; [by left|].
    right. eexists. split.
    + apply rows_set_tables. intros r0. apply inserted_row_in_json.
    + rewrite lookup_insert_ne by discriminate.
      apply stringify_lookup_None, property_payload_no_images.
  - intros reqU sU resU sU' l Himg Hid Hrun Hst.
    destruct (update_property_success d reqU sU sU' resU Hrun Hst) as (row & Hrow & Hrows).
    assert (Hat : images_at (param_id reqU) sU' = array_or_empty (wire (JArr l))).
    2:{ split; [exact Hat|]. intros Hp. by rewrite Hat, (wire_plain _ Hp). }
    unfold images_at. rewrite Hrows.
    rewrite (filter_rewritten _ _ row); [|exact Hrow|].
    + unfold get.
      rewrite (lookup_union_Some_l _ _ "images" (wire (JArr l))); [reflexivity|].
      by rewrite stringify_lookup, Himg.
    + unfold matches, get. rewrite lookup_union_r by (by apply stringify_lookup_None).
      assert (Hin : In row (List.filter (matches "id" (param_id reqU))
                              (rows "properties" sU))) by (rewrite Hrow; by left).
      by apply filter_In in Hin as [_ ?].
Qed.

Lemma create_property_ignores_images_witness :
  images_at "p-2"
    (snd (update_property (Fixture.deps Fixture.no_fault)
            (Fixture.as_admin "p-2" [("images", JArr [JStr Fixture.first_url])] [])
            Fixture.listed))
  = [JStr Fixture.first_url].
Proof.
  pose (o := update_property (Fixture.deps Fixture.no_fault)
               (Fixture.as_admin "p-2" [("images", JArr [JStr Fixture.first_url])] [])
               Fixture.listed).
  assert (Ho : o = (Val (Fixture.answer o), snd o))
    by (apply answered_eq; vm_compute; reflexivity).
  destruct (create_property_ignores_images (Fixture.deps Fixture.no_fault)
              (Fixture.as_admin "" Fixture.flat []) Fixture.start) as (_ & _ & _ & H).
  apply (H (Fixture.as_admin "p-2" [("images", JArr [JStr Fixture.first_url])] [])
           Fixture.listed (Fixture.answer o) (snd o) [JStr Fixture.first_url]);
    [..|reflexivity].
  - vm_compute. reflexivity.
  - vm_compute. reflexivity.
  - exact Ho.
  - vm_compute. reflexivity.
Defined.

(** A property with no images gets one through the update route, with
    no attach request involved. *)
Lemma update_populates_images :
  images_at "p-2" Fixture.listed = []
  /\ images_at "p-2"
       (snd (put_admin_properties (Fixture.deps Fixture.no_fault)
               (Fixture.as_admin "p-2" [("images", JArr [JStr Fixture.first_url])] [])
               Fixture.listed))
     = [JStr Fixture.first_url]
  /\ forallb (fun c => match c with StorageUpload _ _ _ _ _ => false | _ => true end)
       (trace (snd (put_admin_properties (Fixture.deps Fixture.no_fault)
                      (Fixture.as_admin "p-2" [("images", JArr [JStr Fixture.first_url])] [])
                      Fixture.listed))) = true.
Proof.
  split; [vm_compute; reflexivity|]. split; vm_compute; reflexivity.
Qed.

(** * Further properties of the router *)

(** ** Who gets past the gate *)

(** The gate either answers 401, 403 or 500 itself, having only read,
    or it runs the handler; and it runs the handler only when the
    bearer token belongs to a session of the provider whose user has
    exactly one admin row, with a truthy flag.  The handler then sees
    that user and that row's two columns. *)
Theorem gate_admits_only_admins (d : Deps) (handler : Request -> M Response)
    (req : Request) (s : State) :
  (exists res s1,
      route [verifySupabaseUser d; requireAdmin d] handler req s = (Val res, s1)
      /\ (status res = 401 \/ status res = 403 \/ status res = 500)
      /\ reads_only s s1)
  \/ (exists t u row s1,
      bearer_token req = Some t /\ t <> ""
      /\ sessions d !! t = Some u /\ user_id u <> ""
      /\ List.filter (matches "auth_user_id" (user_id u)) (rows "admin_users" s) = [row]
      /\ truthy (get "is_admin" row) = true
      /\ calls_since s s1
         = [AuthGetUser t;
            DbSelectSingle "admin_users" (Some ["auth_user_id"; "is_admin"])
              "auth_user_id" (user_id u)]
      /\ reads_only s s1
      /\ route [verifySupabaseUser d; requireAdmin d] handler req s
         = handler (set_admin (literal [("auth_user_id", get "auth_user_id" row);
                                        ("is_admin", get "is_admin" row)])
                      (set_user u req)) s1).
Proof.
  unfold route, verifySupabaseUser, requireAdmin, try_catch, bind.
  pose proof (reads_only_refl s) as Hrefl.
  assert (Hsend : forall code m s1, reads_only s s1 ->
             code = 401 \/ code = 403 \/ code = 500 ->
             exists res s2, (Val (message code m), s1) = (Val res, s2)
                            /\ (status res = 401 \/ status res = 403 \/ status res = 500)
                            /\ reads_only s s2).
  { intros code m s1 Hro Hc. by exists (message code m), s1. }
  destruct (bearer_token req) as [t|] eqn:Htok; [|left; apply Hsend; auto].
  destruct (String.eqb t "") eqn:Ht; [left; apply Hsend; auto|].
  apply String.eqb_neq in Ht.
  rewrite auth_getUser_run.
  assert (Hro1 : reads_only s (log (AuthGetUser t) s)) by (by apply reads_only_log).
  destruct (fault d _ _) as [|e|x]; cbn [auth_error auth_user ret];
    try (left; apply Hsend; auto).
  destruct (sessions d !! t) as [u|] eqn:Hu; cbn [auth_error auth_user ret];
    [|left; apply Hsend; auto].
  cbn [user set_user].
  destruct (String.eqb (user_id u) "") eqn:Hid; [left; apply Hsend; auto|].
  apply String.eqb_neq in Hid.
  rewrite db_select_single_run.
  set (lookup := DbSelectSingle "admin_users" (Some ["auth_user_id"; "is_admin"])
                   "auth_user_id" (user_id u)).
  assert (Hro2 : reads_only s (log lookup (log (AuthGetUser t) s))).
  { eapply reads_only_trans; [exact Hro1|]. by apply reads_only_log. }
  change (rows "admin_users" (log (AuthGetUser t) s)) with (rows "admin_users" s).
  destruct (fault d _ lookup) as [|e|x]; cbn [error data db_error ok_row other_error ret].
  - destruct (List.filter _ _) as [|row [|]] eqn:Hrow;
      cbn [error data db_error ok_row other_error ret];
      try (left; apply Hsend; auto).
    rewrite !get_project_keep by (rewrite !elem_of_cons; auto).
    destruct (falsy (get "is_admin" row)) eqn:Hf; [left; apply Hsend; auto|].
    right. exists t, u, row, (log lookup (log (AuthGetUser t) s)).
    split; [reflexivity|]. split; [exact Ht|]. split; [exact Hu|].
    split; [exact Hid|]. split; [exact Hrow|].
    split; [unfold falsy in Hf; by apply negb_false_iff in Hf|].
    split; [apply calls_since_app; cbn; by rewrite <- app_assoc|].
    split; [exact Hro2|reflexivity].
  - destruct (negb _); left; apply Hsend; auto.
  - left; apply Hsend; auto.
Qed.

(** With both reads answered, an admin's request to the protected
    route is granted: 200, with the session user and the two columns of
    the admin row in the body, after exactly the two reads. *)
Theorem protected_route_grants_admin (d : Deps) (req : Request) (s : State)
    (t : string) (u : User) (row : Obj) :
  let lookup := DbSelectSingle "admin_users" (Some ["auth_user_id"; "is_admin"])
                  "auth_user_id" (user_id u) in
  let adminRow := literal [("auth_user_id", get "auth_user_id" row);
                           ("is_admin", get "is_admin" row)] in
  bearer_token req = Some t -> t <> "" ->
  sessions d !! t = Some u -> user_id u <> "" ->
  List.filter (matches "auth_user_id" (user_id u)) (rows "admin_users" s) = [row] ->
  truthy (get "is_admin" row) = true ->
  fault d (length (trace s)) (AuthGetUser t) = NoFault ->
  fault d (S (length (trace s))) lookup = NoFault ->
  get_admin_protected d req s
  = (Val {| status := 200;
            json := JObj [("message", JStr "Access granted to protected route");
                          ("user", user_json (Some u));
                          ("admin", admin_json (Some adminRow))] |},
     log lookup (log (AuthGetUser t) s)).
Proof.
  intros lookup adminRow Htok Ht Hu Hid Hrow Hadm Hf1 Hf2.
  apply String.eqb_neq in Ht, Hid.
  unfold get_admin_protected, route, verifySupabaseUser, requireAdmin, try_catch, bind.
  rewrite Htok, Ht, auth_getUser_run, Hf1, Hu. cbn [auth_error auth_user ret user set_user].
  rewrite Hid, db_select_single_run. fold lookup.
  assert (Hlen : length (trace (log (AuthGetUser t) s)) = S (length (trace s))).
  { cbn. rewrite length_app. simpl. lia. }
  rewrite Hlen, Hf2.
  change (rows "admin_users" (log (AuthGetUser t) s)) with (rows "admin_users" s).
  rewrite Hrow. cbn [error data ok_row other_error ret].
  rewrite !get_project_keep by (rewrite !elem_of_cons; auto).
  unfold falsy. rewrite Hadm. reflexivity.
Qed.

Lemma protected_route_grants_admin_witness :
  exists res s',
    get_admin_protected (Fixture.deps Fixture.no_fault) (Fixture.as_admin "" [] [])
      Fixture.start = (Val res, s')
    /\ status res = 200.
Proof.
  eexists _, _. split.
  - apply (protected_route_grants_admin (Fixture.deps Fixture.no_fault)
             (Fixture.as_admin "" [] []) Fixture.start "tok-admin" Fixture.alice
             (literal [("auth_user_id", JStr "u-1"); ("is_admin", JBool true)])).
    + reflexivity.
    + discriminate.
    + vm_compute. reflexivity.
    + discriminate.
    + vm_compute. reflexivity.
    + vm_compute. reflexivity.
    + reflexivity.
    + reflexivity.
  - reflexivity.
Defined.

(** ** Reading the Authorization header *)

Lemma split_word (w : string) : no_space w = true -> split " " w = [w].
Proof.
  induction w as [|a w IH]; [reflexivity|].
  cbn [no_space split]. intros H. apply andb_true_iff in H as [Ha Hw].
  apply negb_true_iff in Ha. rewrite Ha, (IH Hw). reflexivity.
Qed.

Lemma split_words (w rest : string) :
  no_space w = true -> split " " (w +:+ " " +:+ rest) = w :: split " " rest.
Proof.
  induction w as [|a w IH]; [reflexivity|].
  cbn [no_space]. intros H. apply andb_true_iff in H as [Ha Hw].
  apply negb_true_iff in Ha.
  change (String a w +:+ " " +:+ rest) with (String a (w +:+ " " +:+ rest)).
  cbn [split]. rewrite Ha, (IH Hw). reflexivity.
Qed.

(** The token is the second space-separated word of the header,
    whatever the first word is: a header of one word carries no token,
    and [scheme token] gives [token] for any scheme, not only Bearer. *)
Theorem bearer_token_second_word (req : Request) (scheme token : string) :
  no_space scheme = true ->
  no_space token = true ->
  bearer_token (set_authorization (Some scheme) req) = None
  /\ bearer_token (set_authorization (Some (scheme +:+ " " +:+ token)) req) = Some token
  /\ (forall more,
        bearer_token (set_authorization
                        (Some (scheme +:+ " " +:+ token +:+ " " +:+ more)) req)
        = Some token).
Proof.
  intros Hs Ht. unfold bearer_token. cbn [authorization set_authorization].
  split; [by rewrite split_word|]. split.
  - rewrite split_words by exact Hs. by rewrite split_word.
  - intros more. rewrite split_words by exact Hs. by rewrite split_words.
Qed.

Lemma bearer_token_second_word_witness :
  bearer_token (set_authorization (Some ("Token" +:+ " " +:+ "abc"))
                  (Fixture.request None "" [] [])) = Some "abc".
Proof.
  apply (bearer_token_second_word (Fixture.request None "" [] []) "Token" "abc");
    reflexivity.
Defined.

(** ** Writes happen only on success *)

Lemma db_update_writes (d : Deps) (table : string) (patch : Obj) (col v : string)
    (s : State) :
  tables (snd (db_update d table patch col v s)) = tables s
  \/ exists u o, fst (db_update d table patch col v s) = Val u
                 /\ error u = None /\ data u = Some o.
Proof.
  rewrite db_update_run. cbv zeta.
  destruct (fault d _ _); try (by left).
  destruct (List.filter _ _) as [|r [|]]; try (by left).
  destruct (negb _); [by left|].
  right. by eexists _, _.
Qed.

Lemma db_select_single_state (d : Deps) (table : string) (cols : option (list string))
    (col v : string) (s : State) :
  snd (db_select_single d table cols col v s) = log (DbSelectSingle table cols col v) s.
Proof. by rewrite db_select_single_run. Qed.

(** The upload loop writes to the bucket only: whatever happens, the
    tables and the outbox are as before and every object held before is
    still there with the same content. *)
Lemma upload_each_quiet (d : Deps) (folder : string) (fs : list File) :
  forall (acc : list JsVal) (s : State),
    let s' := snd (upload_each d folder fs acc s) in
    tables s' = tables s
    /\ outbox s' = outbox s
    /\ (forall bk v, objects s !! bk = Some v -> objects s' !! bk = Some v).
Proof.
  induction fs as [|f fs IH]; intros acc s; cbv zeta.
  - simpl. auto.
  - assert (E : upload_each d folder (f :: fs) acc s
                = match uploadToBucket d PROPERTY_BUCKET (buffer f) (originalname f)
                          (mimetype f) folder s with
                  | (Val r, s1) => upload_each d folder fs (acc ++ [JStr (snd r)]) s1
                  | (Throw x, s1) => (Throw x, s1)
                  end) by reflexivity.
    rewrite E. clear E.
    rewrite uploadToBucket_run. cbv zeta. rewrite storage_upload_run. cbv zeta.
    cbn [trace objects set_uuids_drawn].
    destruct (fault d _ _) as [|e|x];
      try (cbn [snd tables outbox objects log set_uuids_drawn]; by auto).
    destruct (objects s !! _) as [old|] eqn:Hold;
      [cbn [snd tables outbox objects log set_uuids_drawn]; by auto|].
    match goal with |- context [upload_each d folder fs ?a ?s1] =>
      destruct (IH a s1) as (Ht & Ho & Hk) end.
    cbn [tables outbox objects set_objects log set_uuids_drawn] in Ht, Ho, Hk.
    split; [exact Ht|]. split; [exact Ho|].
    intros bk v Hbk. apply Hk. rewrite lookup_insert_ne; [exact Hbk|].
    intros <-. congruence.
Qed.

Lemma update_review_run (d : Deps) (req : Request) (s : State) :
  update_review d req s =
  let id := param_id req in
  let failed x := message_error 500 "Error updating review" (exn_message x) in
  match db_select_single d "reviews" (Some ["id"]) "id" id s with
  | (Throw x, s1) => (Val (failed x), s1)
  | (Val r, s1) =>
      if not_found (error r) then (Val (message 404 "Review not found"), s1)
      else
        match error r with
        | Some e => (Val (message_error 500 "Error updating review" (err_message e)), s1)
        | None =>
            match user req with
            | None => (Val (failed TypeError), s1)
            | Some u =>
                match db_update d "reviews"
                        (review_update_payload (body req) (user_id u)) "id" id s1 with
                | (Throw x, s2) => (Val (failed x), s2)
                | (Val w, s2) =>
                    (Val match error w with
                         | Some e =>
                             message_error 500 "Error updating review" (err_message e)
                         | None =>
                             {| status := 200;
                                json := JObj [("message", JStr "Review updated successfully");
                                              ("review", json_of (data w))] |}
                         end, s2)
                end
            end
        end
  end.
Proof.
  unfold update_review, try_catch, bind, req_user_id. cbv zeta.
  destruct (db_select_single d _ _ _ _ s) as [[r|x] s1]; [|reflexivity].
  destruct (not_found (error r)); [reflexivity|].
  destruct (error r); [reflexivity|].
  destruct (user req) as [u|]; [|reflexivity]. cbn [ret].
  destruct (db_update d _ _ _ _ s1) as [[w|x] s2]; [|reflexivity].
  destruct (error w); reflexivity.
Qed.

(** A request that is not answered with its success status has left
    every table as it was: the handlers that create, update, attach and
    detach write to the database in their last step only. *)
Theorem tables_change_only_on_success (d : Deps) (req : Request) (s : State) :
  (forall res, fst (create_property d req s) = Val res -> status res <> 201 ->
               tables (snd (create_property d req s)) = tables s)
  /\ (forall res, fst (create_review d req s) = Val res -> status res <> 201 ->
                  tables (snd (create_review d req s)) = tables s)
  /\ (forall res, fst (update_property d req s) = Val res -> status res <> 200 ->
                  tables (snd (update_property d req s)) = tables s)
  /\ (forall res, fst (update_review d req s) = Val res -> status res <> 200 ->
                  tables (snd (update_review d req s)) = tables s)
  /\ (forall res, fst (upload_images d req s) = Val res -> status res <> 200 ->
                  tables (snd (upload_images d req s)) = tables s)
  /\ (forall res, fst (delete_image d req s) = Val res -> status res <> 200 ->
                  tables (snd (delete_image d req s)) = tables s).
Proof.
  split; [|split; [|split; [|split; [|split]]]].
  - intros res. rewrite create_property_run.
    destruct (missing_check _); [reflexivity|].
    destruct (user req) as [u|]; [|reflexivity].
    destruct (db_insert_writes d "properties" (property_payload (body req) (user_id u)) s)
      as [H | (w & Hw & He)];
      destruct (db_insert d _ _ s) as [[r|x] s']; cbn [fst snd] in *; try (intros; exact H).
    + injection Hw as ->. rewrite He. intros [= <-] Hst. by destruct Hst.
    + discriminate.
  - intros res. rewrite create_review_run.
    destruct (_ || _); [reflexivity|].
    destruct (user req) as [u|]; [|reflexivity].
    destruct (db_insert_writes d "reviews" (review_payload (body req) (user_id u)) s)
      as [H | (w & Hw & He)];
      destruct (db_insert d _ _ s) as [[r|x] s']; cbn [fst snd] in *; try (intros; exact H).
    + injection Hw as ->. rewrite He. intros [= <-] Hst. by destruct Hst.
    + discriminate.
  - intros res. rewrite update_property_run. cbv zeta.
    pose proof (db_select_single_state d "properties" (Some ["id"]) "id" (param_id req) s)
      as Hs1.
    destruct (db_select_single d _ _ _ _ s) as [[r|x] s1]; cbn [snd] in Hs1; subst s1;
      [|reflexivity].
    destruct (not_found _); [reflexivity|].
    destruct (error r); [reflexivity|].
    match goal with |- context [db_update d ?t ?p ?c ?v ?s1] =>
      destruct (db_update_writes d t p c v s1) as [H | (w & o & Hw & He & _)];
      destruct (db_update d t p c v s1) as [[u|x] s2] end;
      cbn [fst snd] in *; try (intros; exact H).
    + injection Hw as ->. rewrite He. intros [= <-] Hst. by destruct Hst.
    + discriminate.
  - intros res. rewrite update_review_run. cbv zeta.
    pose proof (db_select_single_state d "reviews" (Some ["id"]) "id" (param_id req) s)
      as Hs1.
    destruct (db_select_single d _ _ _ _ s) as [[r|x] s1]; cbn [snd] in Hs1; subst s1;
      [|reflexivity].
    destruct (not_found _); [reflexivity|].
    destruct (error r); [reflexivity|].
    destruct (user req) as [u|]; [|reflexivity].
    match goal with |- context [db_update d ?t ?p ?c ?v ?s1] =>
      destruct (db_update_writes d t p c v s1) as [H | (w & o & Hw & He & _)];
      destruct (db_update d t p c v s1) as [[u0|x] s2] end;
      cbn [fst snd] in *; try (intros; exact H).
    + injection Hw as ->. rewrite He. intros [= <-] Hst. by destruct Hst.
    + discriminate.
  - intros res. rewrite upload_images_run. cbv zeta.
    destruct (Nat.eqb _ 0); [reflexivity|].
    pose proof (db_select_single_state d "properties" (Some ["id"; "images"]) "id"
                  (param_id req) s) as Hs1.
    destruct (db_select_single d _ _ _ _ s) as [[r|x] s1]; cbn [snd] in Hs1; subst s1;
      [|reflexivity].
    destruct (not_found _); [reflexivity|].
    destruct (error r); [reflexivity|].
    match goal with |- context [upload_each d ?f ?fs ?a ?s1] =>
      destruct (upload_each_quiet d f fs a s1) as (Ht & _);
      destruct (upload_each d f fs a s1) as [[uploaded|x] s2] end;
      cbn [snd tables log] in Ht; [|intros; exact Ht].
    destruct (data r) as [prop|]; [|intros; exact Ht].
    match goal with |- context [db_update d ?t ?p ?c ?v ?s1] =>
      destruct (db_update_writes d t p c v s1) as [H | (w & o & Hw & He & Hd)];
      destruct (db_update d t p c v s1) as [[u0|x] s3] end;
      cbn [fst snd] in *.
    + destruct (error u0), (data u0); intros; cbn [snd]; by rewrite H.
    + intros; cbn [snd]; by rewrite H.
    + injection Hw as ->. rewrite He, Hd. intros [= <-] Hst. by destruct Hst.
    + discriminate.
  - intros res Hres Hst.
    destruct (delete_image_shape d req s) as (res0 & Hres0 & Hcase).
    cbv zeta in Hres0, Hcase. rewrite Hres in Hres0. injection Hres0 as <-.
    destruct Hcase as [(_ & Hro) | [(p & _ & _ & _ & Ht & _)
                                   | (p & patch & _ & _ & _ & [H200 | [_ Ht]])]].
    + by destruct Hro.
    + exact Ht.
    + by destruct Hst.
    + exact Ht.
Qed.

Lemma answered_fst (o : Res Response * State) :
  Fixture.answered o = true -> fst o = Val (Fixture.answer o).
Proof. destruct o as [[r|x] s]; [reflexivity|discriminate]. Qed.

Lemma tables_change_only_on_success_witness :
  tables (snd (create_property (Fixture.deps (Fixture.fails_at 0))
                 (set_user Fixture.alice (Fixture.as_admin "" Fixture.flat []))
                 Fixture.start))
  = tables Fixture.start
  /\ tables (snd (upload_images (Fixture.deps (Fixture.fails_at 2))
                    (set_files [Fixture.photo1; Fixture.photo2]
                       (Fixture.as_admin "p-1" [] []))
                    Fixture.listed))
     = tables Fixture.listed.
Proof.
  split.
  - refine (proj1 (tables_change_only_on_success (Fixture.deps (Fixture.fails_at 0))
                     (set_user Fixture.alice (Fixture.as_admin "" Fixture.flat []))
                     Fixture.start) _ _ _).
    + apply answered_fst. vm_compute. reflexivity.
    + vm_compute. discriminate.
  - refine (proj1 (proj2 (proj2 (proj2 (proj2
              (tables_change_only_on_success (Fixture.deps (Fixture.fails_at 2))
                 (set_files [Fixture.photo1; Fixture.photo2]
                    (Fixture.as_admin "p-1" [] []))
                 Fixture.listed))))) _ _ _).
    + apply answered_fst. vm_compute. reflexivity.
    + vm_compute. discriminate.
Defined.

(** ** Every route answers *)








(** ** Reading one property *)

(** The public read of a property issues one select of the whole row
    and no auth call, writes nothing, and, when the store answers,
    gives 200 with the row if exactly one row has the id and 404
    otherwise; repeating a request for an id that is not there gives
    404 each time. *)
Theorem get_property_reads (d : Deps) (req : Request) (s : State) :
  let id := param_id req in
  let read := DbSelectSingle "properties" None "id" id in
  calls_since s (snd (get_properties_id d req s)) = [read]
  /\ reads_only s (snd (get_properties_id d req s))
  /\ (forall row,
        fault d (length (trace s)) read = NoFault ->
        List.filter (matches "id" id) (rows "properties" s) = [row] ->
        fst (get_properties_id d req s)
        = Val {| status := 200; json := JObj (map_to_list row) |})
  /\ (forall n,
        let sn := repeated n (get_properties_id d req) s in
        List.filter (matches "id" id) (rows "properties" s) = [] ->
        rows "properties" sn = rows "properties" s
        /\ (fault d (length (trace sn)) read = NoFault ->
            fst (get_properties_id d req sn) = Val (message 404 "Property not found"))).
Proof.
  intros id read.
  assert (Hrun : forall st, get_properties_id d req st =
            (match fault d (length (trace st)) read with
             | Throws x => Val (message_error 500 "Error fetching property" (exn_message x))
             | Fails e =>
                 if String.eqb (err_code e) "PGRST116"
                 then Val (message 404 "Property not found")
                 else Val (message_error 500 "Error fetching property" (err_message e))
             | NoFault =>
                 match List.filter (matches "id" id) (rows "properties" st) with
                 | [r] => Val {| status := 200; json := JObj (map_to_list r) |}
                 | _ => Val (message 404 "Property not found")
                 end
             end, log read st)).
  { intros st. unfold get_properties_id, route, get_property, try_catch, bind.
    rewrite db_select_single_run. fold id read.
    destruct (fault d _ _) as [|e|x]; [|cbn; by destruct (String.eqb _ _)|reflexivity].
    destruct (List.filter _ _) as [|r [|]]; reflexivity. }
  split; [|split; [|split]].
  - rewrite Hrun. by apply calls_since_app.
  - rewrite Hrun. by apply reads_only_log.
  - intros row Hf Hrow. by rewrite Hrun, Hf, Hrow.
  - intros n sn Hnone.
    assert (Hrows : rows "properties" sn = rows "properties" s).
    { subst sn. induction n as [|n IH]; [reflexivity|].
      cbn [repeated]. rewrite Hrun. exact IH. }
    split; [exact Hrows|].
    intros Hf. by rewrite Hrun, Hf, Hrows, Hnone.
Qed.

Lemma get_property_reads_witness :
  fst (get_properties_id (Fixture.deps Fixture.no_fault) (Fixture.request None "p-9" [] [])
         (repeated 3 (get_properties_id (Fixture.deps Fixture.no_fault)
                        (Fixture.request None "p-9" [] [])) Fixture.listed))
  = Val (message 404 "Property not found").
Proof.
  destruct (get_property_reads (Fixture.deps Fixture.no_fault)
              (Fixture.request None "p-9" [] []) Fixture.listed) as (_ & _ & _ & H).
  destruct (H 3) as [_ H3]; [vm_compute; reflexivity|].
  apply H3. reflexivity.
Defined.

(** ** The handlers' checks and the models *)

Lemma truthy_not_nullish (v : JsVal) : falsy v = false -> is_nullish v = false.
Proof. by destruct v. Qed.

Ltac read_literal :=
  unfold property_payload, review_payload, literal; cbn [list_to_map foldr uncurry];
  repeat first [ rewrite get_insert_eq | rewrite get_insert_ne by discriminate ];
  try reflexivity.

Lemma property_payload_get (b : Obj) (uid k : string) :
  k ∈ required_property_fields -> get k (property_payload b uid) = get k b.
Proof.
  unfold required_property_fields. intros Hk.
  repeat (apply elem_of_cons in Hk as [-> | Hk]; [read_literal|]).
  by apply elem_of_nil in Hk.
Qed.

Lemma review_payload_customerName (b : Obj) (uid : string) :
  get "customerName" (review_payload b uid) = get "customerName" b.
Proof. read_literal. Qed.

Lemma missing_check_passed (b : Obj) (k : string) :
  missing_check b = false -> k ∈ required_property_fields -> falsy (get k b) = false.
Proof.
  intros Hc Hk. destruct (falsy (get k b)) eqn:Hf; [|reflexivity].
  by rewrite (missing_check_falsy b k Hk Hf) in Hc.
Qed.

Lemma calls_since_nil (s : State) (c : Call) : c ∉ calls_since s s.
Proof.
  unfold calls_since. rewrite drop_all. apply not_elem_of_nil.
Qed.

Lemma nullish_wire (v : JsVal) :
  is_nullish v = false -> is_nullish (wire v) = is_nonfinite v.
Proof. by destruct v. Qed.

Lemma not_null_defaulted_wire (k : string) (o : Obj) :
  falsy (get k o) = false ->
  not_null_defaulted k (stringify o) = negb (is_nonfinite (get k o)).
Proof.
  unfold not_null_defaulted. rewrite get_stringify. by destruct (get k o).
Qed.

Lemma not_null_wire (k : string) (o : Obj) :
  is_nullish (get k o) = false ->
  not_null k (stringify o) = negb (is_nonfinite (get k o)).
Proof.
  intros H. unfold not_null. by rewrite get_stringify, nullish_wire.
Qed.

(** What the create handlers let through, against the not-null
    declarations of the models.  Every insert issued for a property
    goes to the properties table, and each of the seven required
    columns of the payload that travels is null exactly when the body
    gave a number that is not finite for it: such a value passes the
    required-fields test and JSON carries it as null.  So the payload
    satisfies the Property model exactly when no required field of the
    body is a non-finite number.  The same holds for the customer name
    and the ratings of every insert issued for a review. *)
Theorem create_payloads_null_columns (d : Deps) (req : Request) (s : State) :
  (forall t p,
      DbInsert t p ∈ calls_since s (snd (create_property d req s)) ->
      t = "properties"
      /\ (forall k, k ∈ required_property_fields ->
                    is_nullish (get k (stringify p)) = is_nonfinite (get k (body req)))
      /\ Models.Property (stringify p)
         = forallb (fun k => negb (is_nonfinite (get k (body req))))
             required_property_fields)
  /\ (forall t p,
      DbInsert t p ∈ calls_since s (snd (create_review d req s)) ->
      t = "reviews"
      /\ not_null "customerName" (stringify p)
         = negb (is_nonfinite (get "customerName" (body req)))
      /\ not_null "ratings" (stringify p)
         = negb (is_nonfinite (get "ratings" (body req)))).
Proof.
  split.
  - intros t p. rewrite create_property_run.
    destruct (missing_check (body req)) eqn:Hc; [intros H; by apply calls_since_nil in H|].
    destruct (user req) as [u|]; [|intros H; by apply calls_since_nil in H].
    pose proof (db_insert_trace d "properties"
                  (property_payload (body req) (user_id u)) s) as Htr.
    assert (Hin : DbInsert t p ∈ [DbInsert "properties"
                                    (property_payload (body req) (user_id u))] ->
                  t = "properties" /\ p = property_payload (body req) (user_id u)).
    { intros Hin. apply list_elem_of_singleton in Hin. by injection Hin as -> ->. }
    assert (Hf : forall k, k ∈ required_property_fields -> falsy (get k (body req)) = false)
      by (intros k Hk; by apply missing_check_passed).
    assert (Hg : forall k, k ∈ required_property_fields ->
                   get k (property_payload (body req) (user_id u)) = get k (body req))
      by (intros k Hk; by apply property_payload_get).
    assert (Hmem : forall k, k ∈ required_property_fields
                    <-> k = "name" \/ k = "owner" \/ k = "price" \/ k = "area"
                        \/ k = "exactAddress" \/ k = "bhkType" \/ k = "location").
    { intros k. unfold required_property_fields. rewrite !elem_of_cons.
      rewrite elem_of_nil. tauto. }
    intros Hcalls.
    assert (Hcalls' : DbInsert t p ∈ [DbInsert "properties"
                                        (property_payload (body req) (user_id u))]).
    { destruct (db_insert d _ _ s) as [[r|x] s']; cbn [snd] in *;
        by rewrite (calls_since_app _ _ _ Htr) in Hcalls. }
    destruct (Hin Hcalls') as [-> ->].
    split; [reflexivity|]. split.
    + intros k Hk. rewrite get_stringify, (Hg k Hk).
      by apply nullish_wire, truthy_not_nullish, Hf.
    + unfold Models.Property, required_property_fields. cbn [forallb].
      rewrite andb_true_r.
      rewrite !not_null_wire, !not_null_defaulted_wire;
        rewrite ?Hg by (apply Hmem; tauto);
        try (apply Hf, Hmem; tauto);
        try (apply truthy_not_nullish, Hf, Hmem; tauto).
      repeat match goal with |- context [is_nonfinite ?v] =>
        destruct (is_nonfinite v) end; reflexivity.
  - intros t p. rewrite create_review_run.
    destruct (_ || _) eqn:Hc; [intros H; by apply calls_since_nil in H|].
    apply orb_false_elim in Hc as [Hn Hr].
    destruct (user req) as [u|]; [|intros H; by apply calls_since_nil in H].
    pose proof (db_insert_trace d "reviews"
                  (review_payload (body req) (user_id u)) s) as Htr.
    intros Hcalls.
    assert (Hcalls' : DbInsert t p ∈ [DbInsert "reviews"
                                        (review_payload (body req) (user_id u))]).
    { destruct (db_insert d _ _ s) as [[r|x] s']; cbn [snd] in *;
        by rewrite (calls_since_app _ _ _ Htr) in Hcalls. }
    apply list_elem_of_singleton in Hcalls'. injection Hcalls' as -> ->.
    split; [reflexivity|].
    rewrite !not_null_wire;
      rewrite ?review_payload_customerName, ?review_payload_ratings;
      auto using truthy_not_nullish.
Qed.

Lemma create_payloads_null_columns_witness :
  Models.Property
    (stringify (property_payload (literal Fixture.overflowing_flat) "u-1")) = false
  /\ missing_check (literal Fixture.overflowing_flat) = false.
Proof.
  split; [|vm_compute; reflexivity].
  refine (eq_trans
            (proj2 (proj2 (proj1 (create_payloads_null_columns (Fixture.deps Fixture.no_fault)
                                    (set_user Fixture.alice
                                       (Fixture.as_admin "" Fixture.overflowing_flat []))
                                    Fixture.start) "properties"
                             (property_payload (literal Fixture.overflowing_flat) "u-1") _)))
            _); [|vm_compute; reflexivity].
  assert (E : calls_since Fixture.start
                (snd (create_property (Fixture.deps Fixture.no_fault)
                        (set_user Fixture.alice
                           (Fixture.as_admin "" Fixture.overflowing_flat []))
                        Fixture.start))
              = [DbInsert "properties"
                   (property_payload (literal Fixture.overflowing_flat) "u-1")]).
  { vm_compute. reflexivity. }
  rewrite E. by apply list_elem_of_singleton.
Defined.

(** ** What a detach removes *)

Lemma includes_remove_all (v : JsVal) (l : list JsVal) :
  includes v (remove_all v l) = false.
Proof.
  unfold includes, remove_all. induction l as [|a l IH]; [reflexivity|].
  cbn [List.filter]. destruct (strict_eq a v) eqn:Ha; cbn [negb]; [exact IH|].
  cbn [existsb]. by rewrite Ha, IH.
Qed.

Lemma remove_all_length (v : JsVal) (l : list JsVal) :
  length (remove_all v l) <= length l.
Proof. unfold remove_all. apply List.filter_length_le. Qed.

Lemma remove_all_shorter (v : JsVal) (l : list JsVal) :
  includes v l = true -> length (remove_all v l) < length l.
Proof.
  unfold includes. induction l as [|a l IH]; [discriminate|].
  cbn [existsb]. intros H. unfold remove_all in *. cbn [List.filter].
  destruct (strict_eq a v) eqn:Ha; cbn [negb length].
  - pose proof (remove_all_length v l) as Hl. unfold remove_all in Hl. lia.
  - cbn [orb] in H. specialize (IH H). lia.
Qed.

(** A detach answered 200 found the URL on the row and took every
    occurrence of it out of the images sequence, leaving the other
    entries in their order. *)
Theorem detach_removes_every_occurrence (d : Deps) (req : Request) (s s' : State)
    (res : Response) :
  delete_image d req s = (Val res, s') ->
  status res = 200 ->
  let id := param_id req in
  let url := get "url" (body req) in
  includes url (images_at id s) = true
  /\ images_at id s' = List.filter (fun u => negb (strict_eq u url)) (images_at id s)
  /\ includes url (images_at id s') = false
  /\ length (images_at id s') < length (images_at id s).
Proof.
  intros Hrun Hst id url.
  destruct (delete_image_success d req s s' res Hrun Hst) as (Hinc & Hat & _).
  fold id url in Hinc, Hat.
  split; [exact Hinc|]. split; [exact Hat|]. rewrite Hat.
  split; [apply includes_remove_all|by apply remove_all_shorter].
Qed.

Lemma detach_removes_every_occurrence_witness :
  images_at "p-1"
    (snd (delete_image (Fixture.deps Fixture.no_fault)
            (Fixture.as_admin "p-1" [("url", JStr Fixture.photo_url)] []) Fixture.listed))
  = [].
Proof.
  pose (o := delete_image (Fixture.deps Fixture.no_fault)
               (Fixture.as_admin "p-1" [("url", JStr Fixture.photo_url)] [])
               Fixture.listed).
  assert (Ho : o = (Val (Fixture.answer o), snd o))
    by (apply answered_eq; vm_compute; reflexivity).
  destruct (detach_removes_every_occurrence _ _ _ _ _ Ho) as (_ & H & _);
    [vm_compute; reflexivity|].
  refine (eq_trans H _). vm_compute. reflexivity.
Defined.

Lemma slice_append (a b : string) : slice (String.length a) (a +:+ b) = b.
Proof. induction a as [|c a IH]; [by destruct b|exact IH]. Qed.

Lemma slice_add (n m : nat) (s : string) : slice (n + m) s = slice m (slice n s).
Proof.
  revert s. induction n as [|n IH]; intros s; [reflexivity|].
  destruct s as [|c s]; cbn [Nat.add slice]; [by destruct m|apply IH].
Qed.

Lemma public_url_shape (d : Deps) (key : string) :
  getPublicUrl d PROPERTY_BUCKET key
  = default "" (env d !! "SUPABASE_URL") +:+ detach_base +:+ key.
Proof. reflexivity. Qed.

Lemma delete_image_success_objects (d : Deps) (req : Request) (s s' : State)
    (res : Response) :
  delete_image d req s = (Val res, s') ->
  status res = 200 ->
  exists urls idx,
    get "url" (body req) = JStr urls
    /\ indexOf detach_base urls = Some idx
    /\ objects s'
       = delete (PROPERTY_BUCKET, slice (idx + String.length detach_base) urls) (objects s)
    /\ calls_since s s'
       = [read_images (param_id req);
          StorageRemove PROPERTY_BUCKET [slice (idx + String.length detach_base) urls];
          DbUpdate "properties"
            (literal [("images", JArr (remove_all (JStr urls)
                                         (images_at (param_id req) s)))])
            "id" (param_id req)].
Proof.
  rewrite delete_image_run. cbv zeta. intros Hrun Hst.
  destruct (falsy _); [injection Hrun as <- <-; discriminate|].
  rewrite db_select_single_run in Hrun. fold (read_images (param_id req)) in Hrun.
  destruct (fault d _ _) as [|e|x].
  2:{ cbn [error db_error] in Hrun. destruct (not_found _);
        injection Hrun as <- <-; discriminate. }
  2:{ injection Hrun as <- <-; discriminate. }
  destruct (List.filter _ _) as [|row [|]] eqn:Hrow;
    cbn [error db_error ok_row data not_found] in Hrun;
    try (injection Hrun as <- <-; discriminate).
  rewrite get_project_keep in Hrun by (rewrite !elem_of_cons; auto).
  assert (Himg : images_at (param_id req) s = array_or_empty (get "images" row)).
  { unfold images_at. by rewrite Hrow. }
  rewrite <- Himg in Hrun.
  destruct (negb _); [injection Hrun as <- <-; discriminate|].
  destruct (get "url" (body req)) as [| | | | |urls| |] eqn:Hu;
    try (injection Hrun as <- <-; discriminate).
  destruct (indexOf detach_base urls) as [idx|] eqn:Hi;
    [|injection Hrun as <- <-; discriminate].
  rewrite storage_remove_run in Hrun. cbv zeta in Hrun.
  destruct (fault d _ (StorageRemove _ _)) as [|e|x];
    try (injection Hrun as <- <-; discriminate).
  rewrite db_update_run in Hrun. cbv zeta in Hrun.
  exists urls, idx. split; [reflexivity|]. split; [exact Hi|].
  destruct (fault d _ (DbUpdate _ _ _ _)) as [|e|x];
    try (injection Hrun as <- <-; discriminate).
  destruct (List.filter _ _) as [|r [|]];
    try (injection Hrun as <- <-; discriminate).
  destruct (negb _); [injection Hrun as <- <-; discriminate|].
  cbn [error data ok_row] in Hrun. injection Hrun as <- <-.
  split; [reflexivity|]. apply calls_since_app. cbn. by rewrite <- !app_assoc.
Qed.

(** Detaching a URL that the adapter produced for a key removes the
    object stored under exactly that key, provided the first place the
    storage prefix occurs in the URL is right after the configured
    project URL. *)
Theorem detach_removes_the_object (d : Deps) (req : Request) (s s' : State)
    (res : Response) (key : string) :
  get "url" (body req) = JStr (getPublicUrl d PROPERTY_BUCKET key) ->
  indexOf detach_base (getPublicUrl d PROPERTY_BUCKET key)
  = Some (String.length (default "" (env d !! "SUPABASE_URL"))) ->
  delete_image d req s = (Val res, s') ->
  status res = 200 ->
  objects s' = delete (PROPERTY_BUCKET, key) (objects s)
  /\ objects s' !! (PROPERTY_BUCKET, key) = None
  /\ StorageRemove PROPERTY_BUCKET [key] ∈ calls_since s s'.
Proof.
  intros Hurl Hidx Hrun Hst.
  destruct (delete_image_success_objects d req s s' res Hrun Hst)
    as (urls & idx & Hu & Hi & Hobj & Hcalls).
  rewrite Hurl in Hu. injection Hu as <-. rewrite Hidx in Hi. injection Hi as <-.
  assert (Hpath : slice (String.length (default "" (env d !! "SUPABASE_URL"))
                         + String.length detach_base)
                    (getPublicUrl d PROPERTY_BUCKET key) = key).
  { rewrite slice_add, public_url_shape, slice_append. apply slice_append. }
  rewrite Hpath in Hobj, Hcalls.
  split; [exact Hobj|]. split; [rewrite Hobj; apply lookup_delete_eq|].
  rewrite Hcalls. rewrite !elem_of_cons. auto.
Qed.

Lemma detach_removes_the_object_witness :
  objects (snd (delete_image (Fixture.deps Fixture.no_fault)
                  (Fixture.as_admin "p-1" [("url", JStr Fixture.photo_url)] [])
                  Fixture.listed))
  !! (PROPERTY_BUCKET, "properties/p-1/one.png") = None.
Proof.
  pose (o := delete_image (Fixture.deps Fixture.no_fault)
               (Fixture.as_admin "p-1" [("url", JStr Fixture.photo_url)] [])
               Fixture.listed).
  assert (Ho : o = (Val (Fixture.answer o), snd o))
    by (apply answered_eq; vm_compute; reflexivity).
  refine (proj1 (proj2 (detach_removes_the_object (Fixture.deps Fixture.no_fault)
                          (Fixture.as_admin "p-1" [("url", JStr Fixture.photo_url)] [])
                          Fixture.listed (snd o) (Fixture.answer o)
                          "properties/p-1/one.png" _ _ Ho _))).
  - vm_compute. reflexivity.
  - vm_compute. reflexivity.
  - vm_compute. reflexivity.
Defined.

(** ** What an attach stores *)

Lemma upload_each_stores (d : Deps) (id : string) (fs : list File) :
  forall (acc : list JsVal) (s s' : State) (out : list JsVal),
    upload_each d ("properties/" +:+ id) fs acc s = (Val out, s') ->
    forall (i : nat) (f : File),
      fs !! i = Some f ->
      objects s' !! (PROPERTY_BUCKET, attach_key d id (uuids_drawn s + i) f)
      = Some (buffer f).
Proof.
  induction fs as [|f0 fs IH]; intros acc s s' out Hrun i f Hi; [discriminate|].
  assert (E : upload_each d ("properties/" +:+ id) (f0 :: fs) acc s
              = match uploadToBucket d PROPERTY_BUCKET (buffer f0) (originalname f0)
                        (mimetype f0) ("properties/" +:+ id) s with
                | (Val r, s1) =>
                    upload_each d ("properties/" +:+ id) fs (acc ++ [JStr (snd r)]) s1
                | (Throw x, s1) => (Throw x, s1)
                end) by reflexivity.
  rewrite E in Hrun. clear E.
  destruct (uploadToBucket d _ _ _ _ _ s) as [[r|x] s1] eqn:Hup; [|discriminate].
  apply uploadToBucket_success in Hup. cbv zeta in Hup.
  destruct Hup as (_ & _ & _ & ->).
  destruct i as [|j].
  - injection Hi as <-. rewrite Nat.add_0_r.
    match type of Hrun with upload_each d ?fo fs ?a ?s1 = _ =>
      destruct (upload_each_quiet d fo fs a s1) as (_ & _ & Hk) end.
    rewrite Hrun in Hk. cbn [snd] in Hk. apply Hk.
    cbn [objects set_objects]. apply lookup_insert_eq.
  - cbn [lookup list_lookup] in Hi.
    specialize (IH _ _ _ _ Hrun j f Hi).
    cbn [uuids_drawn set_objects log set_uuids_drawn] in IH.
    by rewrite Nat.add_succ_r.
Qed.

Lemma upload_images_inv (d : Deps) (req : Request) (s s' : State) (res : Response) :
  upload_images d req s = (Val res, s') ->
  status res = 200 ->
  exists uploaded s2,
    upload_each d ("properties/" +:+ param_id req) (default [] (files req)) []
      (log (read_images (param_id req)) s) = (Val uploaded, s2)
    /\ objects s' = objects s2.
Proof.
  rewrite upload_images_run. cbv zeta. intros Hrun Hst.
  destruct (Nat.eqb _ 0); [injection Hrun as <- <-; discriminate|].
  rewrite db_select_single_run in Hrun. fold (read_images (param_id req)) in Hrun.
  destruct (fault d _ _) as [|e|x].
  2:{ cbn [error db_error] in Hrun. destruct (not_found _);
        injection Hrun as <- <-; discriminate. }
  2:{ injection Hrun as <- <-; discriminate. }
  destruct (List.filter _ _) as [|row [|]];
    cbn [error db_error ok_row data not_found] in Hrun;
    try (injection Hrun as <- <-; discriminate).
  destruct (upload_each d _ _ _ _) as [[uploaded|x] s2] eqn:Hup.
  2:{ injection Hrun as <- <-; discriminate. }
  exists uploaded, s2. split; [reflexivity|].
  rewrite db_update_run in Hrun. cbv zeta in Hrun.
  destruct (fault d _ _) as [|e|x]; try (injection Hrun as <- <-; discriminate).
  destruct (List.filter _ _) as [|r [|]]; try (injection Hrun as <- <-; discriminate).
  destruct (negb _); [injection Hrun as <- <-; discriminate|].
  cbn [error data ok_row] in Hrun. by injection Hrun as <- <-.
Qed.

(** After an attach answered 200 the bucket holds every file of the
    request under its own key, with the file's bytes, the keys are
    pairwise different, and every object that was in the bucket before
    is still there unchanged: an attach never overwrites. *)
Theorem attach_stores_each_file (d : Deps) (req : Request) (s s' : State)
    (res : Response) :
  upload_images d req s = (Val res, s') ->
  status res = 200 ->
  let id := param_id req in
  let fs := default [] (files req) in
  (forall i f, fs !! i = Some f ->
               objects s' !! (PROPERTY_BUCKET, attach_key d id (uuids_drawn s + i) f)
               = Some (buffer f))
  /\ NoDup (attach_keys d id (uuids_drawn s) fs)
  /\ (forall k, k ∈ attach_keys d id (uuids_drawn s) fs ->
                objects s !! (PROPERTY_BUCKET, k) = None)
  /\ (forall bk v, objects s !! bk = Some v -> objects s' !! bk = Some v).
Proof.
  intros Hrun Hst id fs.
  destruct (upload_images_inv d req s s' res Hrun Hst) as (uploaded & s2 & Hup & Hobj).
  fold id fs in Hup.
  split; [|split; [|split]].
  - intros i f Hi. rewrite Hobj.
    apply (upload_each_stores d id fs _ _ _ _ Hup i f Hi).
  - by apply upload_each_success in Hup as (_ & _ & _ & _ & _ & _ & Hnd & _).
  - by apply upload_each_success in Hup as (_ & _ & _ & _ & _ & _ & _ & Hfree & _).
  - intros bk v Hbk. rewrite Hobj.
    destruct (upload_each_quiet d ("properties/" +:+ id) fs []
                (log (read_images id) s)) as (_ & _ & Hk).
    rewrite Hup in Hk. by apply Hk.
Qed.

Lemma attach_stores_each_file_witness :
  objects (snd (upload_images (Fixture.deps Fixture.no_fault)
                  (set_files [Fixture.photo1; Fixture.photo2]
                     (Fixture.as_admin "p-2" [] []))
                  Fixture.listed))
  !! (PROPERTY_BUCKET, "properties/p-2/uuid-b.jpg") = Some (buffer Fixture.photo2).
Proof.
  pose (o := upload_images (Fixture.deps Fixture.no_fault)
               (set_files [Fixture.photo1; Fixture.photo2] (Fixture.as_admin "p-2" [] []))
               Fixture.listed).
  assert (Ho : o = (Val (Fixture.answer o), snd o))
    by (apply answered_eq; vm_compute; reflexivity).
  destruct (attach_stores_each_file _ _ _ _ _ Ho) as (H & _); [vm_compute; reflexivity|].
  exact (H 1 Fixture.photo2 eq_refl).
Defined.

(** ** What attach and detach leave alone *)

Lemma matches_unique (k id id' : string) (x : Obj) :
  matches k id x = true -> matches k id' x = true -> id = id'.
Proof.
  unfold matches, is_str. destruct (get k x); try discriminate. cbn [strict_eq].
  intros H1 H2. apply String.eqb_eq in H1, H2. congruence.
Qed.

Lemma db_update_other_rows (d : Deps) (patch : Obj) (id id' : string) (s : State) :
  stringify patch !! "id" = None ->
  id' <> id ->
  let s' := snd (db_update d "properties" patch "id" id s) in
  List.filter (matches "id" id') (rows "properties" s')
  = List.filter (matches "id" id') (rows "properties" s)
  /\ (forall t, t <> "properties" -> rows t s' = rows t s).
Proof.
  intros Hid Hne. cbv zeta. rewrite db_update_run. cbv zeta.
  destruct (fault d _ _) as [|e|x]; try (split; [reflexivity|intros; reflexivity]).
  destruct (List.filter (matches "id" id) _) as [|r [|]] eqn:Hr;
    try (split; [reflexivity|intros; reflexivity]).
  destruct (negb _); [split; [reflexivity|intros; reflexivity]|].
  cbn [snd]. split; [|intros t Ht; by apply rows_set_tables_ne].
  rewrite rows_set_tables.
  2:{ intros r0. apply rows_map_in_json.
      by apply (updated_row_in_json "properties" s (matches "id" id)). }
  change (rows "properties" (log (DbUpdate "properties" patch "id" id) s))
    with (rows "properties" s).
  assert (Hkeep : forall x, matches "id" id' (stringify patch ∪ x) = matches "id" id' x).
  { intros x. unfold matches, get. by rewrite lookup_union_r. }
  rewrite filter_map_same.
  - rewrite <- (map_id (List.filter (matches "id" id') (rows "properties" s))) at 2.
    apply map_ext_in. intros x Hx. apply filter_In in Hx as [_ Hx].
    destruct (matches "id" id x) eqn:Hm; [|reflexivity].
    by destruct Hne; apply (matches_unique "id" id' id x).
  - intros x. destruct (matches "id" id x) eqn:Hm; [|reflexivity].
    rewrite Hkeep.
    assert (Hrm : matches "id" id r = true).
    { assert (Hin : In r (List.filter (matches "id" id) (rows "properties" s)))
        by (rewrite Hr; by left).
      by apply filter_In in Hin as [_ ?]. }
    destruct (matches "id" id' r) eqn:H1, (matches "id" id' x) eqn:H2; try reflexivity.
    + by destruct Hne; apply (matches_unique "id" id' id r).
    + by destruct Hne; apply (matches_unique "id" id' id x).
Qed.

Lemma images_literal_no_id (l : list JsVal) :
  stringify (literal [("images", JArr l)]) !! "id" = None.
Proof.
  apply stringify_lookup_None. unfold literal. simpl. by rewrite lookup_insert_ne.
Qed.

(** The last state of an attach or a detach is the one it started
    from, as far as the tables go, or the one left by a single update
    of the images column of the addressed row. *)
Lemma upload_images_state (d : Deps) (req : Request) (s : State) :
  tables (snd (upload_images d req s)) = tables s
  \/ exists l s2,
       tables s2 = tables s
       /\ snd (upload_images d req s)
          = snd (db_update d "properties" (literal [("images", JArr l)]) "id"
                   (param_id req) s2).
Proof.
  rewrite upload_images_run. cbv zeta.
  destruct (Nat.eqb _ 0); [by left|].
  pose proof (db_select_single_state d "properties" (Some ["id"; "images"]) "id"
                (param_id req) s) as Hs1.
  destruct (db_select_single d _ _ _ _ s) as [[r|x] s1]; cbn [snd] in Hs1; subst s1;
    [|by left].
  destruct (not_found _); [by left|].
  destruct (error r); [by left|].
  match goal with |- context [upload_each d ?f ?fs ?a ?s1] =>
    destruct (upload_each_quiet d f fs a s1) as (Ht & _);
    destruct (upload_each d f fs a s1) as [[uploaded|x] s2] end;
    cbn [snd tables log] in Ht; [|by left].
  destruct (data r) as [prop|]; [|by left].
  right.
  match goal with |- context [db_update d _ (literal [("images", JArr ?l)]) _ _ _] =>
    exists l, s2 end.
  split; [exact Ht|].
  destruct (db_update d _ _ _ _ s2) as [[u|x] s3]; [|reflexivity].
  destruct (error u), (data u); reflexivity.
Qed.

Lemma delete_image_state (d : Deps) (req : Request) (s : State) :
  tables (snd (delete_image d req s)) = tables s
  \/ exists l s2,
       tables s2 = tables s
       /\ snd (delete_image d req s)
          = snd (db_update d "properties" (literal [("images", JArr l)]) "id"
                   (param_id req) s2).
Proof.
  rewrite delete_image_run. cbv zeta.
  destruct (falsy _); [by left|].
  pose proof (db_select_single_state d "properties" (Some ["id"; "images"]) "id"
                (param_id req) s) as Hs1.
  destruct (db_select_single d _ _ _ _ s) as [[r|x] s1]; cbn [snd] in Hs1; subst s1;
    [|by left].
  destruct (not_found _); [by left|].
  destruct (error r); [by left|].
  destruct (data r) as [prop|]; [|by left].
  destruct (negb _); [by left|].
  destruct (get "url" (body req)) as [| | | | |urls| |]; try (by left).
  destruct (indexOf detach_base urls) as [idx|]; [|by left].
  rewrite storage_remove_run. cbv zeta.
  destruct (fault d _ _) as [|e|x]; try (by left).
  right.
  match goal with |- context [db_update d _ (literal [("images", JArr ?l)]) _ _ ?s2] =>
    exists l, s2; split; [reflexivity|];
    destruct (db_update d "properties" (literal [("images", JArr l)]) "id"
                (param_id req) s2) as [[u|x] s3] end;
    [destruct (error u), (data u); reflexivity|reflexivity].
Qed.

(** Attaching to or detaching from one property, however the request
    ends, leaves the images of every other property and the rows of
    every other table as they were. *)
Theorem other_properties_untouched (d : Deps) (req : Request) (s : State) (id' : string) :
  id' <> param_id req ->
  images_at id' (snd (upload_images d req s)) = images_at id' s
  /\ images_at id' (snd (delete_image d req s)) = images_at id' s
  /\ (forall t, t <> "properties" ->
        rows t (snd (upload_images d req s)) = rows t s
        /\ rows t (snd (delete_image d req s)) = rows t s).
Proof.
  intros Hne.
  assert (Hgen : forall s',
            (tables s' = tables s
             \/ exists l s2,
                  tables s2 = tables s
                  /\ s' = snd (db_update d "properties" (literal [("images", JArr l)]) "id"
                                 (param_id req) s2)) ->
            images_at id' s' = images_at id' s
            /\ (forall t, t <> "properties" -> rows t s' = rows t s)).
  { intros s' [Ht | (l & s2 & Ht & ->)].
    - split; [unfold images_at, rows; by rewrite Ht|intros; unfold rows; by rewrite Ht].
    - destruct (db_update_other_rows d (literal [("images", JArr l)]) (param_id req) id' s2
                  (images_literal_no_id l) Hne) as [Hf Ho].
      split.
      + unfold images_at. rewrite Hf. unfold rows. by rewrite Ht.
      + intros t Hother. rewrite (Ho t Hother). unfold rows. by rewrite Ht. }
  destruct (Hgen _ (upload_images_state d req s)) as [H1 H2].
  destruct (Hgen _ (delete_image_state d req s)) as [H3 H4].
  split; [exact H1|]. split; [exact H3|]. intros t Hother. split; auto.
Qed.

Lemma other_properties_untouched_witness :
  images_at "p-1"
    (snd (upload_images (Fixture.deps Fixture.no_fault)
            (set_files [Fixture.photo1] (Fixture.as_admin "p-2" [] [])) Fixture.listed))
  = images_at "p-1" Fixture.listed.
Proof.
  refine (proj1 (other_properties_untouched (Fixture.deps Fixture.no_fault)
                   (set_files [Fixture.photo1] (Fixture.as_admin "p-2" [] []))
                   Fixture.listed "p-1" _)).
  discriminate.
Defined.

(** ** Updating a review *)

Lemma get_union_stringify (k : string) (p r : Obj) :
  get k (stringify p ∪ r)
  = if is_undefined (get k p) then get k r else wire (get k p).
Proof.
  unfold get. destruct (p !! k) as [v|] eqn:Hp.
  - change (default JUndefined (Some v)) with v.
    destruct (is_undefined v) eqn:Hv.
    + rewrite lookup_union_r; [reflexivity|].
      by rewrite stringify_lookup, Hp, Hv.
    + rewrite (lookup_union_Some_l _ _ k (wire v)); [reflexivity|].
      by rewrite stringify_lookup, Hp, Hv.
  - change (is_undefined (default JUndefined None)) with true. cbv iota.
    rewrite lookup_union_r; [reflexivity|].
    by apply stringify_lookup_None.
Qed.

Lemma review_update_payload_get (b : Obj) (uid : string) :
  get "customerName" (review_update_payload b uid) = get "customerName" b
  /\ get "ratings" (review_update_payload b uid) = get "ratings" b
  /\ get "image" (review_update_payload b uid) = get "image" b
  /\ get "review" (review_update_payload b uid) = get "comments" b
  /\ get "updated_by" (review_update_payload b uid) = JStr uid.
Proof.
  unfold review_update_payload, literal; cbn [list_to_map foldr uncurry].
  repeat split;
    repeat first [ rewrite get_insert_eq | rewrite get_insert_ne by discriminate ];
    reflexivity.
Qed.

Lemma review_update_payload_other (b : Obj) (uid k : string) :
  k ∉ review_update_columns -> review_update_payload b uid !! k = None.
Proof.
  intros Hk. unfold review_update_payload, literal.
  by apply not_elem_of_list_to_map_1.
Qed.

(** A review update answered 200 rewrote the one row with that id: the
    [review] column took the body's [comments] when the body has one,
    [customerName], [ratings] and [image] took the body's values when
    present, each in the form JSON carries it to the store (ratings
    that are not a finite number arrive as null), [updated_by] is the
    caller, and no other column changed.  A [review] field in the body
    plays no part. *)
Theorem update_review_writes (d : Deps) (req : Request) (s : State) :
  let id := param_id req in
  let b := body req in
  (forall v, update_review d (set_body (<["review" := v]> b) req) s
             = update_review d req s)
  /\ (forall res s',
      update_review d req s = (Val res, s') ->
      status res = 200 ->
      exists u row row',
        user req = Some u
        /\ List.filter (matches "id" id) (rows "reviews" s) = [row]
        /\ rows "reviews" s'
           = List.map (fun x => if matches "id" id x then row' else x) (rows "reviews" s)
        /\ get "updated_by" row' = JStr (user_id u)
        /\ get "review" row'
           = (if is_undefined (get "comments" b) then get "review" row
              else wire (get "comments" b))
        /\ (forall k, k ∈ ["customerName"; "ratings"; "image"] ->
                      get k row'
                      = if is_undefined (get k b) then get k row else wire (get k b))
        /\ (forall k, k ∉ review_update_columns -> row' !! k = row !! k)).
Proof.
  intros id b. split.
  - intros v. rewrite !update_review_run. cbv zeta. cbn [param_id body user set_body].
    destruct (db_select_single d _ _ _ _ s) as [[r|x] s1]; [|reflexivity].
    destruct (not_found _); [reflexivity|].
    destruct (error r); [reflexivity|].
    destruct (user req) as [u|]; [|reflexivity].
    replace (review_update_payload (<["review" := v]> b) (user_id u))
      with (review_update_payload b (user_id u)); [reflexivity|].
    unfold review_update_payload. by rewrite !(get_insert_ne "review") by discriminate.
  - intros res s'. rewrite update_review_run. cbv zeta. fold id b. intros Hrun Hst.
    rewrite db_select_single_run in Hrun.
    destruct (fault d _ _) as [|e|x].
    2:{ cbn [error db_error] in Hrun. destruct (not_found _);
          injection Hrun as <- <-; discriminate. }
    2:{ injection Hrun as <- <-; discriminate. }
    destruct (List.filter _ _) as [|row [|]] eqn:Hrow;
      cbn [error db_error ok_row data not_found] in Hrun;
      try (injection Hrun as <- <-; discriminate).
    destruct (user req) as [u|]; [|injection Hrun as <- <-; discriminate].
    destruct (db_update_effect d "reviews" (review_update_payload b (user_id u)) "id" id
                (log (DbSelectSingle "reviews" (Some ["id"]) "id" id) s) row Hrow)
      as (r & s2 & Hu & Hcase & _).
    rewrite Hu in Hrun.
    destruct Hcase as [(w & -> & Herr & Hrows) | (Herr & _)].
    + rewrite Herr in Hrun. injection Hrun as <- <-.
      destruct (review_update_payload_get b (user_id u)) as (G1 & G2 & G3 & G4 & G5).
      exists u, row, (stringify (review_update_payload b (user_id u)) ∪ row).
      split; [reflexivity|]. split; [reflexivity|]. split; [exact Hrows|].
      split; [by rewrite get_union_stringify, G5|].
      split; [by rewrite get_union_stringify, G4|]. split.
      * intros k Hk. rewrite get_union_stringify.
        rewrite !elem_of_cons in Hk. destruct Hk as [-> | [-> | [-> | Hk]]];
          [by rewrite G1|by rewrite G2|by rewrite G3|by apply elem_of_nil in Hk].
      * intros k Hk. apply lookup_union_r, stringify_lookup_None.
        by apply review_update_payload_other.
    + destruct r as [w|x]; [|injection Hrun as <- <-; discriminate].
      destruct (error w) eqn:He; [injection Hrun as <- <-; discriminate|].
      by destruct (Herr w eq_refl).
Qed.

Lemma update_review_writes_witness :
  exists row',
    rows "reviews"
      (snd (update_review (Fixture.deps Fixture.no_fault)
              (set_user Fixture.alice
                 (Fixture.as_admin "r-1"
                    [("comments", JStr "Great"); ("review", JStr "x");
                     ("ratings", JInfinity false)] []))
              Fixture.reviewed))
    = [row']
    /\ get "review" row' = JStr "Great"
    /\ get "image" row' = JStr ""
    /\ get "ratings" row' = JNull.
Proof.
  pose (rq := set_user Fixture.alice
                (Fixture.as_admin "r-1"
                   [("comments", JStr "Great"); ("review", JStr "x");
                    ("ratings", JInfinity false)] [])).
  pose (o := update_review (Fixture.deps Fixture.no_fault) rq Fixture.reviewed).
  assert (Ho : o = (Val (Fixture.answer o), snd o))
    by (apply answered_eq; vm_compute; reflexivity).
  destruct (update_review_writes (Fixture.deps Fixture.no_fault) rq Fixture.reviewed)
    as [_ H].
  destruct (H _ _ Ho) as (u & row & row' & _ & Hrow & Hrows & _ & Hrev & Hcols & _);
    [vm_compute; reflexivity|].
  assert (E : List.filter (matches "id" (param_id rq)) (rows "reviews" Fixture.reviewed)
              = [Fixture.review_row]) by (vm_compute; reflexivity).
  rewrite E in Hrow. injection Hrow as <-.
  exists row'. split; [|split; [|split]].
  - refine (eq_trans Hrows _).
    replace (rows "reviews" Fixture.reviewed) with [Fixture.review_row]
      by (vm_compute; reflexivity).
    cbn [List.map].
    replace (matches "id" (param_id rq) Fixture.review_row) with true
      by (vm_compute; reflexivity).
    reflexivity.
  - rewrite Hrev. vm_compute. reflexivity.
  - rewrite (Hcols "image") by (rewrite !elem_of_cons; auto). vm_compute. reflexivity.
  - rewrite (Hcols "ratings") by (rewrite !elem_of_cons; auto). vm_compute. reflexivity.
Defined.

(** ** Uploading a review image *)

(** The review-image upload touches the bucket only.  With no file it
    answers 400 and does nothing; with a file it either answers 200
    with the public URL of a key under [reviews/] in the review bucket,
    a key that was free and now holds the file, or answers 500 and
    leaves the bucket as it was. *)
Theorem upload_review_image_result (d : Deps) (f : File) (s : State) :
  let key := "reviews/" +:+ uuid d (uuids_drawn s) +:+ "."
             +:+ upload_ext d (originalname f) (mimetype f) in
  let out := upload_review_image d (Some f) s in
  upload_review_image d None s = (Val (message 400 "No file uploaded"), s)
  /\ tables (snd out) = tables s
  /\ outbox (snd out) = outbox s
  /\ ((fst out = Val {| status := 200;
                        json := JObj [("url", JStr (getPublicUrl d REVIEW_BUCKET key))] |}
       /\ objects s !! (REVIEW_BUCKET, key) = None
       /\ objects (snd out) = <[(REVIEW_BUCKET, key) := buffer f]> (objects s))
      \/ (exists m, fst out = Val (message_error 500 "Upload failed" m)
                    /\ objects (snd out) = objects s)).
Proof.
  intros key out. split; [reflexivity|].
  subst out. unfold upload_review_image, try_catch, bind.
  rewrite uploadToBucket_run. cbv zeta.
  change (object_key "reviews" (uuid d (uuids_drawn s))
            (upload_ext d (originalname f) (mimetype f))) with key.
  rewrite storage_upload_run. cbv zeta. cbn [trace objects set_uuids_drawn].
  destruct (fault d _ _) as [|e|x].
  - destruct (objects s !! (REVIEW_BUCKET, key)) as [old|] eqn:Hold.
    + split; [reflexivity|]. split; [reflexivity|]. right. by eexists.
    + split; [reflexivity|]. split; [reflexivity|]. left. auto.
  - split; [reflexivity|]. split; [reflexivity|]. right. by eexists.
  - split; [reflexivity|]. split; [reflexivity|]. right. by eexists.
Qed.

(** ** The upload limits *)

(** A batch of more than ten files, or one with a file over 10 MiB,
    never reaches the attach handler, and nothing is uploaded or
    written: either the gate refuses the request with its 401, 403 or
    500, or multer hands its error on and the request leaves the
    router after the gate's reads.  The application has no error
    middleware of its own, so the caller gets Express's error page with
    status 500: one way or the other the status is 401, 403 or 500. *)
Theorem attach_limits_enforced (d : Deps) (req : Request) (s : State) :
  10 < length (multipart req) \/ existsb too_large (multipart req) = true ->
  let out := post_admin_properties_upload_images d req s in
  reads_only s (snd out)
  /\ ((exists res, fst out = Val res
                   /\ (status res = 401 \/ status res = 403 \/ status res = 500))
      \/ (exists err, fst out = Throw err
                      /\ (err = LIMIT_UNEXPECTED_FILE \/ err = LIMIT_FILE_SIZE)))
  /\ (exists reply s',
        serve (post_admin_properties_upload_images d) req s = (reply, s')
        /\ (reply_status reply = 401 \/ reply_status reply = 403
            \/ reply_status reply = 500)
        /\ reads_only s s').
Proof.
  intros Hover. cbv zeta.
  assert (Hlim : over_limit 10 (multipart req) = true).
  { unfold over_limit. destruct Hover as [Hlen | Hbig].
    - apply Nat.ltb_lt in Hlen. by rewrite Hlen.
    - rewrite Hbig. apply orb_true_r. }
  unfold serve, post_admin_properties_upload_images.
  change (route [verifySupabaseUser d; requireAdmin d; upload_array 10] (upload_images d))
    with (route [verifySupabaseUser d; requireAdmin d]
            (route [upload_array 10] (upload_images d))).
  destruct (gate_cases d (route [upload_array 10] (upload_images d)) req s)
    as [(res & s1 & Hr & Hst & Hro) | (u & a & s1 & Hr & Hro)]; rewrite Hr.
  - cbn [fst snd]. split; [exact Hro|]. split; [left; by exists res|].
    exists (Json res), s1. auto.
  - unfold route, upload_array, bind. cbn [multipart set_admin set_user].
    destruct (multer_scan 10 (multipart req)) as [err|] eqn:Hscan.
    + destruct (multer_scan_Some _ _ _ Hscan) as [_ Herr].
      cbn [ret throw fst snd]. split; [exact Hro|]. split; [right; by exists err|].
      exists (ErrorPage 500 err), s1. cbn [reply_status]. auto.
    + apply multer_scan_None in Hscan. congruence.
Qed.

Lemma attach_limits_enforced_witness :
  reads_only Fixture.listed
    (snd (post_admin_properties_upload_images (Fixture.deps Fixture.no_fault)
            (Fixture.as_admin "p-1" [] Fixture.eleven_photos) Fixture.listed))
  /\ fst (post_admin_properties_upload_images (Fixture.deps Fixture.no_fault)
            (Fixture.as_admin "p-1" [] Fixture.eleven_photos) Fixture.listed)
     = Throw LIMIT_UNEXPECTED_FILE.
Proof.
  split; [|vm_compute; reflexivity].
  refine (proj1 (attach_limits_enforced (Fixture.deps Fixture.no_fault)
                   (Fixture.as_admin "p-1" [] Fixture.eleven_photos) Fixture.listed _)).
  left. cbn. lia.
Defined.

(** ** Who a created row belongs to *)

Lemma gate_cases_user (d : Deps) (handler : Request -> M Response) (req : Request)
    (s : State) :
  (exists res s1,
      route [verifySupabaseUser d; requireAdmin d] handler req s = (Val res, s1)
      /\ (status res = 401 \/ status res = 403 \/ status res = 500)
      /\ reads_only s s1)
  \/ (exists t u a s1,
      bearer_token req = Some t /\ sessions d !! t = Some u
      /\ reads_only s s1
      /\ route [verifySupabaseUser d; requireAdmin d] handler req s
         = handler (set_admin a (set_user u req)) s1).
Proof.
  destruct (verifySupabaseUser_cases d req s) as (st & s1 & Hv & Hro & Hst).
  assert (Huser : forall u, st = Next (set_user u req) ->
                            exists t, bearer_token req = Some t /\ sessions d !! t = Some u).
  { intros u ->. revert Hv. unfold verifySupabaseUser, try_catch, bind.
    destruct (bearer_token req) as [t|]; [|discriminate].
    destruct (String.eqb t ""); [discriminate|].
    rewrite auth_getUser_run.
    destruct (fault d _ _); try discriminate.
    destruct (sessions d !! t) as [u'|] eqn:Hs; [|discriminate].
    cbn [auth_error auth_user ret]. intros Heq.
    exists t. split; [reflexivity|]. unfold set_user in Heq. congruence. }
  unfold route, bind. rewrite Hv.
  destruct Hst as [(res & -> & Hres) | (u & ->)].
  - left. exists res, s1. auto.
  - destruct (Huser u eq_refl) as (t & Htok & Hsess).
    destruct (requireAdmin_cases d (set_user u req) s1) as (st2 & s2 & Hr & Hro2 & Hst2).
    rewrite Hr.
    destruct Hst2 as [(res & -> & Hres) | (a & -> & _)].
    + left. exists res, s2. split; [reflexivity|]. split; [exact Hres|].
      eapply reads_only_trans; eassumption.
    + right. exists t, u, a, s2. split; [exact Htok|]. split; [exact Hsess|].
      split; [eapply reads_only_trans; eassumption|reflexivity].
Qed.

Lemma create_property_created_by (d : Deps) (req : Request) (s s' : State)
    (res : Response) (u : User) :
  user req = Some u ->
  create_property d req s = (Val res, s') ->
  status res = 201 ->
  exists row,
    rows "properties" s' = rows "properties" s ++ [row]
    /\ get "created_by" row = JStr (user_id u)
    /\ (forall k, k ∈ required_property_fields -> get k row = wire (get k (body req)))
    /\ json res = JObj (map_to_list row).
Proof.
  intros Hu. rewrite create_property_run, Hu. intros Hrun Hst.
  destruct (missing_check _); [injection Hrun as <- <-; discriminate|].
  rewrite db_insert_run in Hrun. cbv zeta in Hrun.
  rewrite (stringify_lookup_None "id") in Hrun by apply property_payload_no_id.
  destruct (fault d _ _) as [|e|x];
    [|injection Hrun as <- <-; discriminate|injection Hrun as <- <-; discriminate].
  destruct (negb _); [injection Hrun as <- <-; discriminate|].
  destruct (get "id" _) as [| | | | |pid| |]; try (injection Hrun as <- <-; discriminate).
  destruct (existsb _ _); [injection Hrun as <- <-; discriminate|].
  injection Hrun as <- <-.
  eexists. split; [apply rows_set_tables; intros r0; apply inserted_row_in_json|].
  split; [|split; [|reflexivity]].
  - rewrite get_insert_ne by discriminate. rewrite get_stringify.
    unfold property_payload, literal; cbn [list_to_map foldr uncurry].
    repeat first [ rewrite get_insert_eq | rewrite get_insert_ne by discriminate ].
    reflexivity.
  - intros k Hk. rewrite get_insert_ne, get_stringify.
    + by rewrite property_payload_get.
    + intros <-. unfold required_property_fields in Hk.
      rewrite !elem_of_cons in Hk.
      repeat (destruct Hk as [Hk | Hk]; [discriminate|]). by apply elem_of_nil in Hk.
Qed.

(** A property the create route answers 201 for was stored with the
    caller's values in the seven required columns, each in the form
    JSON carries it to the store, and with [created_by] set to the id
    of the session user the bearer token belongs to. *)
Theorem created_property_belongs_to_caller (d : Deps) (req : Request) (s s' : State)
    (res : Response) :
  post_admin_properties d req s = (Val res, s') ->
  status res = 201 ->
  exists t u row,
    bearer_token req = Some t
    /\ sessions d !! t = Some u
    /\ rows "properties" s' = rows "properties" s ++ [row]
    /\ get "created_by" row = JStr (user_id u)
    /\ (forall k, k ∈ required_property_fields -> get k row = wire (get k (body req)))
    /\ json res = JObj (map_to_list row).
Proof.
  unfold post_admin_properties. intros Hrun Hst.
  destruct (gate_cases_user d (create_property d) req s)
    as [(res0 & s1 & Hr & Hst0 & _) | (t & u & a & s1 & Htok & Hsess & Hro & Hr)].
  - rewrite Hr in Hrun. injection Hrun as <- <-. lia.
  - rewrite Hr in Hrun.
    apply (create_property_created_by d (set_admin a (set_user u req)) s1 s' res u eq_refl) in Hrun; [|exact Hst].
    destruct Hrun as (row & Hrows & Hby & Hk & Hj).
    cbn [body set_admin set_user] in Hk.
    exists t, u, row. rewrite (reads_only_rows _ _ _ Hro) in Hrows. auto 10.
Qed.

Lemma created_property_belongs_to_caller_witness :
  exists t u row,
    bearer_token (Fixture.as_admin "" Fixture.flat []) = Some t
    /\ sessions (Fixture.deps Fixture.no_fault) !! t = Some u
    /\ rows "properties" (snd Fixture.created) = rows "properties" Fixture.start ++ [row]
    /\ get "created_by" row = JStr (user_id u).
Proof.
  assert (HC : Fixture.created = (Val (Fixture.answer Fixture.created), snd Fixture.created))
    by (apply answered_eq; vm_compute; reflexivity).
  destruct (created_property_belongs_to_caller _ _ _ _ _ HC)
    as (t & u & row & Htok & Hsess & Hrows & Hby & _); [vm_compute; reflexivity|].
  exists t, u, row. auto.
Defined.
